(** * Nestra ml-analytics: training orchestrator and explanation engine

    A shallow embedding of
      - training/utils/trainer.py      (EarlyStopping, ProductionTrainer)
      - training/utils/data_loader.py  (normalize_features)
      - training/explain_model.py      (SHAP path, mock path, main)
      - training/train_*.py            (label rules, the common end of main)
    and the properties of the specification that concern them.

    Conventions of the embedding.
      - Losses, scores and attributions are exact rationals ([Q]): the
        properties stated about them are comparisons and sums that do not
        turn on rounding.  Where rounding decides what the code does (the
        split index of [prepare_data], the mean and standard deviation of
        a float array) floats are IEEE 754 values ([spec_float], binary64
        for Python floats, binary32 for the feature arrays), computed by
        the Standard Library's executable specification.
      - Python ints are [Z]; list positions and loop indices are [nat].
      - Torch tensors live in a store ([loc -> tensor]); a module, a
        state_dict and a shallow copy of it hold *references* into that
        store, as in PyTorch.
      - Calls into torch, numpy, onnxruntime and shap whose results the
        sources do not determine are parameters (Section variables or record
        fields); what the sources do with their results is modelled as
        written. *)

From Stdlib Require Import QArith Qabs Qround ZArith List Bool Lia Sorted Permutation.
From Stdlib Require Import SpecFloat.
From stdpp Require Import base option list functions gmap strings.

Import ListNotations.

#[local] Open Scope Q_scope.
#[local] Open Scope list_scope.

(** ** Python floats as rationals *)

Module PyFloat.

(** [x < y] on floats *)
Definition ltb (x y : Q) : bool := negb (Qle_bool y x).

(** [x > y] on floats *)
Definition gtb (x y : Q) : bool := ltb y x.

(** [sum(xs)], which starts from 0 and adds left to right *)
Definition sum (xs : list Q) : Q := fold_left Qplus xs 0.

End PyFloat.

(** ** IEEE 754 floats

    Python's [float] is binary64 and the feature arrays of the training
    scripts are binary32; every operation rounds to nearest, ties to
    even. *)

Module IEEE.

Record format := { prec : Z; emax : Z }.

Definition binary32 : format := {| prec := 24; emax := 128 |}.
Definition binary64 : format := {| prec := 53; emax := 1024 |}.

(** the float of an int *)
Definition of_Z (f : format) (z : Z) : spec_float :=
  binary_normalize (prec f) (emax f) z 0 false.

Definition add (f : format) : spec_float -> spec_float -> spec_float :=
  SFadd (prec f) (emax f).
Definition sub (f : format) : spec_float -> spec_float -> spec_float :=
  SFsub (prec f) (emax f).
Definition mul (f : format) : spec_float -> spec_float -> spec_float :=
  SFmul (prec f) (emax f).
Definition div (f : format) : spec_float -> spec_float -> spec_float :=
  SFdiv (prec f) (emax f).
Definition sqrt (f : format) : spec_float -> spec_float :=
  SFsqrt (prec f) (emax f).

(** [x > y]; false when either is NaN *)
Definition gtb (x y : spec_float) : bool := SFltb y x.

(** The float nearest to [num / den], for ints that the format holds
    exactly: the value of a decimal literal such as [0.2] or [1e-6]. *)
Definition decimal (f : format) (num den : Z) : spec_float :=
  div f (of_Z f num) (of_Z f den).

(** A binary32 value as a binary64 value (exact). *)
Definition widen (x : spec_float) : spec_float :=
  match x with
  | S754_finite sg m e => binary_normalize 53 1024 (cond_Zopp sg (Zpos m)) e sg
  | _ => x
  end.

(** [int(x)]: truncation toward zero; [None] is the OverflowError for an
    infinity and the ValueError for NaN. *)
Definition to_int (x : spec_float) : option Z :=
  match x with
  | S754_zero _ => Some 0%Z
  | S754_finite sg m e =>
      Some (cond_Zopp sg
              match e with
              | Zneg k => (Zpos m / 2 ^ Zpos k)%Z
              | _ => (Zpos m * 2 ^ e)%Z
              end)
  | S754_infinity _ | S754_nan => None
  end.

End IEEE.

(** ** Python list slices [l[:i]] and [l[i:]] with an int bound *)

Module PySlice.

Definition clamp {A} (l : list A) (i : Z) : nat :=
  if (i <? 0)%Z then Z.to_nat (Z.max 0 (Z.of_nat (length l) + i))
  else Z.to_nat i.

Definition upto {A} (l : list A) (i : Z) : list A := take (clamp l i) l.
Definition from {A} (l : list A) (i : Z) : list A := drop (clamp l i) l.

End PySlice.

(** ** The tensor store *)

Definition loc := nat.

(** An [OrderedDict] from parameter names to tensors.  The tensors are
    references: [Module.state_dict()] returns the parameters' own storage. *)
Definition state_dict := list (string * loc).

(** [d.copy()] on a dict: a new dict object with the same keys bound to the
    same value objects (a shallow copy).  The copy is never mutated as a
    dict afterwards, so it is represented by its bindings. *)
Definition dict_copy (d : state_dict) : state_dict := d.

(** [bool(d)] for a dict: non-empty. *)
Definition dict_truthy (d : state_dict) : bool :=
  match d with [] => false | _ :: _ => true end.

(** A torch module, as far as the trainer sees it: its named parameters and
    buffers. *)
Record Module_ := { parameters : list (string * loc) }.

Definition Module_state_dict (m : Module_) : state_dict := parameters m.

(** ** EarlyStopping (trainer.py, lines 27-64) *)

Record EarlyStopping := {
  patience : Z;
  min_delta : Q;
  mode : string;
  counter : Z;
  best_score : option Q;
  should_stop : bool;
  best_state : option state_dict
}.

Definition default_min_delta : Q := 1 # 10000.

Definition EarlyStopping_init (patience : Z) (min_delta : Q) (mode : string)
  : EarlyStopping :=
  {| patience := patience; min_delta := min_delta; mode := mode;
     counter := 0; best_score := None; should_stop := false;
     best_state := None |}.

Definition _is_improved (self : EarlyStopping) (score : Q) : bool :=
  match best_score self with
  | None => true
  | Some best =>
      if String.eqb (mode self) "min"
      then PyFloat.ltb score (best - min_delta self)
      else PyFloat.gtb score (best + min_delta self)
  end.

(** [__call__]: the updated object and the returned flag. *)
Definition EarlyStopping_call (self : EarlyStopping) (score : Q) (model : Module_)
  : EarlyStopping * bool :=
  match best_score self with
  | None =>
      ({| patience := patience self; min_delta := min_delta self;
          mode := mode self; counter := counter self;
          best_score := Some score; should_stop := should_stop self;
          best_state := Some (dict_copy (Module_state_dict model)) |}, false)
  | Some _ =>
      if _is_improved self score then
        let self' :=
          {| patience := patience self; min_delta := min_delta self;
             mode := mode self; counter := 0;
             best_score := Some score; should_stop := should_stop self;
             best_state := Some (dict_copy (Module_state_dict model)) |} in
        (self', should_stop self')
      else
        let c := (counter self + 1)%Z in
        let self' :=
          {| patience := patience self; min_delta := min_delta self;
             mode := mode self; counter := c;
             best_score := best_score self;
             should_stop := if (patience self <=? c)%Z then true
                            else should_stop self;
             best_state := best_state self |} in
        (self', should_stop self')
  end.

(** One call per epoch on a sequence of scores. *)
Definition EarlyStopping_feed (model : Module_) (self : EarlyStopping) (scores : list Q)
  : EarlyStopping :=
  fold_left (fun es score => fst (EarlyStopping_call es score model)) scores self.

(** ** What the trainer takes from torch and numpy

    [tensor] is the value held by one parameter or buffer.  [optim] stands for
    everything torch mutates during training besides the parameters: the
    optimizer's moments and learning rate, the ReduceLROnPlateau scheduler
    and the shuffling state of the loaders.  The passes are those of
    [_train_epoch] and [_validate_epoch]: [train_pass] gives the parameter
    values after the epoch's optimizer steps together with the average
    training loss, [val_pass] the average validation loss (evaluation mode,
    no gradient, nothing mutated).  Loaders are taken to be non-empty, so
    that the averages exist. *)
Class Torch := {
  tensor : Type;
  optim : Type;
  row : Type;
  label : Type;
  rng_state : Type;
  (** [np.random.default_rng(seed)] *)
  default_rng : Z -> rng_state;
  (** [rng.permutation(n)]: the permutation and the advanced generator *)
  rng_permutation : rng_state -> nat -> list nat * rng_state;
  (** [optimizer.param_groups[0]['lr']] *)
  param_group_lr : optim -> Q;
  train_pass : list (row * label) -> bool -> optim -> list tensor ->
               list tensor * optim * Q;
  val_pass : list (row * label) -> bool -> list tensor -> Q;
  (** [scheduler.step(val_loss)] *)
  scheduler_step : optim -> Q -> optim
}.

(** The [trainHistory] object of the metadata side-car *)
Module TrainHistory.
Record t := {
  finalTrainLoss : option Q;
  finalValLoss : option Q;
  epochs : Z
}.
End TrainHistory.

Section Trainer.

Context {T : Torch}.

(** The store: every tensor reference has a value. *)
#[local] Abbreviation store := (loc -> tensor).

Definition read_all (h : store) (sd : state_dict) : list tensor :=
  map (fun kv => h (snd kv)) sd.

(** In-place update of the tensors a module refers to ([optimizer.step()]
    and the buffer updates of a training pass). *)
Definition write_all (h : store) (sd : state_dict) (vals : list tensor) : store :=
  fold_left (fun h lv => <[snd (fst lv) := snd lv]> h) (zip sd vals) h.

(** [Module.load_state_dict(sd)]: each parameter's storage receives, in
    place, the value of the tensor bound to its name in [sd]
    ([param.copy_(input_param)]); names not bound in [sd] are left alone. *)
Definition load_state_dict (h : store) (m : Module_) (sd : state_dict) : store :=
  fold_left
    (fun h kv =>
       match List.find (fun kv' => String.eqb (fst kv') (fst kv)) sd with
       | Some src => <[snd kv := h (snd src)]> h
       | None => h
       end)
    (parameters m) h.

Record TensorDataset := { tensors_x : list row; tensors_y : list label }.

Record DataLoader := {
  dataset : TensorDataset;
  loader_batch_size : Z;
  shuffle : bool
}.

Definition batches_source (d : DataLoader) : list (row * label) :=
  zip (tensors_x (dataset d)) (tensors_y (dataset d)).

Record History := {
  train_loss : list Q;
  val_loss : list Q;
  learning_rate : list Q
}.

Record ProductionTrainer := {
  seed : Z;
  rng : rng_state;
  model : Module_;
  optimizer : optim;
  early_stopping : EarlyStopping;
  batch_size : Z;
  epochs : Z;
  history : History
}.

(** [__init__]; [opt0] is the state of [optimizer_class(model.parameters(),
    lr=learning_rate)] with its scheduler.  The criterion is part of the
    passes; device selection and printing are not modelled. *)
Definition ProductionTrainer_init (model : Module_) (opt0 : optim)
    (batch_size epochs patience seed : Z) : ProductionTrainer :=
  {| seed := seed;
     rng := default_rng seed;
     model := model;
     optimizer := opt0;
     early_stopping := EarlyStopping_init patience default_min_delta "min";
     batch_size := batch_size;
     epochs := epochs;
     history := {| train_loss := []; val_loss := []; learning_rate := [] |} |}.

Definition with_rng (self : ProductionTrainer) (r : rng_state) : ProductionTrainer :=
  {| seed := seed self; rng := r; model := model self;
     optimizer := optimizer self; early_stopping := early_stopping self;
     batch_size := batch_size self; epochs := epochs self;
     history := history self |}.

Definition with_optimizer (self : ProductionTrainer) (o : optim) : ProductionTrainer :=
  {| seed := seed self; rng := rng self; model := model self;
     optimizer := o; early_stopping := early_stopping self;
     batch_size := batch_size self; epochs := epochs self;
     history := history self |}.

Definition with_early_stopping (self : ProductionTrainer) (es : EarlyStopping)
  : ProductionTrainer :=
  {| seed := seed self; rng := rng self; model := model self;
     optimizer := optimizer self; early_stopping := es;
     batch_size := batch_size self; epochs := epochs self;
     history := history self |}.

Definition with_history (self : ProductionTrainer) (hi : History) : ProductionTrainer :=
  {| seed := seed self; rng := rng self; model := model self;
     optimizer := optimizer self; early_stopping := early_stopping self;
     batch_size := batch_size self; epochs := epochs self;
     history := hi |}.

(** [a[indices]] for an integer index array: [None] is numpy's IndexError. *)
Definition take_rows {A} (a : list A) (indices : list nat) : option (list A) :=
  mapM (fun i => a !! i) indices.

(** [int(n * (1 - val_split))] (line 141), in binary64 as Python
    evaluates it: [1 - val_split] is rounded, the product is rounded, and
    [int] truncates. *)
Definition split_idx_of (n : nat) (val_split : spec_float) : option Z :=
  IEEE.to_int
    (IEEE.mul IEEE.binary64 (IEEE.of_Z IEEE.binary64 (Z.of_nat n))
              (IEEE.sub IEEE.binary64 (IEEE.of_Z IEEE.binary64 1) val_split)).

(** [prepare_data] (lines 130-152).  [val_split] is a Python float.
    [None] is an exception: numpy's IndexError, the error of [int] on an
    infinity or NaN, or a ValueError of the [DataLoader] constructor:
    with [shuffle=True] it refuses an empty dataset (its RandomSampler
    wants a positive number of samples; the validation loader does not
    shuffle and accepts an empty dataset), and it refuses a batch size that
    is not positive. *)
Definition prepare_data (self : ProductionTrainer)
    (features : list row) (labels : list label) (val_split : spec_float)
  : ProductionTrainer * option (DataLoader * DataLoader) :=
  let (indices, r) := rng_permutation (rng self) (length features) in
  (with_rng self r,
   features' ← take_rows features indices;
   labels' ← take_rows labels indices;
   split_idx ← split_idx_of (length features') val_split;
   let x_train := PySlice.upto features' split_idx in
   let x_val := PySlice.from features' split_idx in
   let y_train := PySlice.upto labels' split_idx in
   let y_val := PySlice.from labels' split_idx in
   let train_ds := {| tensors_x := x_train; tensors_y := y_train |} in
   let val_ds := {| tensors_x := x_val; tensors_y := y_val |} in
   match x_train with
   | [] => None
   | _ :: _ =>
       if (batch_size self <=? 0)%Z then None
       else
         Some ({| dataset := train_ds; loader_batch_size := batch_size self;
                  shuffle := true |},
               {| dataset := val_ds; loader_batch_size := batch_size self;
                  shuffle := false |})
   end).

(** [_train_epoch]: the parameters are updated in place. *)
Definition _train_epoch (train_loader : DataLoader) (is_classification : bool)
    (st : store * ProductionTrainer) : (store * ProductionTrainer) * Q :=
  let (h, self) := st in
  let sd := parameters (model self) in
  let '(vals, o, loss) :=
    train_pass (batches_source train_loader) is_classification
               (optimizer self) (read_all h sd) in
  ((write_all h sd vals, with_optimizer self o), loss).

Definition _validate_epoch (val_loader : DataLoader) (is_classification : bool)
    (st : store * ProductionTrainer) : Q :=
  let (h, self) := st in
  val_pass (batches_source val_loader) is_classification
           (read_all h (parameters (model self))).

(** [_update_training_state] (lines 221-238), without the printing. *)
Definition _update_training_state (epoch : nat) (train_loss_ val_loss_ : Q)
    (self : ProductionTrainer) : ProductionTrainer * bool :=
  let current_lr := param_group_lr (optimizer self) in
  let hi := history self in
  let self1 :=
    with_history self
      {| train_loss := train_loss hi ++ [train_loss_];
         val_loss := val_loss hi ++ [val_loss_];
         learning_rate := learning_rate hi ++ [current_lr] |} in
  let self2 := with_optimizer self1 (scheduler_step (optimizer self1) val_loss_) in
  let (es, stop) := EarlyStopping_call (early_stopping self2) val_loss_ (model self2) in
  let self3 := with_early_stopping self2 es in
  if stop then (self3, true) else (self3, false).

(** The body of the epoch loop of [train]: the state after the epoch, the
    two losses it computed, and whether the loop breaks. *)
Definition epoch_body (train_loader val_loader : DataLoader)
    (is_classification : bool) (epoch : nat) (st : store * ProductionTrainer)
  : (store * ProductionTrainer) * (Q * Q) * bool :=
  let (st1, tl) := _train_epoch train_loader is_classification st in
  let vl := _validate_epoch val_loader is_classification st1 in
  let (self2, stop) := _update_training_state epoch tl vl (snd st1) in
  ((fst st1, self2), (tl, vl), stop).

(** [for epoch in range(self.epochs): ...; if should_stop: break] *)
Fixpoint epoch_loop (train_loader val_loader : DataLoader)
    (is_classification : bool) (range : list nat)
    (st : store * ProductionTrainer) : store * ProductionTrainer :=
  match range with
  | [] => st
  | epoch :: range' =>
      let '(st', _, stop) :=
        epoch_body train_loader val_loader is_classification epoch st in
      if stop then st'
      else epoch_loop train_loader val_loader is_classification range' st'
  end.

(** [_finalize_training] (lines 240-246), without the printing. *)
Definition _finalize_training (st : store * ProductionTrainer)
  : store * ProductionTrainer :=
  let (h, self) := st in
  match best_state (early_stopping self) with
  | Some sd =>
      if dict_truthy sd then (load_state_dict h (model self) sd, self)
      else st
  | None => st
  end.

Definition py_range (n : Z) : list nat := seq 0 (Z.to_nat n).

(** [train] (lines 154-172): the final store and trainer; the returned
    module is [model] of the trainer, read in the final store. *)
Definition train (train_loader val_loader : DataLoader)
    (is_classification : bool) (st : store * ProductionTrainer)
  : store * ProductionTrainer :=
  _finalize_training
    (epoch_loop train_loader val_loader is_classification
                (py_range (epochs (snd st))) st).

(** The parameter values of the module [train] returns. *)
Definition returned_parameters (st : store * ProductionTrainer) : list tensor :=
  read_all (fst st) (parameters (model (snd st))).

(** The [trainHistory] that [_save_metadata] writes (lines 282-286). *)
Definition _save_metadata_trainHistory (self : ProductionTrainer)
  : TrainHistory.t :=
  {| TrainHistory.finalTrainLoss := last (train_loss (history self));
     TrainHistory.finalValLoss := last (val_loss (history self));
     TrainHistory.epochs := Z.of_nat (length (train_loss (history self))) |}.

End Trainer.

(** ** Normalization in exact arithmetic (data_loader.py, lines 22-34)

    The function on a table of rationals, every operation exact: what it
    computes when nothing is rounded.  A feature table is a list of rows of
    equal length.  [np_sqrt] is the square root numpy applies in [std]; it
    is the one operation of this function that the rationals do not have.
    The function on float arrays, with numpy's rounding, is
    [Numpy.normalize_features] below. *)

Record NormParams := { means : list Q; stds : list Q }.

(** [x / s], recording whether the divisor is zero *)
Definition checked_div (x s : Q) : option Q :=
  if Qeq_bool s 0 then None else Some (x / s).

Definition column (j : nat) (features : list (list Q)) : list Q :=
  map (fun r => nth j r 0) features.

Definition n_columns (features : list (list Q)) : nat :=
  match features with [] => O | r :: _ => length r end.

Definition np_mean (xs : list Q) : Q :=
  PyFloat.sum xs / inject_Z (Z.of_nat (length xs)).

Section Normalization.

Variable np_sqrt : Q -> Q.

(** [xs.std()]: the population standard deviation *)
Definition np_std (xs : list Q) : Q :=
  let m := np_mean xs in
  np_sqrt (np_mean (map (fun x => (x - m) * (x - m)) xs)).

Definition clamp_std (s : Q) : Q :=
  if PyFloat.gtb s (1 # 1000000) then s else 1.

(** [(row - means) / stds], element by element; [None] when some divisor
    is zero. *)
Definition normalize_row (means stds row : list Q) : option (list Q) :=
  mapM (fun xms => checked_div (fst (fst xms) - snd (fst xms)) (snd xms))
       (zip (zip row means) stds).

Definition normalize_features (features : list (list Q))
  : option (list (list Q)) * NormParams :=
  let cols := seq 0 (n_columns features) in
  let means := map (fun j => np_mean (column j features)) cols in
  let stds := map (fun j => np_std (column j features)) cols in
  let stds := map clamp_std stds in
  (mapM (normalize_row means stds) features,
   {| means := means; stds := stds |}).

End Normalization.

(** ** normalize_features on a float array (data_loader.py, lines 22-34)

    The same function as numpy evaluates it on an array of dtype [dtype]
    (the training scripts build their tables with [dtype=np.float32]).
    [mean] and [std] along axis 0 of a table with two or more columns add
    the rows up one after the other (the pairwise summation of numpy is for
    the contiguous axis) and stay in the array's dtype; [tolist()] turns
    the results into Python
    floats, exactly; the comparison with [1e-6] and the arithmetic of
    line 32, between the array and float64 arrays, are in binary64. *)

Module Numpy.

Record Params := { means : list spec_float; stds : list spec_float }.

Definition column (j : nat) (features : list (list spec_float))
  : list spec_float :=
  map (fun r => nth j r (S754_zero false)) features.

Definition n_columns (features : list (list spec_float)) : nat :=
  match features with [] => O | r :: _ => length r end.

Section Dtype.

Variable dtype : IEEE.format.

(** [add.reduce]: the first element, then one addition per further
    element *)
Definition sum (xs : list spec_float) : spec_float :=
  match xs with
  | [] => S754_zero false
  | x :: rest => fold_left (IEEE.add dtype) rest x
  end.

Definition mean (xs : list spec_float) : spec_float :=
  IEEE.div dtype (sum xs) (IEEE.of_Z dtype (Z.of_nat (length xs))).

(** [xs.std()]: the square root of the mean of the squared deviations *)
Definition std (xs : list spec_float) : spec_float :=
  let m := mean xs in
  IEEE.sqrt dtype
    (mean (map (fun x => let d := IEEE.sub dtype x m in IEEE.mul dtype d d) xs)).

(** line 30: [s if s > 1e-6 else 1.0] *)
Definition clamp_std (s : spec_float) : spec_float :=
  if IEEE.gtb s (IEEE.decimal IEEE.binary64 1 1000000) then s
  else IEEE.of_Z IEEE.binary64 1.

(** [(row - means) / stds], element by element, in binary64 *)
Definition normalize_row (means stds row : list spec_float)
  : list spec_float :=
  map (fun xms =>
         IEEE.div IEEE.binary64
           (IEEE.sub IEEE.binary64 (IEEE.widen (fst (fst xms))) (snd (fst xms)))
           (snd xms))
      (zip (zip row means) stds).

Definition normalize_features (features : list (list spec_float))
  : list (list spec_float) * Params :=
  let cols := seq 0 (n_columns features) in
  let means := map (fun j => IEEE.widen (mean (column j features))) cols in
  let stds := map (fun j => IEEE.widen (std (column j features))) cols in
  let stds := map clamp_std stds in
  (map (normalize_row means stds) features,
   {| means := means; stds := stds |}).

End Dtype.

End Numpy.

(** ** Python exceptions and the error monad of the explanation script *)

Inductive exn :=
| JSONDecodeError (msg : string)
| Exception (msg : string).

(** [str(e)] *)
Definition str (e : exn) : string :=
  match e with JSONDecodeError msg => msg | Exception msg => msg end.

Inductive result (A : Type) :=
| Ok (a : A)
| Raise (e : exn).

Arguments Ok {A} a.
Arguments Raise {A} e.

#[global] Instance result_ret : MRet result := fun A a => Ok a.

#[global] Instance result_bind : MBind result :=
  fun A B f m => match m with Ok a => f a | Raise e => Raise e end.

(** [l[i]] where an IndexError is possible *)
Definition py_index {A} (l : list A) (i : nat) : result A :=
  match l !! i with
  | Some a => Ok a
  | None => Raise (Exception "list index out of range")
  end.

(** ** [sorted]

    Python's sort is stable, also under [reverse=True]; any stable sort
    computes the same list, here by insertion from the right.
    [precedes y x] says that [y] sorts strictly before [x]. *)

Fixpoint insert_sorted {A} (precedes : A -> A -> bool) (x : A) (l : list A)
  : list A :=
  match l with
  | [] => [x]
  | y :: l' =>
      if precedes y x then y :: insert_sorted precedes x l'
      else x :: y :: l'
  end.

Definition py_sorted {A} (precedes : A -> A -> bool) (l : list A) : list A :=
  foldr (insert_sorted precedes) [] l.

(** [sorted(xs, key=key, reverse=True)] with float keys *)
Definition sorted_desc {A} (key : A -> Q) (l : list A) : list A :=
  py_sorted (fun y x => PyFloat.gtb (key y) (key x)) l.

(** [sorted(d.keys())] for a dict with string keys.  The order in which the
    dict holds its keys does not matter to the result. *)
Definition sorted_keys (d : gmap string Q) : list string :=
  py_sorted String.ltb (map fst (map_to_list d)).

(** [d[k]] for [k] among the keys of [d] (no KeyError is possible there) *)
Definition dict_get (d : gmap string Q) (k : string) : Q :=
  default 0 (d !! k).

(** [d[k]] for a dict kept in insertion order *)
Definition items_get (d : list (string * Q)) (k : string) : Q :=
  match List.find (fun kv => String.eqb (fst kv) k) d with
  | Some kv => snd kv
  | None => 0
  end.

(** ** The explanation result *)

Module Importance.
Record t := { feature : string; importance : Q; value : Q }.
End Importance.

Module Contribution.
Record t := { feature : string; contribution : Q }.
End Contribution.

Record Explanation := {
  featureNames : list string;
  shapValues : list Q;
  expectedValue : Q;
  prediction : Q;
  featureImportance : list Importance.t;
  topContributors_positive : list Contribution.t;
  topContributors_negative : list Contribution.t;
  (** the key "isMock" is present in the mock result only *)
  isMock : option bool;
  (** added by [main] *)
  modelType : option string;
  modelPath : option string
}.

(** ** generate_mock_explanation (explain_model.py, lines 118-163)

    [input_data] is the record of the floats that [float(input_data[name])]
    yields.  On a record with a value that [float] rejects the function
    raises before it returns anything (lines 129, 135, 138): that is the
    [NonNumericObject] case of [mock_input] below. *)

Definition mock_baseline (model_type : string) : Q :=
  if String.eqb model_type "waste_predictor" then 15
  else if String.eqb model_type "time_estimator" then 30
  else 1 # 2.

Definition mock_contribution (model_type : string) (val : Q) : Q :=
  if String.eqb model_type "waste_predictor" then
    if PyFloat.gtb val 0 then val * (1 # 100) else 0
  else if String.eqb model_type "time_estimator" then val * (5 # 100)
  else val * (2 # 100).

Definition generate_mock_explanation (model_type : string)
    (input_data : gmap string Q) : Explanation :=
  let feature_names := sorted_keys input_data in
  let baseline := mock_baseline model_type in
  let contributions :=
    map (fun name => (name, mock_contribution model_type (dict_get input_data name)))
        feature_names in
  let sorted_contribs := sorted_desc (fun x => Qabs (snd x)) contributions in
  {| featureNames := feature_names;
     shapValues := map (fun n => items_get contributions n) feature_names;
     expectedValue := baseline;
     prediction := baseline + PyFloat.sum (map snd contributions);
     featureImportance :=
       map (fun nc => {| Importance.feature := fst nc;
                         Importance.importance := Qabs (snd nc);
                         Importance.value := dict_get input_data (fst nc) |})
           sorted_contribs;
     topContributors_positive :=
       take 5 (map (fun nc => {| Contribution.feature := fst nc;
                                 Contribution.contribution := snd nc |})
                   (List.filter (fun nc => PyFloat.gtb (snd nc) 0) sorted_contribs));
     topContributors_negative :=
       take 5 (map (fun nc => {| Contribution.feature := fst nc;
                                 Contribution.contribution := snd nc |})
                   (List.filter (fun nc => PyFloat.ltb (snd nc) 0) sorted_contribs));
     isMock := Some true;
     modelType := None;
     modelPath := None |}.

(** ** What the explanation script takes from onnxruntime, shap and the
       standard library *)

(** A numpy array of floats, as far as its shape matters here. *)
Inductive ndarray :=
| Arr1 (xs : list Q)
| Arr2 (rows : list (list Q)).

Definition flatten (a : ndarray) : list Q :=
  match a with Arr1 xs => xs | Arr2 rows => concat rows end.

(** An [ort.InferenceSession]: the name of its first input and its scoring
    function, [session.run(None, {input_name: X})[0]] for a batch [X]. *)
Record InferenceSession := {
  get_inputs_0_name : result string;
  run : string -> list (list Q) -> result ndarray
}.

(** What [explainer.shap_values] returns: an array, or a list of arrays
    (one per model output), each given by its elements in flattened order. *)
Inductive shap_output :=
| ShapArray (flat : list Q)
| ShapList (arrays : list (list Q)).

(** A [shap.KernelExplainer] object.  [expected_value_float] is the outcome
    of line 80, the conversion of [explainer.expected_value] to a float. *)
Record KernelExplainer := {
  shap_values : list (list Q) -> Z -> result shap_output;
  expected_value_float : result Q
}.

(** The parsed [--input_data].
    [FeatureObject d] is a JSON object whose values all convert to finite
    floats, which is what the interface calls for; [d] holds the floats.
    [NonNumericObject array_error float_error] is a JSON object with a
    value that does not convert (a word, a list, a nested object, an int
    beyond the range of a float): on it [np.array(..., dtype=np.float32)]
    (line 61) raises an exception with the message [array_error], and
    [float(input_data[name])] (lines 129, 135, 138) one with the message
    [float_error].
    [NotAnObject] is a JSON value that is not an object.
    Objects with a null, which numpy reads as NaN and [float] rejects, and
    objects with a non-finite number are not in this type. *)
Inductive input_document :=
| FeatureObject (d : gmap string Q)
| NonNumericObject (array_error float_error : string)
| NotAnObject.

Class Capabilities := {
  SHAP_AVAILABLE : bool;
  ONNX_AVAILABLE : bool;
  os_path_exists : string -> bool;
  (** [json.loads]; raises [JSONDecodeError] on malformed JSON *)
  json_loads : string -> result input_document;
  (** [ort.InferenceSession(model_path)] *)
  ort_InferenceSession : string -> result InferenceSession;
  (** [pd.read_csv(path).values.astype(np.float32)] *)
  read_csv_values : string -> result (list (list Q));
  (** [shap.KernelExplainer(predict_fn, background_data)] *)
  shap_KernelExplainer :
    (ndarray -> result ndarray) -> list (list Q) -> result KernelExplainer
}.

(** The record of floats the SHAP path works on (lines 60-61):
    [input_data.keys()] is an AttributeError unless the value is a dict,
    and the array of its values must convert to float32. *)
Definition shap_input (doc : input_document) : result (gmap string Q) :=
  match doc with
  | FeatureObject d => Ok d
  | NonNumericObject array_error _ => Raise (Exception array_error)
  | NotAnObject => Raise (Exception "object has no attribute 'keys'")
  end.

(** The record of floats the mock works on (lines 120 and 128-138): the
    same AttributeError, and [float] must accept every value. *)
Definition mock_input (doc : input_document) : result (gmap string Q) :=
  match doc with
  | FeatureObject d => Ok d
  | NonNumericObject _ float_error => Raise (Exception float_error)
  | NotAnObject => Raise (Exception "object has no attribute 'keys'")
  end.

(** [bool(s)] for an optional string (None and the empty string are false) *)
Definition str_truthy (s : option string) : bool :=
  match s with
  | Some s' => negb (String.eqb s' "")
  | None => false
  end.

Section Explain.

Context {C : Capabilities}.

(** [load_onnx_model] (lines 34-39) *)
Definition load_onnx_model (model_path : string) : result (option InferenceSession) :=
  if negb ONNX_AVAILABLE then Ok None
  else session ← ort_InferenceSession model_path; Ok (Some session).

(** The closure [predict] of [create_prediction_function] (lines 46-51).
    The cast to float32 is the identity of the model. *)
Definition predict (session : InferenceSession) (input_name : string)
    (X : ndarray) : result ndarray :=
  let X := match X with Arr1 xs => [xs] | Arr2 rows => rows end in
  run session input_name X.

(** [create_prediction_function] (lines 42-53) *)
Definition create_prediction_function (session : option InferenceSession)
  : result (ndarray -> result ndarray) :=
  match session with
  | None => Raise (Exception "'NoneType' object has no attribute 'get_inputs'")
  | Some session =>
      input_name ← get_inputs_0_name session;
      Ok (predict session input_name)
  end.

(** lines 63-66: the background data, or ten rows of zeros *)
Definition background_or_zeros (background_data : option (list (list Q)))
    (n_features : nat) : list (list Q) :=
  match background_data with
  | None => replicate 10 (replicate n_features 0)
  | Some b => b
  end.

(** line 61: the input record as a 1 x n float32 array, ordered by key (the
    cast is the identity of the model) *)
Definition input_array_of (input_data : gmap string Q) : list (list Q) :=
  [map (fun k => dict_get input_data k) (sorted_keys input_data)].

(** lines 105-113: [[{...} for i in range(len(flat)) if test(flat[i])][:5]];
    [feature_names[i]] is evaluated for the selected positions only. *)
Definition top_by_position (test : Q -> bool) (feature_names : list string)
    (flat : list Q) : result (list Contribution.t) :=
  selected ←
    mapM (M := result)
      (fun iv =>
         name ← py_index feature_names (fst iv);
         Ok {| Contribution.feature := name;
               Contribution.contribution := snd iv |})
      (List.filter (fun iv => test (snd iv)) (imap (fun i v => (i, v)) flat));
  Ok (take 5 selected).

(** [generate_shap_explanation] (lines 56-115) *)
Definition generate_shap_explanation (session : option InferenceSession)
    (input_data : gmap string Q) (background_data : option (list (list Q)))
  : result (option Explanation * option string) :=
  let feature_names := sorted_keys input_data in
  let input_array := input_array_of input_data in
  let background_data :=
    background_or_zeros background_data (length feature_names) in
  predict_fn ← create_prediction_function session;
  match (explainer ← shap_KernelExplainer predict_fn background_data;
         values ← shap_values explainer input_array 100;
         Ok (explainer, values)) with
  | Raise e => Ok (None, Some (str e))
  | Ok (explainer, values) =>
      expected_value ← expected_value_float explainer;
      values ← match values with
               | ShapList arrays => py_index arrays 0
               | ShapArray flat => Ok flat
               end;
      let shap_values_flat := values in
      feature_importance ←
        mapM (M := result)
          (fun iname =>
             v ← py_index shap_values_flat (fst iname);
             Ok (snd iname, Qabs v))
          (imap (fun i name => (i, name)) feature_names);
      let sorted_importance := sorted_desc snd feature_importance in
      out ← predict_fn (Arr2 input_array);
      prediction ← py_index (flatten out) 0;
      let importance :=
        map (fun ni => {| Importance.feature := fst ni;
                          Importance.importance := snd ni;
                          Importance.value := dict_get input_data (fst ni) |})
            sorted_importance in
      positive ← top_by_position (fun v => PyFloat.gtb v 0) feature_names
                                 shap_values_flat;
      negative ← top_by_position (fun v => PyFloat.ltb v 0) feature_names
                                 shap_values_flat;
      Ok (Some {| featureNames := feature_names;
                  shapValues := shap_values_flat;
                  expectedValue := expected_value;
                  prediction := prediction;
                  featureImportance := importance;
                  topContributors_positive := positive;
                  topContributors_negative := negative;
                  isMock := None;
                  modelType := None;
                  modelPath := None |}, None)
  end.

(** [load_background_data] (lines 166-174): every exception becomes [None]. *)
Definition load_background_data (path : string) : option (list (list Q)) :=
  match read_csv_values path with
  | Ok a => Some a
  | Raise _ => None
  end.

Record Args := {
  model_type : string;
  model_path : string;
  input_data : string;
  background_data : option string
}.

Definition with_metadata (r : Explanation) (args : Args) : Explanation :=
  {| featureNames := featureNames r;
     shapValues := shapValues r;
     expectedValue := expectedValue r;
     prediction := prediction r;
     featureImportance := featureImportance r;
     topContributors_positive := topContributors_positive r;
     topContributors_negative := topContributors_negative r;
     isMock := isMock r;
     modelType := Some (model_type args);
     modelPath := Some (model_path args) |}.

(** lines 197-199: the background data [main] loads, if any *)
Definition main_background (args : Args) : option (list (list Q)) :=
  match background_data args with
  | Some path =>
      if str_truthy (background_data args) && os_path_exists path
      then load_background_data path else None
  | None => None
  end.

(** The primary path of [main] (lines 190-205): [None] sends [main] to the
    mock. *)
Definition main_primary (args : Args) (doc : input_document)
  : result (option Explanation) :=
  if SHAP_AVAILABLE && ONNX_AVAILABLE && os_path_exists (model_path args) then
    session ← load_onnx_model (model_path args);
    let background := main_background args in
    d ← shap_input doc;
    re ← generate_shap_explanation session d background;
    if str_truthy (snd re) then Ok None else Ok (fst re)
  else Ok None.

(** The [try] block of [main] (lines 186-216). *)
Definition main_try (args : Args) : result Explanation :=
  doc ← json_loads (input_data args);
  r ← main_primary args doc;
  r ← match r with
      | None =>
          d ← mock_input doc;
          Ok (generate_mock_explanation (model_type args) d)
      | Some r => Ok r
      end;
  Ok (with_metadata r args).

(** What the process prints on standard output, and its exit code. *)
Inductive printed :=
| PrintResult (r : Explanation)
| PrintError (error : string).

Record Process := { stdout : printed; exit_code : Z }.

(** [main] (lines 177-223), from the parsed command line on. *)
Definition main (args : Args) : Process :=
  match main_try args with
  | Ok r => {| stdout := PrintResult r; exit_code := 0 |}
  | Raise (JSONDecodeError msg) =>
      {| stdout := PrintError ("Invalid JSON input: " ++ msg); exit_code := 1 |}
  | Raise (Exception msg) =>
      {| stdout := PrintError ("Explanation failed: " ++ msg); exit_code := 1 |}
  end.

End Explain.

(** ** [str.replace] and [in] on strings

    [s.replace(old, new)] for a non-empty [old]: the non-overlapping
    occurrences of [old] are replaced from left to right.  [skip] counts
    the characters of a matched occurrence that are still to be dropped. *)

Fixpoint replace_from (old new : string) (skip : nat) (s : string) : string :=
  match s with
  | EmptyString => EmptyString
  | String c s' =>
      match skip with
      | S k => replace_from old new k s'
      | O =>
          if String.prefix old s
          then (new ++ replace_from old new (String.length old - 1) s')%string
          else String c (replace_from old new 0 s')
      end
  end.

Definition py_replace (old new s : string) : string := replace_from old new 0 s.

(** [sub in s] *)
Definition py_in (sub s : string) : bool :=
  match String.index 0 sub s with Some _ => true | None => false end.

(** ** export_onnx and _save_metadata (trainer.py, lines 248-295) *)

(** [norm_params] is whatever dict the caller hands to [export_onnx]; [P]
    is its type. *)
Module Metadata.
Record t {P : Type} := {
  modelType : string;
  version : string;
  normParams : P;
  inputSize : Z;
  trainHistory : TrainHistory.t;
  exportedAt : string;
  device : string
}.
Arguments t : clear implicits.
End Metadata.

(** What the export takes from torch and the clock.
    [torch_onnx_export] is the file [torch.onnx.export] writes for a model
    with the given parameter values and input size. *)
Class Exporter {T : Torch} := {
  artifact : Type;
  torch_onnx_export : list tensor -> Z -> artifact;
  (** [datetime.now().isoformat()] *)
  datetime_now_isoformat : string;
  (** [str(self.device)] *)
  device_str : string
}.

(** The files the export writes: a model artifact or a metadata JSON. *)
Inductive file {T : Torch} {E : Exporter} {P : Type} :=
| OnnxFile (a : artifact)
| JsonFile (m : Metadata.t P).

(** [output_path.replace('.onnx', '_metadata.json')] *)
Definition metadata_path_of (output_path : string) : string :=
  py_replace ".onnx" "_metadata.json" output_path.

Section OnnxExport.

Context {T : Torch} {E : Exporter} {P : Type}.

(** [_save_metadata] (lines 274-295); [open(path, 'w')] creates the file or
    replaces its content.  Writes are taken to succeed. *)
Definition _save_metadata (fs : gmap string file) (self : ProductionTrainer)
    (output_path model_name : string) (norm_params : P)
    (input_size : Z) : gmap string file :=
  let metadata_path := metadata_path_of output_path in
  let metadata :=
    {| Metadata.modelType := model_name;
       Metadata.version := "2.0.0";
       Metadata.normParams := norm_params;
       Metadata.inputSize := input_size;
       Metadata.trainHistory := _save_metadata_trainHistory self;
       Metadata.exportedAt := datetime_now_isoformat;
       Metadata.device := device_str |} in
  <[metadata_path := JsonFile metadata]> fs.

(** [export_onnx] (lines 248-272): the artifact is written first, then the
    metadata. *)
Definition export_onnx (fs : gmap string file)
    (st : (loc -> tensor) * ProductionTrainer)
    (output_path : string) (input_size : Z) (model_name : string)
    (norm_params : P) : gmap string file :=
  let fs1 :=
    <[output_path := OnnxFile (torch_onnx_export (returned_parameters st)
                                                 input_size)]> fs in
  _save_metadata fs1 (snd st) output_path model_name norm_params input_size.

End OnnxExport.

(** ** The training scripts: from the table to the files

    The [main] functions of the four scripts end alike
    (train_waste_predictor.py, lines 158-183; train_time_estimator.py,
    lines 123-142; train_algorithm_selector.py, lines 133-152;
    train_anomaly_predictor.py, lines 172-191): the table is normalized, a
    trainer is built with batch size 32, 150 epochs, patience 20 and seed
    42, the data are split with a validation share of 0.2, the model is
    trained and exported.  The scripts differ in the constants of
    [TrainScript.t]. *)

Module TrainScript.
Record t := {
  (** the literal joined to [models_dir] *)
  file_name : string;
  model_name : string;
  input_size : Z;
  is_classification : bool
}.
End TrainScript.

Definition train_waste_predictor : TrainScript.t :=
  {| TrainScript.file_name := "waste_predictor.onnx";
     TrainScript.model_name := "waste_predictor";
     TrainScript.input_size := 19;
     TrainScript.is_classification := false |}.

Definition train_time_estimator : TrainScript.t :=
  {| TrainScript.file_name := "time_estimator.onnx";
     TrainScript.model_name := "time_estimator";
     TrainScript.input_size := 12;
     TrainScript.is_classification := false |}.

Definition train_algorithm_selector : TrainScript.t :=
  {| TrainScript.file_name := "algorithm_selector.onnx";
     TrainScript.model_name := "algorithm_selector";
     TrainScript.input_size := 14;
     TrainScript.is_classification := true |}.

Definition train_anomaly_predictor : TrainScript.t :=
  {| TrainScript.file_name := "anomaly_predictor.onnx";
     TrainScript.model_name := "anomaly_predictor";
     TrainScript.input_size := 12;
     TrainScript.is_classification := false |}.

(** [str(models_dir / name)] with the POSIX separator *)
Definition path_join (dir name : string) : string := (dir ++ "/" ++ name)%string.

Section TrainingScript.

Context {T : Torch} {E : Exporter}.

(** [torch.FloatTensor] on one row of the normalized table *)
Variable FloatTensor : list spec_float -> row.

(** The loaders on which the training loop of the scripts runs through.
    Each of the four networks has [BatchNorm1d] layers, which in training
    mode raise a ValueError on a batch of one row, and the training loader
    keeps its last, shorter batch: that batch has
    [len(train_ds) % batch_size] rows.  [_validate_epoch] divides by the
    number of validation batches (trainer.py, line 213): a
    ZeroDivisionError for an empty validation set. *)
Definition trainable (loaders : DataLoader * DataLoader) : bool :=
  let n_train := Z.of_nat (length (tensors_x (dataset (fst loaders)))) in
  let n_val := length (tensors_x (dataset (snd loaders))) in
  negb (n_train mod loader_batch_size (fst loaders) =? 1)%Z
  && negb (Nat.eqb n_val 0).

(** The first layer of each network is [nn.Linear(input_size, _)] with the
    script's own input size: a forward pass on rows of another width raises
    a RuntimeError. *)
Definition fits_network (s : TrainScript.t) (features : list (list spec_float))
  : bool :=
  forallb (fun r => (Z.of_nat (length r) =? TrainScript.input_size s)%Z)
          features.

(** [main] from [normalize_features] on: the loaders, the final store and
    trainer, and the files.  [features] is the float32 table the script
    built.  [None] is an exception, of [prepare_data] or inside [train];
    nothing is exported then. *)
Definition main_from_table (s : TrainScript.t) (models_dir : string)
    (model : Module_) (opt0 : optim) (h : loc -> tensor)
    (fs : gmap string file) (features : list (list spec_float))
    (labels : list label)
  : option ((DataLoader * DataLoader)
            * ((loc -> tensor) * ProductionTrainer)
            * gmap string file) :=
  let (features_norm, norm_params) :=
    Numpy.normalize_features IEEE.binary32 features in
  let trainer := ProductionTrainer_init model opt0 32 150 20 42 in
  let (trainer, loaders) :=
    prepare_data trainer (map FloatTensor features_norm) labels
                 (IEEE.decimal IEEE.binary64 2 10) in
  loaders ← loaders;
  if trainable loaders && fits_network s features then
    let st := train (fst loaders) (snd loaders)
                    (TrainScript.is_classification s) (h, trainer) in
    let output_path := path_join models_dir (TrainScript.file_name s) in
    Some (loaders, st,
          export_onnx fs st output_path (TrainScript.input_size s)
                      (TrainScript.model_name s) norm_params)
  else None.

End TrainingScript.

(** ** The label rules of the training scripts

    A record of the training data is a parsed JSON object; [json] is the
    type of the values of its fields. *)

#[warnings="-register-all"] Inductive json :=
| JNull
| JBool (b : bool)
| JNum (q : Q)
| JStr (s : string)
| JArr (items : list json)
| JObj (members : list (string * json)).

(** [bool(v)] *)
Definition json_truthy (v : json) : bool :=
  match v with
  | JNull => false
  | JBool b => b
  | JNum q => negb (Qeq_bool q 0)
  | JStr s => negb (String.eqb s "")
  | JArr items => match items with [] => false | _ :: _ => true end
  | JObj members => match members with [] => false | _ :: _ => true end
  end.

(** [v == lit] for a string literal [lit] *)
Definition json_eq_str (v : json) (lit : string) : bool :=
  match v with JStr s => String.eqb s lit | _ => false end.

(** [r.get(k, d)] *)
Definition record_get (r : gmap string json) (k : string) (d : json) : json :=
  default d (r !! k).

(** [min(a, b)] on floats: [b] when [b < a], else [a] *)
Definition py_min (a b : Q) : Q := if PyFloat.ltb b a then b else a.

(** [features[i, j]] for the row [features[i]] (every row has all columns) *)
Definition at_column (row : list Q) (j : nat) : Q := nth j row 0.

(** train_anomaly_predictor.py, lines 150-163: the label vector of one
    record of real data,
    [[Risk, HighWaste, SlowProd, MachineIssue, Quality]]. *)
Definition anomaly_label_vec (r : gmap string json) : list Q :=
  let label_vec := replicate 5 0 in
  let had_anomaly := record_get r "hadAnomaly" (JNum 0) in
  let atype := record_get r "anomalyType" JNull in
  if json_truthy had_anomaly then
    let label_vec := <[0%nat := 8 # 10]> label_vec in
    if json_eq_str atype "high_waste" then <[1%nat := 1]> label_vec
    else if json_eq_str atype "slow_production" then <[2%nat := 1]> label_vec
    else if json_eq_str atype "machine_issue" then <[3%nat := 1]> label_vec
    else label_vec
  else <[0%nat := 1 # 10]> label_vec.

(** train_anomaly_predictor.py, lines 96-118: the label vector of one
    synthetic row.  The state of the loop body is the pair of the label
    vector and [risk]. *)
Definition anomaly_synthetic_labels (row : list Q) : list Q :=
  let f := at_column row in
  let st := (replicate 5 0, 0) in
  let st :=
    if PyFloat.gtb (f 3%nat) (15 # 10)
    then (<[1%nat := py_min (9 # 10) (f 3%nat / 3)]> (fst st), snd st + (3 # 10))
    else st in
  let st :=
    if PyFloat.gtb (f 4%nat) 1
    then (<[2%nat := py_min (9 # 10) (f 4%nat / 2)]> (fst st), snd st + (25 # 100))
    else st in
  let st :=
    if PyFloat.ltb (f 5%nat) (-1)
    then (<[3%nat := py_min (9 # 10) (Qabs (f 5%nat) / 2)]> (fst st),
          snd st + (25 # 100))
    else st in
  let st :=
    if Qle_bool 3 (f 6%nat)
    then (<[4%nat := 3 # 10]> (fst st), snd st + (15 # 100))
    else st in
  let st :=
    if Qeq_bool (f 11%nat) 1 || PyFloat.gtb (f 10%nat) 20 || PyFloat.ltb (f 10%nat) 7
    then (fst st, snd st + (5 # 100))
    else st in
  <[0%nat := py_min 1 (snd st)]> (fst st).

(** [ALGORITHMS] (train_algorithm_selector.py, line 50) *)
Definition ALGORITHMS : list string := ["BOTTOM_LEFT"; "GUILLOTINE"; "MAXRECTS"]%string.

(** [{a: i for i, a in enumerate(ALGORITHMS)}], as its items *)
Definition algo_map : list (string * Z) :=
  imap (fun i a => (a, Z.of_nat i)) ALGORITHMS.

(** train_algorithm_selector.py, line 125: the class of one record of real
    data, [algo_map.get(r.get('bestAlgorithm', 'BOTTOM_LEFT'), 0)].  A list
    or an object as the key is a TypeError (unhashable); any other value
    that is not a key of [algo_map] gives the default. *)
Definition algorithm_label (r : gmap string json) : result Z :=
  match record_get r "bestAlgorithm" (JStr "BOTTOM_LEFT") with
  | JStr s =>
      match List.find (fun kv => String.eqb (fst kv) s) algo_map with
      | Some kv => Ok (snd kv)
      | None => Ok 0%Z
      end
  | JArr _ => Raise (Exception "unhashable type: 'list'")
  | JObj _ => Raise (Exception "unhashable type: 'dict'")
  | JNull | JBool _ | JNum _ => Ok 0%Z
  end.

(** [np.argmin(xs)]: the first position of the least element *)
Fixpoint argmin_from (best_i : nat) (best : Q) (i : nat) (xs : list Q) : nat :=
  match xs with
  | [] => best_i
  | x :: xs' =>
      if PyFloat.ltb x best then argmin_from i x (S i) xs'
      else argmin_from best_i best (S i) xs'
  end.

Definition np_argmin (xs : list Q) : nat :=
  match xs with
  | [] => 0%nat
  | x :: xs' => argmin_from 0 x 1 xs'
  end.

(** train_algorithm_selector.py, lines 84-92: the class of one synthetic
    row *)
Definition algorithm_synthetic_label (row : list Q) : Z :=
  let f := at_column row in
  if PyFloat.gtb (f 0%nat) (7 # 10) then 2%Z
  else if PyFloat.gtb (f 6%nat) (5 # 10) then 1%Z
  else if PyFloat.gtb (f 1%nat) (6 # 10) then 0%Z
  else
    let hist_waste := [f 9%nat; f 10%nat; f 11%nat] in
    Z.of_nat (np_argmin hist_waste).

(** ** Vocabulary of the properties *)

(** *** Orders *)

(** Each score is lower than the one before. *)
Fixpoint strictly_decreasing (scores : list Q) : Prop :=
  match scores with
  | a :: rest =>
      match rest with
      | b :: _ => b < a /\ strictly_decreasing rest
      | [] => True
      end
  | [] => True
  end.

(** Each score is lower than the one before by more than [delta]. *)
Fixpoint decreasing_by (delta : Q) (scores : list Q) : Prop :=
  match scores with
  | a :: rest =>
      match rest with
      | b :: _ => b < a - delta /\ decreasing_by delta rest
      | [] => True
      end
  | [] => True
  end.

(** Descending order of a float key. *)
Definition key_desc {A} (key : A -> Q) (a b : A) : Prop := key b <= key a.

(** Orders of the explanation result. *)
Definition importance_desc (a b : Importance.t) : Prop :=
  Importance.importance b <= Importance.importance a.

Definition contribution_desc (a b : Contribution.t) : Prop :=
  Contribution.contribution b <= Contribution.contribution a.

Definition contribution_asc (a b : Contribution.t) : Prop :=
  Contribution.contribution a <= Contribution.contribution b.

(** No feature is named by both lists. *)
Definition disjoint_features (pos neg : list Contribution.t) : Prop :=
  forall p n, In p pos -> In n neg ->
              Contribution.feature p <> Contribution.feature n.

(** The contributions of a list of top contributors, in order. *)
Definition contributions_of (l : list Contribution.t) : list Q :=
  map Contribution.contribution l.

(** The features a list of top contributors names, in order. *)
Definition features_of (l : list Contribution.t) : list string :=
  map Contribution.feature l.

(** *** Training runs *)

(** The losses computed by the epochs that [train]'s loop executes, in
    order: one (training loss, validation loss) pair per executed epoch. *)
Fixpoint executed_epochs {T : Torch} (train_loader val_loader : DataLoader)
    (is_classification : bool) (range : list nat)
    (st : (loc -> tensor) * ProductionTrainer) : list (Q * Q) :=
  match range with
  | [] => []
  | epoch :: range' =>
      let '(st', losses, stop) :=
        epoch_body train_loader val_loader is_classification epoch st in
      losses ::
        (if stop then []
         else executed_epochs train_loader val_loader is_classification range' st')
  end.

(** The checkpoint of a trainer refers to the tensors of its own model. *)
Definition checkpoint_aliases_model {T : Torch} (self : ProductionTrainer) : Prop :=
  best_state (early_stopping self) = None \/
  best_state (early_stopping self) = Some (parameters (model self)).


(** The two datasets hold the rows and the labels that the two index
    lists pick from the table, in the order of the lists. *)
Definition picks {T : Torch} (features : list row) (labels : list label)
    (train_idx val_idx : list nat) (loaders : DataLoader * DataLoader) : Prop :=
  take_rows features train_idx = Some (tensors_x (dataset (fst loaders))) /\
  take_rows labels train_idx = Some (tensors_y (dataset (fst loaders))) /\
  take_rows features val_idx = Some (tensors_x (dataset (snd loaders))) /\
  take_rows labels val_idx = Some (tensors_y (dataset (snd loaders))).

(** The two datasets a pair of loaders iterates over. *)
Definition datasets_of {T : Torch} (loaders : DataLoader * DataLoader)
  : TensorDataset * TensorDataset :=
  (dataset (fst loaders), dataset (snd loaders)).

(** *** Explanations *)

(** The result of the SHAP path, when it produced one. *)
Definition shap_result {C : Capabilities} (session : option InferenceSession)
    (input_data : gmap string Q) (background : option (list (list Q)))
  : option Explanation :=
  match generate_shap_explanation session input_data background with
  | Ok (Some r, _) => Some r
  | _ => None
  end.

(** The attribution step of the SHAP path (lines 72-77) raises. *)
Definition attribution_raises {C : Capabilities}
    (predict_fn : ndarray -> result ndarray) (background : list (list Q))
    (input_array : list (list Q)) : Prop :=
  exists e,
    (explainer ← shap_KernelExplainer predict_fn background;
     values ← shap_values explainer input_array 100;
     Ok (explainer, values)) = Raise e.


(** ** Examples

    Concrete runs, records and installations on which the properties are
    evaluated. *)


(** A module without parameters (the scores alone drive these examples). *)
Definition no_parameters : Module_ := {| parameters := [] |}.


(** A synthetic run with a late regression.  The model is one scalar
    weight [w]; the training data pull it upwards by one per epoch (one
    batch per epoch, the clipped gradient step of plain SGD at rate 1
    towards the target 100), and the validation target is 2, so that the
    validation losses of the epochs are [(w - 2)^2 = 1, 0, 1, 4, ...]. *)
Definition synthetic_torch : Torch :=
  {| tensor := Z;
     optim := unit;
     row := unit;
     label := unit;
     rng_state := Z;
     default_rng := fun seed => seed;
     rng_permutation := fun r n => (rev (seq 0 n), (r + 1)%Z);
     param_group_lr := fun _ => 1;
     train_pass := fun _ _ o vals =>
       (map (fun w => (w + 1)%Z) vals, o,
        PyFloat.sum (map (fun w => inject_Z ((w - 100) * (w - 100))) vals));
     val_pass := fun _ _ vals =>
       PyFloat.sum (map (fun w => inject_Z ((w - 2) * (w - 2))) vals);
     scheduler_step := fun o _ => o |}.

(** The model of the synthetic run: the weight ["w"], stored at location 0. *)
Definition synthetic_model : Module_ := {| parameters := [("w"%string, O)] |}.

(** A loader with one batch. *)
Definition synthetic_loader : @DataLoader synthetic_torch :=
  @Build_DataLoader synthetic_torch
    (@Build_TensorDataset synthetic_torch [tt] [tt]) 32 false.

(** A fresh trainer for [epochs] epochs with the given patience; the weight
    starts at 0. *)
Definition synthetic_start (epochs patience : Z)
  : (loc -> @tensor synthetic_torch) * @ProductionTrainer synthetic_torch :=
  (fun _ => 0%Z,
   @ProductionTrainer_init synthetic_torch synthetic_model tt 32 epochs patience 42).

(** [train] on that fresh trainer. *)
Definition synthetic_train (epochs patience : Z)
  : (loc -> @tensor synthetic_torch) * @ProductionTrainer synthetic_torch :=
  @train synthetic_torch synthetic_loader synthetic_loader false
         (synthetic_start epochs patience).

(** A square root on the rationals for the examples: the integer square
    root of the numerator times the denominator, over the denominator. *)
Definition floor_sqrt (q : Q) : Q :=
  Z.sqrt (Qnum q * Zpos (Qden q)) # Qden q.


(** The input record of the fallback example: [{"a": 10.0, "b": -5.0}]. *)
Definition example_input : gmap string Q :=
  <["a"%string := 10]> (<["b"%string := -5]> ∅).

(** [{"a": 0.2, "b": 0.5, "c": 0.1}] *)
Definition three_features : gmap string Q :=
  <["a"%string := 2 # 10]> (<["b"%string := 5 # 10]> (<["c"%string := 1 # 10]> ∅)).

(** Six positive features, the last one the largest:
    [{"a": 1, "b": 2, "c": 3, "d": 4, "e": 5, "f": 6}] *)
Definition six_features : gmap string Q :=
  <["a"%string := 1]> (<["b"%string := 2]> (<["c"%string := 3]>
  (<["d"%string := 4]> (<["e"%string := 5]> (<["f"%string := 6]> ∅))))).


(** The double quote character, and the JSON text of
    [{"a": 10.0, "b": -5.0}]. *)
Definition dq : string := String (Ascii.ascii_of_nat 34) EmptyString.

(** The text of [--input_data] in the examples. *)
Definition example_json : string :=
  ("{" ++ dq ++ "a" ++ dq ++ ": 10.0, " ++ dq ++ "b" ++ dq ++ ": -5.0}")%string.

(** The parsed command line of the examples. *)
Definition example_args : Args :=
  {| model_type := "waste_predictor";
     model_path := "waste_predictor.onnx";
     input_data := example_json;
     background_data := None |}.

(** A compiled model that adds up its inputs, one output per row. *)
Definition additive_session : InferenceSession :=
  {| get_inputs_0_name := Ok "input"%string;
     run := fun _ X => Ok (Arr2 (map (fun r => [PyFloat.sum r]) X)) |}.

(** The explainer of the additive model against an all-zero background:
    the Shapley value of a feature is its own input value, the expected
    value is 0. *)
Definition additive_explainer : KernelExplainer :=
  {| shap_values := fun X _ => Ok (ShapArray (concat X));
     expected_value_float := Ok 0 |}.


(** An installation where shap and onnxruntime are present, every path
    exists, the model file holds the additive model and [--input_data] is
    the JSON text of [doc]. *)
Definition additive_capabilities (doc : input_document) : Capabilities :=
  {| SHAP_AVAILABLE := true;
     ONNX_AVAILABLE := true;
     os_path_exists := fun _ => true;
     json_loads := fun _ => Ok doc;
     ort_InferenceSession := fun _ => Ok additive_session;
     read_csv_values := fun _ => Raise (Exception "no such file");
     shap_KernelExplainer := fun _ _ => Ok additive_explainer |}.

(** An installation whose model file exists but is not a valid model:
    [ort.InferenceSession] raises. *)
Definition corrupt_model_capabilities : Capabilities :=
  {| SHAP_AVAILABLE := true;
     ONNX_AVAILABLE := true;
     os_path_exists := fun _ => true;
     json_loads := fun _ => Ok (FeatureObject example_input);
     ort_InferenceSession := fun _ => Raise (Exception "INVALID_PROTOBUF");
     read_csv_values := fun _ => Raise (Exception "no such file");
     shap_KernelExplainer := fun _ _ => Ok additive_explainer |}.

(** An installation whose explainer returns one attribution for a
    two-feature record (the result assembly then indexes past the end). *)
Definition short_attribution_capabilities : Capabilities :=
  {| SHAP_AVAILABLE := true;
     ONNX_AVAILABLE := true;
     os_path_exists := fun _ => true;
     json_loads := fun _ => Ok (FeatureObject example_input);
     ort_InferenceSession := fun _ => Ok additive_session;
     read_csv_values := fun _ => Raise (Exception "no such file");
     shap_KernelExplainer := fun _ _ =>
       Ok {| shap_values := fun _ _ => Ok (ShapArray [1]);
             expected_value_float := Ok 0 |} |}.

(** An installation whose explainer cannot be built. *)
Definition failing_attribution_capabilities : Capabilities :=
  {| SHAP_AVAILABLE := true;
     ONNX_AVAILABLE := true;
     os_path_exists := fun _ => true;
     json_loads := fun _ => Ok (FeatureObject example_input);
     ort_InferenceSession := fun _ => Ok additive_session;
     read_csv_values := fun _ => Raise (Exception "no such file");
     shap_KernelExplainer := fun _ _ => Raise (Exception "singular matrix") |}.


(** A trainer environment for the split examples: rows and labels are
    numbers, and the generator's permutation reverses the row order. *)
Definition table_torch : Torch :=
  {| tensor := Z;
     optim := unit;
     row := Q;
     label := Q;
     rng_state := Z;
     default_rng := fun seed => seed;
     rng_permutation := fun r n => (rev (seq 0 n), (r + 1)%Z);
     param_group_lr := fun _ => 1;
     train_pass := fun _ _ o vals => (vals, o, 0);
     val_pass := fun _ _ _ => 0;
     scheduler_step := fun o _ => o |}.

(** A fresh trainer in that environment (seed 42, batch size 32). *)
Definition table_trainer : @ProductionTrainer table_torch :=
  @ProductionTrainer_init table_torch no_parameters tt 32 10 5 42.

(** The exporter of the synthetic run: the artifact is the pair of the
    weights and the input size. *)
Definition synthetic_exporter : @Exporter synthetic_torch :=
  @Build_Exporter synthetic_torch (list Z * Z)%type
    (fun (vals : list Z) (input_size : Z) => (vals, input_size))
    "2026-01-01T00:00:00" "cpu".

(** The normalization parameters of a one-column table. *)
Definition one_column_params : NormParams := {| means := [2]; stds := [1] |}.

(** An installation without shap and onnxruntime; [--input_data] is the
    JSON text of the example record. *)
Definition unavailable_capabilities : Capabilities :=
  {| SHAP_AVAILABLE := false;
     ONNX_AVAILABLE := false;
     os_path_exists := fun _ => true;
     json_loads := fun _ => Ok (FeatureObject example_input);
     ort_InferenceSession := fun _ => Raise (Exception "unavailable");
     read_csv_values := fun _ => Raise (Exception "no such file");
     shap_KernelExplainer := fun _ _ => Raise (Exception "unavailable") |}.

(** A table of a hundred records with the nineteen features of the waste
    predictor (record [i] has the value [i + j] in column [j]), and its
    labels in the environment of the synthetic run, where rows and labels
    carry no data. *)
Definition hundred_rows : list (list spec_float) :=
  map (fun i => map (fun j => IEEE.of_Z IEEE.binary32 (Z.of_nat (i + j)))
                    (seq 0 19))
      (seq 0 100).

Definition hundred_labels : list (@label synthetic_torch) := replicate 100 tt.

(** A record of real anomaly data whose anomaly is a quality problem. *)
Definition quality_problem_record : gmap string json :=
  <["hadAnomaly"%string := JBool true]>
    (<["anomalyType"%string := JStr "quality_problem"]> ∅).

(** A record of real algorithm data that names the guillotine algorithm. *)
Definition guillotine_record : gmap string json :=
  <["bestAlgorithm"%string := JStr "GUILLOTINE"]> ∅.

(** A synthetic row of the algorithm selector on which no rule fires; the
    historical wastes are 12, 9 and 9. *)
Definition no_rule_row : list Q :=
  [5 # 10; 1 # 10; 0; 0; 3; 1; 2 # 10; 4; 0; 12; 9; 9; 100; 5].

(** A synthetic anomaly row whose waste deviation, 2.4, is above the
    threshold of 1.5. *)
Definition high_waste_row : list Q :=
  [20; 60; 8 # 10; 24 # 10; 0; 0; 1; 15; 60; 2; 10; 0].

(** A trainer environment whose generator advances: its state counts the
    draws, and the permutation of [n] indices is the identity rotated by
    the state. *)
Definition stream_torch : Torch :=
  {| tensor := Z;
     optim := unit;
     row := Q;
     label := Q;
     rng_state := nat;
     default_rng := fun seed => Z.to_nat seed;
     rng_permutation := fun r n =>
       (drop (r mod n) (seq 0 n) ++ take (r mod n) (seq 0 n), S r);
     param_group_lr := fun _ => 1;
     train_pass := fun _ _ o vals => (vals, o, 0);
     val_pass := fun _ _ _ => 0;
     scheduler_step := fun o _ => o |}.

(** A fresh trainer in that environment (seed 42, batch size 32). *)
Definition stream_trainer : @ProductionTrainer stream_torch :=
  @ProductionTrainer_init stream_torch no_parameters tt 32 150 20 42.

(** The rows of the training set, when [prepare_data] returned loaders. *)
Definition training_rows {T : Torch}
    (loaders : option (DataLoader * DataLoader)) : option (list row) :=
  match loaders with
  | Some l => Some (tensors_x (dataset (fst l)))
  | None => None
  end.

(** A float32 table of three rows whose first column is constant: 25.7 in
    every row (as float32, 13474202 * 2^-19); the second column is 1, 2, 3. *)
Definition constant_column_table : list (list spec_float) :=
  let c := IEEE.decimal IEEE.binary32 257 10 in
  [[c; IEEE.of_Z IEEE.binary32 1];
   [c; IEEE.of_Z IEEE.binary32 2];
   [c; IEEE.of_Z IEEE.binary32 3]].

(** * Properties *)

(** ** Floats *)

Lemma PyFloat_ltb_lt (x y : Q) : PyFloat.ltb x y = true <-> x < y.
Proof.
  unfold PyFloat.ltb. rewrite negb_true_iff. split.
  - intros H. apply Qnot_le_lt. intros Hle.
    apply Qle_bool_iff in Hle. congruence.
  - intros H. destruct (Qle_bool y x) eqn:E; [|reflexivity].
    apply Qle_bool_iff in E. exfalso. exact (Qlt_not_le _ _ H E).
Qed.

Lemma PyFloat_ltb_ge (x y : Q) : PyFloat.ltb x y = false <-> y <= x.
Proof.
  unfold PyFloat.ltb. rewrite negb_false_iff. apply Qle_bool_iff.
Qed.

Lemma PyFloat_gtb_gt (x y : Q) : PyFloat.gtb x y = true <-> y < x.
Proof. apply PyFloat_ltb_lt. Qed.

Lemma PyFloat_gtb_le (x y : Q) : PyFloat.gtb x y = false <-> x <= y.
Proof. apply PyFloat_ltb_ge. Qed.

(** ** EarlyStopping *)



(** With a [min_delta] of zero, strictly decreasing scores qualify. *)
Lemma strictly_decreasing_by_zero scores :
  strictly_decreasing scores -> decreasing_by 0 scores.
Proof.
  induction scores as [|a rest IH]; simpl; [trivial|].
  destruct rest as [|b rest']; [trivial|].
  intros [Hlt H]. split; [|exact (IH H)].
  unfold Qminus. rewrite Qplus_0_r. exact Hlt.
Qed.






(** ** ProductionTrainer: the checkpoint and the restored model *)

Section TrainerFacts.

Context {T : Torch}.

Lemma EarlyStopping_call_best_state self score m :
  let self' := fst (EarlyStopping_call self score m) in
  best_state self' = best_state self \/
  best_state self' = Some (parameters m).
Proof.
  unfold EarlyStopping_call.
  destruct (best_score self); [destruct (_is_improved self score)|];
    simpl; auto.
Qed.

Lemma epoch_body_model tl vl cls epoch st :
  model (snd (fst (fst (epoch_body tl vl cls epoch st)))) = model (snd st).
Proof.
  unfold epoch_body, _train_epoch, _update_training_state.
  destruct st as [h self].
  destruct (train_pass _ _ _ _) as [[vals o] loss]. simpl.
  destruct (EarlyStopping_call _ _ _) as [es [|]]; reflexivity.
Qed.

Lemma epoch_body_aliases tl vl cls epoch st :
  checkpoint_aliases_model (snd st) ->
  checkpoint_aliases_model (snd (fst (fst (epoch_body tl vl cls epoch st)))).
Proof.
  unfold checkpoint_aliases_model, epoch_body, _train_epoch,
    _update_training_state.
  destruct st as [h self]. intros H.
  destruct (train_pass _ _ _ _) as [[vals o] loss]. simpl.
  match goal with
  | |- context [EarlyStopping_call ?e ?s ?m] =>
      pose proof (EarlyStopping_call_best_state e s m) as Hb;
      destruct (EarlyStopping_call e s m) as [es [|]]
  end; simpl in *; destruct Hb as [Hb|Hb]; rewrite Hb; auto.
Qed.

Lemma epoch_loop_model tl vl cls range :
  forall st, model (snd (epoch_loop tl vl cls range st)) = model (snd st).
Proof.
  induction range as [|e r IH]; intros st; simpl; [reflexivity|].
  pose proof (epoch_body_model tl vl cls e st) as Hm.
  destruct (epoch_body tl vl cls e st) as [[st' losses] [|]]; simpl in *.
  - exact Hm.
  - rewrite IH. exact Hm.
Qed.

Lemma epoch_loop_aliases tl vl cls range :
  forall st,
    checkpoint_aliases_model (snd st) ->
    checkpoint_aliases_model (snd (epoch_loop tl vl cls range st)).
Proof.
  induction range as [|e r IH]; intros st H; simpl; [exact H|].
  pose proof (epoch_body_aliases tl vl cls e st H) as Ha.
  destruct (epoch_body tl vl cls e st) as [[st' losses] [|]]; simpl in *.
  - exact Ha.
  - apply IH. exact Ha.
Qed.

(** Loading a module's own state dict copies every tensor onto itself. *)
Lemma load_state_dict_own_prefix (sd : state_dict) :
  NoDup (map fst sd) ->
  forall (ps : list (string * loc)) (h0 h : loc -> tensor),
    (forall kv, In kv ps -> In kv sd) ->
    (forall l, h l = h0 l) ->
    forall l,
      fold_left
        (fun h kv =>
           match List.find (fun kv' => String.eqb (fst kv') (fst kv)) sd with
           | Some src => <[snd kv := h (snd src)]> h
           | None => h
           end) ps h l = h0 l.
Proof.
  intros Hnd ps h0. induction ps as [|kv ps IH]; intros h Hin Hh l; simpl.
  - apply Hh.
  - apply IH.
    + intros kv' H'. apply Hin. right. exact H'.
    + intros l'.
      destruct (List.find _ sd) as [src|] eqn:Hf; [|apply Hh].
      apply find_some in Hf. destruct Hf as [Hsrc Heq].
      apply String.eqb_eq in Heq.
      assert (src = kv) as ->.
      { assert (Hkv : In kv sd) by (apply Hin; left; reflexivity).
        clear -Hnd Hsrc Hkv Heq.
        induction sd as [|x sd IHsd]; [destruct Hsrc|].
        inversion Hnd as [|? ? Hnotin Hnd']; subst.
        destruct Hsrc as [->|Hsrc], Hkv as [->|Hkv]; auto.
        - exfalso. apply Hnotin. rewrite Heq. apply list_elem_of_In.
          apply in_map. exact Hkv.
        - exfalso. apply Hnotin. rewrite <- Heq. apply list_elem_of_In.
          apply in_map. exact Hsrc. }
      destruct (decide (snd kv = l')) as [<-|Hne].
      * rewrite fn_lookup_insert. apply Hh.
      * rewrite fn_lookup_insert_ne by exact Hne. apply Hh.
Qed.

Lemma load_state_dict_own (h : loc -> tensor) (m : Module_) :
  NoDup (map fst (parameters m)) ->
  forall l, load_state_dict h m (parameters m) l = h l.
Proof.
  intros Hnd l. unfold load_state_dict.
  apply (load_state_dict_own_prefix (parameters m) Hnd); auto.
Qed.

Lemma read_all_ext (h h' : loc -> tensor) sd :
  (forall l, h l = h' l) -> read_all h sd = read_all h' sd.
Proof.
  intros H. unfold read_all. apply map_ext. intros kv. apply H.
Qed.

(** The restore of [_finalize_training] changes no parameter: the module
    that [train] returns holds the values left by the last executed epoch. *)
Lemma train_returns_parameters_of_last_epoch tl vl cls st :
  NoDup (map fst (parameters (model (snd st)))) ->
  checkpoint_aliases_model (snd st) ->
  returned_parameters (train tl vl cls st) =
  returned_parameters (epoch_loop tl vl cls (py_range (epochs (snd st))) st).
Proof.
  intros Hnd Hal. unfold train, returned_parameters.
  pose proof (epoch_loop_model tl vl cls (py_range (epochs (snd st))) st) as Hm.
  pose proof (epoch_loop_aliases tl vl cls (py_range (epochs (snd st))) st Hal)
    as Ha.
  destruct (epoch_loop _ _ _ _ st) as [h self]. simpl in *.
  unfold _finalize_training, checkpoint_aliases_model in *.
  destruct Ha as [Ha|Ha]; rewrite Ha; [reflexivity|].
  destruct (dict_truthy _); [|reflexivity]. simpl.
  apply read_all_ext. apply load_state_dict_own. rewrite Hm. exact Hnd.
Qed.

End TrainerFacts.

(** C1 fails on the code.  In the synthetic run (validation losses 1, 0, 1
    over three epochs) the best score 0 is that of epoch 2, after which the
    weight is 2; the module [train] returns holds 3, the weight of the last
    epoch, and so does the checkpoint when it is read at the end:
    [state_dict().copy()] copied references, and the training of epoch 3
    wrote through them. *)
Theorem train_returns_last_epoch_weights_after_late_regression :
  let st := synthetic_train 3 15 in
  val_loss (history (snd st)) = [1; 0; 1] /\
  best_score (early_stopping (snd st)) = Some 0 /\
  @returned_parameters synthetic_torch (synthetic_train 2 15) = [2%Z] /\
  @returned_parameters synthetic_torch st = [3%Z] /\
  (@read_all synthetic_torch (fst st) <$> best_state (early_stopping (snd st)))
  = Some [3%Z].
Proof. vm_compute. repeat split; reflexivity. Qed.

(** ** ProductionTrainer: the history and the metadata summary *)

Section HistoryFacts.

Context {T : Torch}.

Lemma _finalize_training_trainer st :
  snd (_finalize_training st) = snd st.
Proof.
  unfold _finalize_training. destruct st as [h self].
  destruct (best_state (early_stopping self)) as [sd|]; [|reflexivity].
  destruct (dict_truthy sd); reflexivity.
Qed.

(** One epoch appends its two losses to the history. *)
Lemma epoch_body_history tl vl cls epoch st :
  let '(st', losses, _) := epoch_body tl vl cls epoch st in
  train_loss (history (snd st')) = train_loss (history (snd st)) ++ [fst losses] /\
  val_loss (history (snd st')) = val_loss (history (snd st)) ++ [snd losses].
Proof.
  unfold epoch_body, _train_epoch, _update_training_state.
  destruct st as [h self].
  destruct (train_pass _ _ _ _) as [[vals o] loss]. simpl.
  destruct (EarlyStopping_call _ _ _) as [es [|]]; simpl; auto.
Qed.

Lemma epoch_loop_history tl vl cls range :
  forall st,
    let log := executed_epochs tl vl cls range st in
    let st' := epoch_loop tl vl cls range st in
    train_loss (history (snd st')) = train_loss (history (snd st)) ++ map fst log /\
    val_loss (history (snd st')) = val_loss (history (snd st)) ++ map snd log.
Proof.
  induction range as [|e r IH]; intros st; simpl.
  - rewrite !app_nil_r. auto.
  - pose proof (epoch_body_history tl vl cls e st) as Hb.
    destruct (epoch_body tl vl cls e st) as [[st1 losses] stop].
    destruct Hb as [Ht Hv]. destruct stop; simpl.
    + auto.
    + destruct (IH st1) as [Ht' Hv']. rewrite Ht', Hv', Ht, Hv.
      rewrite <- !app_assoc. auto.
Qed.




End HistoryFacts.



(** In the synthetic run stopped by a patience of 1, the summary reports
    three epochs and a final validation loss of 1, while the best score,
    that of epoch 2, is 0. *)
Example metadata_final_loss_is_not_best_score :
  let final := synthetic_train 10 1 in
  _save_metadata_trainHistory (snd final) =
    {| TrainHistory.finalTrainLoss := Some 9604;
       TrainHistory.finalValLoss := Some 1;
       TrainHistory.epochs := 3 |} /\
  best_score (early_stopping (snd final)) = Some 0.
Proof. vm_compute. split; reflexivity. Qed.


(** ** ProductionTrainer: the split *)

Section SplitFacts.

Context {T : Torch}.

Lemma take_rows_length {A} (a : list A) indices rows :
  take_rows a indices = Some rows -> length rows = length indices.
Proof. unfold take_rows. intros H. symmetry. exact (length_mapM _ _ _ H). Qed.

Lemma take_rows_take {A} (a : list A) indices rows k :
  take_rows a indices = Some rows ->
  take_rows a (take k indices) = Some (take k rows).
Proof.
  unfold take_rows. revert rows k.
  induction indices as [|i is_ IH]; intros rows k H.
  - simpl in H. injection H as <-. destruct k; reflexivity.
  - rewrite mapM_Some in H. inversion H as [|? r ? rows' Hi Hrest]; subst.
    apply mapM_Some in Hrest. destruct k as [|k]; [reflexivity|].
    simpl. rewrite Hi. simpl. rewrite (IH _ k Hrest). reflexivity.
Qed.

Lemma take_rows_drop {A} (a : list A) indices rows k :
  take_rows a indices = Some rows ->
  take_rows a (drop k indices) = Some (drop k rows).
Proof.
  unfold take_rows. revert rows k.
  induction indices as [|i is_ IH]; intros rows k H.
  - simpl in H. injection H as <-. destruct k; reflexivity.
  - pose proof H as H0.
    rewrite mapM_Some in H. inversion H as [|? r ? rows' Hi Hrest]; subst.
    apply mapM_Some in Hrest. destruct k as [|k]; [exact H0|].
    simpl. exact (IH _ k Hrest).
Qed.

Lemma PySlice_clamp_length {A B} (l : list A) (l' : list B) i :
  length l = length l' -> PySlice.clamp l i = PySlice.clamp l' i.
Proof. unfold PySlice.clamp. intros ->. reflexivity. Qed.

(** What [prepare_data] returns, when it returns: the datasets are the
    rows picked by the permutation drawn from the trainer's generator, cut
    at [int(n * (1 - val_split))], and the training set is not empty. *)
Lemma prepare_data_picks self features labels val_split loaders :
  snd (prepare_data self features labels val_split) = Some loaders ->
  let indices := fst (rng_permutation (rng self) (length features)) in
  exists cut,
    split_idx_of (length indices) val_split = Some cut /\
    picks features labels (PySlice.upto indices cut) (PySlice.from indices cut)
          loaders /\
    tensors_x (dataset (fst loaders)) <> [].
Proof.
  unfold prepare_data, picks.
  destruct (rng_permutation (rng self) (length features)) as [indices r].
  cbn [fst snd].
  destruct (take_rows features indices) as [features'|] eqn:Hf; [|discriminate].
  destruct (take_rows labels indices) as [labels'|] eqn:Hl; [|discriminate].
  cbn [mbind option_bind].
  pose proof (take_rows_length _ _ _ Hf) as Lf.
  pose proof (take_rows_length _ _ _ Hl) as Ll.
  rewrite Lf.
  destruct (split_idx_of (length indices) val_split) as [cut|]; [|discriminate].
  cbn [mbind option_bind].
  destruct (PySlice.upto features' cut) as [|x xs] eqn:Hx; [discriminate|].
  destruct (batch_size self <=? 0)%Z; [discriminate|].
  intros [= <-]. cbn [fst snd dataset tensors_x tensors_y].
  exists cut. split; [reflexivity|]. split; [|discriminate].
  rewrite <- Hx. unfold PySlice.upto, PySlice.from.
  rewrite (PySlice_clamp_length features' indices _ Lf).
  rewrite (PySlice_clamp_length labels' indices _ Ll).
  repeat split;
    first [apply take_rows_take; assumption | apply take_rows_drop; assumption].
Qed.

(** A call of [prepare_data] leaves the trainer with the generator that
    the permutation advanced: a later call on the same trainer continues
    the stream and does not start from the seed again. *)
Lemma prepare_data_advances_rng self features labels val_split :
  rng (fst (prepare_data self features labels val_split)) =
  snd (rng_permutation (rng self) (length features)).
Proof.
  unfold prepare_data.
  destruct (rng_permutation (rng self) (length features)) as [indices r].
  reflexivity.
Qed.

End SplitFacts.

(** C7, as the code has it.  The split of a freshly constructed trainer is
    fixed by the seed, the table and the validation fraction: its datasets
    are the rows picked by the first permutation of the generator made from
    the seed, cut at [int(n * (1 - f))] as binary64 evaluates it, whatever
    the trainer's model, optimizer, batch size, epoch budget and patience;
    so two trainers constructed with the same seed, each with a batch size
    that the loaders accept, split alike.  A second call on the same
    trainer picks by the next permutation of the generator's stream. *)
Theorem prepare_data_follows_the_generator_stream :
  forall (T : Torch) (seed : Z) (f : spec_float)
         (m1 m2 : Module_) (o1 o2 : optim) (b1 b2 e1 e2 p1 p2 : Z)
         (features : list row) (labels : list label),
    let n := length features in
    let t1 := ProductionTrainer_init m1 o1 b1 e1 p1 seed in
    let t2 := ProductionTrainer_init m2 o2 b2 e2 p2 seed in
    let draw1 := rng_permutation (default_rng seed) n in
    let draw2 := rng_permutation (snd draw1) n in
    let call1 := prepare_data t1 features labels f in
    let call2 := prepare_data (fst call1) features labels f in
    (forall loaders,
       snd call1 = Some loaders ->
       exists cut,
         split_idx_of (length (fst draw1)) f = Some cut /\
         picks features labels (PySlice.upto (fst draw1) cut)
               (PySlice.from (fst draw1) cut) loaders) /\
    ((0 < b1)%Z -> (0 < b2)%Z ->
     datasets_of <$> snd call1
     = datasets_of <$> snd (prepare_data t2 features labels f)) /\
    (forall loaders,
       snd call2 = Some loaders ->
       exists cut,
         split_idx_of (length (fst draw2)) f = Some cut /\
         picks features labels (PySlice.upto (fst draw2) cut)
               (PySlice.from (fst draw2) cut) loaders).
Proof.
  intros T sd f m1 m2 o1 o2 b1 b2 e1 e2 p1 p2 features labels
         n t1 t2 draw1 draw2 call1 call2.
  split; [|split].
  - intros loaders H.
    destruct (prepare_data_picks t1 features labels f loaders H)
      as (cut & Hcut & Hpicks & _).
    exists cut. split; assumption.
  - intros Hb1 Hb2.
    subst call1 t1 t2. unfold prepare_data.
    cbn [rng batch_size ProductionTrainer_init].
    destruct (rng_permutation (default_rng sd) (length features)) as [indices r].
    cbn [fst snd].
    destruct (take_rows features indices) as [features'|]; [|reflexivity].
    destruct (take_rows labels indices) as [labels'|]; [|reflexivity].
    cbn [mbind option_bind].
    destruct (split_idx_of (length features') f) as [cut|]; [|reflexivity].
    cbn [mbind option_bind].
    destruct (PySlice.upto features' cut); [reflexivity|].
    destruct (Z.leb_spec b1 0); [lia|]. destruct (Z.leb_spec b2 0); [lia|].
    reflexivity.
  - intros loaders H.
    destruct (prepare_data_picks (fst call1) features labels f loaders H)
      as (cut & Hcut & Hpicks & _).
    assert (E : rng (fst call1) = snd draw1)
      by (subst call1 draw1; apply prepare_data_advances_rng).
    rewrite E in Hcut, Hpicks.
    exists cut. split; assumption.
Qed.

Lemma prepare_data_follows_the_generator_stream_witness :
  let features : list Q := [10; 20; 30; 40; 50] in
  let labels : list Q := [1; 2; 3; 4; 5] in
  let f := IEEE.decimal IEEE.binary64 2 10 in
  let call1 := @prepare_data stream_torch stream_trainer features labels f in
  exists loaders cut,
    snd call1 = Some loaders /\
    split_idx_of 5 f = Some cut /\
    @picks stream_torch features labels
          (PySlice.upto (fst (@rng_permutation stream_torch 42%nat 5)) cut)
          (PySlice.from (fst (@rng_permutation stream_torch 42%nat 5)) cut)
          loaders.
Proof.
  intros features labels f call1.
  destruct (snd call1) as [loaders|] eqn:H; [|vm_compute in H; discriminate].
  destruct (proj1 (prepare_data_follows_the_generator_stream
                     stream_torch 42 f no_parameters no_parameters tt tt
                     32 32 150 150 20 20 features labels) loaders H)
    as (cut & Hcut & Hpicks).
  exists loaders, cut. split; [reflexivity|]. split; [exact Hcut | exact Hpicks].
Defined.

(** C7 as stated fails.  With a generator whose stream advances (here it
    rotates the row order by its state), two calls on one trainer, with the
    same table, seed and validation fraction 0.2, give different training
    sets: rows 3, 4, 5, 1 and then rows 4, 5, 1, 2.  And the cut is not the
    floor of [n * (1 - f)]: for ten rows and [f = 0.9] the code computes
    [int(10 * (1 - 0.9)) = 0], where [10 * (1 - 9/10)] is 1, and then
    refuses the empty training set. *)
Lemma prepare_data_second_call_differs :
  let features : list Q := [10; 20; 30; 40; 50] in
  let labels : list Q := [1; 2; 3; 4; 5] in
  let f := IEEE.decimal IEEE.binary64 2 10 in
  let call1 := @prepare_data stream_torch stream_trainer features labels f in
  let call2 := @prepare_data stream_torch (fst call1) features labels f in
  seed (fst call1) = seed stream_trainer /\
  @training_rows stream_torch (snd call1) = Some [30; 40; 50; 10] /\
  @training_rows stream_torch (snd call2) = Some [40; 50; 10; 20] /\
  split_idx_of 10 (IEEE.decimal IEEE.binary64 9 10) = Some 0%Z /\
  Qfloor (10 * (1 - (9 # 10))) = 1%Z /\
  snd (@prepare_data stream_torch stream_trainer
         (features ++ features) (labels ++ labels)
         (IEEE.decimal IEEE.binary64 9 10)) = None.
Proof. vm_compute. repeat split; reflexivity. Qed.

(** ** Normalization *)

Lemma floor_sqrt_zero (q : Q) : q == 0 -> floor_sqrt q == 0.
Proof.
  unfold Qeq, floor_sqrt. simpl. intros H.
  assert (Qnum q = 0%Z) as -> by lia. reflexivity.
Qed.

Section NormalizationFacts.

Variable np_sqrt : Q -> Q.

Lemma clamp_std_positive (s : Q) : 1 # 1000000 < clamp_std s \/ clamp_std s = 1.
Proof.
  unfold clamp_std. destruct (PyFloat.gtb s (1 # 1000000)) eqn:E; [left|right; reflexivity].
  apply PyFloat_gtb_gt. exact E.
Qed.

Lemma clamp_std_nonzero (s : Q) : ~ clamp_std s == 0.
Proof.
  destruct (clamp_std_positive s) as [H| ->]; [|discriminate].
  intros Heq. rewrite Heq in H. discriminate.
Qed.

Lemma clamp_std_of_zero (s : Q) : s == 0 -> clamp_std s = 1.
Proof.
  intros H. unfold clamp_std.
  destruct (PyFloat.gtb s (1 # 1000000)) eqn:E; [|reflexivity].
  apply PyFloat_gtb_gt in E. rewrite H in E. discriminate.
Qed.

Lemma checked_div_nonzero (x s : Q) : ~ s == 0 -> checked_div x s = Some (x / s).
Proof.
  intros H. unfold checked_div. destruct (Qeq_bool s 0) eqn:E; [|reflexivity].
  apply Qeq_bool_iff in E. contradiction.
Qed.

(** No division of [normalize_row] has a zero divisor when the divisors are
    clamped standard deviations. *)
Lemma normalize_row_defined (means raw_stds row : list Q) :
  is_Some (normalize_row means (map clamp_std raw_stds) row).
Proof.
  unfold normalize_row. apply mapM_is_Some. apply Forall_forall.
  intros [[x m] s] Hin. simpl.
  apply elem_of_zip_r in Hin. simpl in Hin.
  apply list_elem_of_In, in_map_iff in Hin. destruct Hin as (s0 & <- & _).
  rewrite checked_div_nonzero by apply clamp_std_nonzero. eauto.
Qed.

Lemma PyFloat_sum_from (xs : list Q) (a : Q) :
  fold_left Qplus xs a == a + PyFloat.sum xs.
Proof.
  unfold PyFloat.sum. revert a.
  induction xs as [|x xs IH]; intros a; simpl.
  - ring.
  - rewrite (IH (a + x)), (IH (0 + x)). ring.
Qed.

Lemma PyFloat_sum_constant (xs : list Q) (c : Q) :
  Forall (fun x => x == c) xs ->
  PyFloat.sum xs == inject_Z (Z.of_nat (length xs)) * c.
Proof.
  induction 1 as [|x xs Hx Hxs IH].
  - unfold PyFloat.sum. simpl. ring.
  - change (length (x :: xs)) with (S (length xs)).
    rewrite Nat2Z.inj_succ. unfold Z.succ. rewrite inject_Z_plus.
    unfold PyFloat.sum. cbn [fold_left]. rewrite PyFloat_sum_from, IH, Hx.
    ring.
Qed.

Lemma np_mean_constant (xs : list Q) (c : Q) :
  xs <> [] -> Forall (fun x => x == c) xs -> np_mean xs == c.
Proof.
  intros Hne H. unfold np_mean. rewrite (PyFloat_sum_constant xs c H).
  field. destruct xs as [|x xs]; [congruence|].
  simpl. unfold Qeq. simpl. lia.
Qed.

Lemma np_mean_zero (xs : list Q) :
  Forall (fun x => x == 0) xs -> np_mean xs == 0.
Proof.
  intros H. unfold np_mean. rewrite (PyFloat_sum_constant xs 0 H).
  unfold Qdiv. ring.
Qed.

(** The variance numpy computes for a constant column is zero. *)
Lemma variance_constant (xs : list Q) (c : Q) :
  Forall (fun x => x == c) xs ->
  np_mean (map (fun x => (x - np_mean xs) * (x - np_mean xs)) xs) == 0.
Proof.
  intros H. destruct xs as [|x0 xs0] eqn:E.
  - unfold np_mean, PyFloat.sum. simpl. reflexivity.
  - rewrite <- E in *. assert (Hne : xs <> []) by (rewrite E; discriminate).
    apply np_mean_zero. apply Forall_forall. intros y Hy.
    apply list_elem_of_In, in_map_iff in Hy. destruct Hy as (x & <- & Hx).
    rewrite Forall_forall in H. rewrite (H x) by (apply list_elem_of_In; exact Hx).
    rewrite (np_mean_constant xs c Hne) by (apply Forall_forall; exact H).
    ring.
Qed.

End NormalizationFacts.

(** Without rounding the clamp does what it is there for: in exact
    arithmetic no division of the normalization has a zero divisor, no
    recorded standard deviation is zero, and for every column whose entries
    are all equal the recorded standard deviation is exactly 1.
    ([np_sqrt] is numpy's square root, of which only [sqrt 0 = 0] is
    used.) *)
Theorem normalize_features_zero_variance :
  forall (np_sqrt : Q -> Q) (features : list (list Q)) (j : nat) (c : Q),
    (forall q, q == 0 -> np_sqrt q == 0) ->
    (j < n_columns features)%nat ->
    Forall (fun r => nth j r 0 == c) features ->
    let (normalized, params) := normalize_features np_sqrt features in
    is_Some normalized /\
    Forall (fun s => ~ s == 0) (stds params) /\
    stds params !! j = Some 1.
Proof.
  intros np_sqrt features j c Hsqrt Hj Hconst. unfold normalize_features.
  repeat split.
  - apply mapM_is_Some. apply Forall_forall. intros r _. simpl.
    apply normalize_row_defined.
  - simpl. apply Forall_forall. intros s Hs.
    apply list_elem_of_In, in_map_iff in Hs. destruct Hs as (s0 & <- & _).
    apply clamp_std_nonzero.
  - simpl. rewrite !list_lookup_fmap, lookup_seq_lt by exact Hj. simpl.
    f_equal. apply clamp_std_of_zero. unfold np_std. apply Hsqrt.
    apply (variance_constant _ c). unfold column.
    apply Forall_forall. intros x Hx.
    apply list_elem_of_In, in_map_iff in Hx. destruct Hx as (r & <- & Hr).
    rewrite Forall_forall in Hconst. apply Hconst, list_elem_of_In. exact Hr.
Qed.

Lemma normalize_features_zero_variance_witness :
  let features : list (list Q) := [[5; 1]; [5; 3]]%Q in
  (0 < n_columns features)%nat /\
  Forall (fun r => nth 0 r 0 == 5) features /\
  let (normalized, params) := normalize_features floor_sqrt features in
  is_Some normalized /\
  Forall (fun s => ~ s == 0) (stds params) /\
  stds params !! 0%nat = Some 1.
Proof.
  intros features.
  assert (H1 : (0 < n_columns features)%nat) by (simpl; lia).
  assert (H2 : Forall (fun r => nth 0 r 0 == 5) features)
    by (repeat constructor).
  split; [exact H1|]. split; [exact H2|].
  exact (normalize_features_zero_variance floor_sqrt features 0 5
           floor_sqrt_zero H1 H2).
Defined.

(** C8 fails on float arrays.  In the float32 table whose first column is
    25.7 in each of its three rows, numpy's mean of that column,
    [((c + c) + c) / 3], is one unit in the last place above [c]; every
    deviation is [-2^-19], and so is, in absolute value, the standard
    deviation; [2^-19], about 1.9e-6, is above the threshold of 1e-6 and is
    recorded as it is, where the claim has 1.0; and the constant column is
    normalized to -1 in every row. *)
Theorem normalize_features_records_rounding_noise :
  let c := IEEE.decimal IEEE.binary32 257 10 in
  let (normalized, params) :=
    Numpy.normalize_features IEEE.binary32 constant_column_table in
  Numpy.column 0 constant_column_table = [c; c; c] /\
  c = S754_finite false 13474202 (-19) /\
  Numpy.mean IEEE.binary32 (Numpy.column 0 constant_column_table)
  = S754_finite false 13474203 (-19) /\
  Numpy.std IEEE.binary32 (Numpy.column 0 constant_column_table)
  = S754_finite false 8388608 (-42) /\
  Numpy.stds params !! 0%nat = Some (S754_finite false 4503599627370496 (-71)) /\
  Numpy.stds params !! 0%nat <> Some (IEEE.of_Z IEEE.binary64 1) /\
  Numpy.column 0 normalized
  = replicate 3 (IEEE.of_Z IEEE.binary64 (-1)).
Proof. vm_compute. repeat split; try reflexivity. discriminate. Qed.

(** ** The mock explanation *)

(** C5.  For [{"a": 10.0, "b": -5.0}] and model type "waste_predictor" the
    mock result has expected value 15, carries the flag that marks the
    fallback (the key "isMock" of the code), gives "b" the contribution 0,
    and predicts 15 plus the sum of the contributions (15.1). *)
Theorem mock_explanation_waste_predictor_example :
  let r := generate_mock_explanation "waste_predictor" example_input in
  expectedValue r = 15 /\
  isMock r = Some true /\
  featureNames r = ["a"; "b"]%string /\
  shapValues r !! 1%nat = Some 0 /\
  (exists ca, shapValues r !! 0%nat = Some ca /\ ca == 1 # 10) /\
  prediction r == 15 + PyFloat.sum (shapValues r) /\
  prediction r == 151 # 10.
Proof.
  vm_compute. repeat split; try reflexivity.
  eexists. split; reflexivity.
Qed.

(** ** The ranked importances and the top contributors *)

Section SortedFacts.

Context {A : Type}.

Lemma insert_sorted_In (precedes : A -> A -> bool) (x a : A) (l : list A) :
  In a (insert_sorted precedes x l) <-> a = x \/ In a l.
Proof.
  induction l as [|y l IH]; simpl.
  - intuition.
  - destruct (precedes y x); simpl; [rewrite IH|]; intuition.
Qed.

Lemma py_sorted_In (precedes : A -> A -> bool) (a : A) (l : list A) :
  In a (py_sorted precedes l) <-> In a l.
Proof.
  unfold py_sorted. induction l as [|x l IH]; simpl; [tauto|].
  rewrite insert_sorted_In, IH. intuition.
Qed.

Lemma insert_sorted_Permutation (precedes : A -> A -> bool) (x : A) (l : list A) :
  Permutation (insert_sorted precedes x l) (x :: l).
Proof.
  induction l as [|y l IH]; simpl; [reflexivity|].
  destruct (precedes y x); [|reflexivity].
  rewrite IH. apply perm_swap.
Qed.

Lemma py_sorted_Permutation (precedes : A -> A -> bool) (l : list A) :
  Permutation (py_sorted precedes l) l.
Proof.
  unfold py_sorted. induction l as [|x l IH]; simpl; [reflexivity|].
  rewrite insert_sorted_Permutation, IH. reflexivity.
Qed.

Variable key : A -> Q.

Lemma insert_sorted_desc (x : A) (l : list A) :
  StronglySorted (key_desc key) l ->
  StronglySorted (key_desc key)
    (insert_sorted (fun y x => PyFloat.gtb (key y) (key x)) x l).
Proof.
  induction 1 as [|y l Hl IH Hy]; simpl.
  - constructor; constructor.
  - destruct (PyFloat.gtb (key y) (key x)) eqn:E.
    + constructor; [exact IH|].
      apply Forall_forall. intros a Ha.
      apply list_elem_of_In, insert_sorted_In in Ha. destruct Ha as [->|Ha].
      * apply PyFloat_gtb_gt in E. apply Qlt_le_weak. exact E.
      * rewrite Forall_forall in Hy. apply Hy, list_elem_of_In. exact Ha.
    + apply PyFloat_gtb_le in E.
      constructor; [constructor; assumption|].
      constructor; [exact E|].
      eapply Forall_impl; [exact Hy|].
      intros a Ha. unfold key_desc in *. eapply Qle_trans; eassumption.
Qed.

(** [sorted(l, key=key, reverse=True)] is in descending order of the key. *)
Lemma sorted_desc_StronglySorted (l : list A) :
  StronglySorted (key_desc key) (sorted_desc key l).
Proof.
  unfold sorted_desc, py_sorted. induction l as [|x l IH]; simpl.
  - constructor.
  - apply insert_sorted_desc. exact IH.
Qed.

End SortedFacts.

Section SublistFacts.

Context {A B : Type}.

Lemma StronglySorted_filter (R : A -> A -> Prop) (test : A -> bool) (l : list A) :
  StronglySorted R l -> StronglySorted R (List.filter test l).
Proof.
  induction 1 as [|x l Hl IH Hx]; simpl; [constructor|].
  destruct (test x); [|exact IH].
  constructor; [exact IH|].
  apply Forall_forall. intros a Ha.
  apply list_elem_of_In, filter_In in Ha. destruct Ha as [Ha _].
  rewrite Forall_forall in Hx. apply Hx, list_elem_of_In. exact Ha.
Qed.

Lemma StronglySorted_take (R : A -> A -> Prop) (n : nat) (l : list A) :
  StronglySorted R l -> StronglySorted R (take n l).
Proof.
  intros H. revert n.
  induction H as [|x l Hl IH Hx]; intros [|n]; simpl; try constructor.
  - apply IH.
  - eapply Forall_forall. intros a Ha.
    rewrite Forall_forall in Hx. apply Hx.
    apply elem_of_take in Ha. destruct Ha as (i & Hi & _).
    eapply list_elem_of_lookup_2. exact Hi.
Qed.

Lemma StronglySorted_map (R : A -> A -> Prop) (R' : B -> B -> Prop)
    (f : A -> B) (l : list A) :
  (forall a b, R a b -> R' (f a) (f b)) ->
  StronglySorted R l -> StronglySorted R' (map f l).
Proof.
  intros Hf. induction 1 as [|x l Hl IH Hx]; simpl; constructor; [exact IH|].
  apply Forall_forall. intros b Hb.
  apply list_elem_of_In, in_map_iff in Hb. destruct Hb as (a & <- & Ha).
  apply Hf. rewrite Forall_forall in Hx. apply Hx, list_elem_of_In. exact Ha.
Qed.

Lemma StronglySorted_weaken (R R' : A -> A -> Prop) (P : A -> Prop) (l : list A) :
  (forall a b, P a -> P b -> R a b -> R' a b) ->
  Forall P l -> StronglySorted R l -> StronglySorted R' l.
Proof.
  intros Hw HP. induction 1 as [|x l Hl IH Hx]; constructor.
  - apply IH. inversion HP; assumption.
  - inversion HP as [|? ? Px Pl]; subst.
    rewrite Forall_forall in *. intros a Ha. apply Hw; auto.
Qed.

Lemma StronglySorted_head (R : A -> A -> Prop) (a b : A) (l : list A) :
  StronglySorted R (a :: b :: l) -> R a b /\ StronglySorted R (b :: l).
Proof.
  intros H. inversion H as [|? ? Hl Ha]; subst.
  inversion Ha; subst. auto.
Qed.

Lemma take_In (n : nat) (a : A) (l : list A) : In a (take n l) -> In a l.
Proof.
  intros H. apply list_elem_of_In. apply list_elem_of_In in H.
  apply elem_of_take in H. destruct H as (i & Hi & _).
  eapply list_elem_of_lookup_2. exact Hi.
Qed.

Lemma take_length_bound (n : nat) (l : list A) : (length (take n l) <= n)%nat.
Proof. rewrite length_take. lia. Qed.

End SublistFacts.

Lemma Forall_filter_test {A} (test : A -> bool) (l : list A) :
  Forall (fun a => test a = true) (List.filter test l).
Proof.
  apply Forall_forall. intros a Ha.
  apply list_elem_of_In, filter_In in Ha. tauto.
Qed.

(** The parts of C6 that hold on the mock path: the importances are in
    descending order, each top list has at most five entries, no feature is
    in both, and the lists run from the largest positive and from the most
    negative contribution. *)
Lemma mock_explanation_ranking (model_type : string) (input_data : gmap string Q) :
  let r := generate_mock_explanation model_type input_data in
  StronglySorted importance_desc (featureImportance r) /\
  (length (topContributors_positive r) <= 5)%nat /\
  (length (topContributors_negative r) <= 5)%nat /\
  disjoint_features (topContributors_positive r) (topContributors_negative r) /\
  StronglySorted contribution_desc (topContributors_positive r) /\
  StronglySorted contribution_asc (topContributors_negative r).
Proof.
  cbv zeta. unfold generate_mock_explanation. cbn [featureImportance
    topContributors_positive topContributors_negative].
  set (contributions :=
         map (fun name => (name, mock_contribution model_type
                                   (dict_get input_data name)))
             (sorted_keys input_data)).
  set (sorted_contribs := sorted_desc (fun x => Qabs (snd x)) contributions).
  assert (Hsorted : StronglySorted
                      (fun a b : string * Q => Qabs (snd b) <= Qabs (snd a))
                      sorted_contribs)
    by apply (sorted_desc_StronglySorted (fun x : string * Q => Qabs (snd x))).
  assert (Hfun : forall nc, In nc sorted_contribs ->
            snd nc = mock_contribution model_type (dict_get input_data (fst nc))).
  { intros nc Hnc. apply py_sorted_In in Hnc.
    apply in_map_iff in Hnc. destruct Hnc as (name & <- & _). reflexivity. }
  repeat split.
  - apply (StronglySorted_map
             (fun a b : string * Q => Qabs (snd b) <= Qabs (snd a)));
      [intros a b H; exact H | exact Hsorted].
  - apply take_length_bound.
  - apply take_length_bound.
  - intros p n Hp Hn Heq.
    apply take_In, in_map_iff in Hp. destruct Hp as (pc & <- & Hp).
    apply take_In, in_map_iff in Hn. destruct Hn as (nc & <- & Hn).
    apply filter_In in Hp. destruct Hp as [Hp Hpos].
    apply filter_In in Hn. destruct Hn as [Hn Hneg].
    simpl in Heq.
    apply PyFloat_gtb_gt in Hpos. apply PyFloat_ltb_lt in Hneg.
    rewrite (Hfun _ Hp) in Hpos. rewrite (Hfun _ Hn) in Hneg.
    rewrite Heq in Hpos.
    exact (Qlt_irrefl _ (Qlt_trans _ _ _ Hpos Hneg)).
  - apply StronglySorted_take.
    apply (StronglySorted_map (fun a b : string * Q => snd b <= snd a));
      [intros a b H; exact H|].
    apply (StronglySorted_weaken
             (fun a b : string * Q => Qabs (snd b) <= Qabs (snd a)) _
             (fun a => PyFloat.gtb (snd a) 0 = true)).
    + intros a b Ha Hb H.
      apply PyFloat_gtb_gt, Qlt_le_weak in Ha.
      apply PyFloat_gtb_gt, Qlt_le_weak in Hb.
      rewrite (Qabs_pos _ Ha), (Qabs_pos _ Hb) in H. exact H.
    + apply Forall_filter_test.
    + apply StronglySorted_filter. exact Hsorted.
  - apply StronglySorted_take.
    apply (StronglySorted_map (fun a b : string * Q => snd a <= snd b));
      [intros a b H; exact H|].
    apply (StronglySorted_weaken
             (fun a b : string * Q => Qabs (snd b) <= Qabs (snd a)) _
             (fun a => PyFloat.ltb (snd a) 0 = true)).
    + intros a b Ha Hb H.
      apply PyFloat_ltb_lt, Qlt_le_weak in Ha.
      apply PyFloat_ltb_lt, Qlt_le_weak in Hb.
      rewrite (Qabs_neg _ Ha), (Qabs_neg _ Hb) in H.
      apply Qopp_le_compat in H. rewrite !Qopp_involutive in H. exact H.
    + apply Forall_filter_test.
    + apply StronglySorted_filter. exact Hsorted.
Qed.

(** ** The error monad *)

Lemma result_bind_Ok {A B} (m : result A) (f : A -> result B) (b : B) :
  mbind f m = Ok b -> exists a, m = Ok a /\ f a = Ok b.
Proof.
  destruct m as [a|e]; simpl; [|discriminate]. intros H. exists a. auto.
Qed.

Lemma mapM_result_In {A B} (f : A -> result B) (l : list A) (k : list B) :
  mapM (M := result) f l = Ok k ->
  forall y, In y k -> exists x, In x l /\ f x = Ok y.
Proof.
  revert k. induction l as [|x l IH]; intros k H y Hy.
  - injection H as <-. destruct Hy.
  - cbn [mapM] in H.
    apply result_bind_Ok in H. destruct H as (b & Hb & H).
    apply result_bind_Ok in H. destruct H as (k' & Hk' & H).
    injection H as <-. destruct Hy as [<-|Hy].
    + exists x. split; [left; reflexivity | exact Hb].
    + destruct (IH k' Hk' y Hy) as (x' & Hx' & Hfx').
      exists x'. split; [right; exact Hx' | exact Hfx'].
Qed.

Lemma py_index_Ok {A} (l : list A) (i : nat) (a : A) :
  py_index l i = Ok a -> l !! i = Some a.
Proof. unfold py_index. destruct (l !! i); [congruence | discriminate]. Qed.

(** ** The SHAP path *)

Lemma sorted_keys_NoDup (d : gmap string Q) : NoDup (sorted_keys d).
Proof.
  unfold sorted_keys. rewrite py_sorted_Permutation.
  apply (NoDup_fst_map_to_list d).
Qed.

(** Where the entries of a top list of the SHAP path come from. *)
Lemma top_by_position_In test feature_names flat l :
  top_by_position test feature_names flat = Ok l ->
  (length l <= 5)%nat /\
  forall e, In e l ->
    exists i,
      flat !! i = Some (Contribution.contribution e) /\
      test (Contribution.contribution e) = true /\
      feature_names !! i = Some (Contribution.feature e).
Proof.
  unfold top_by_position. intros H.
  apply result_bind_Ok in H. destruct H as (selected & Hsel & H).
  injection H as <-. split; [apply take_length_bound|].
  intros e He. apply take_In in He.
  destruct (mapM_result_In _ _ _ Hsel e He) as ([i v] & Hiv & He').
  simpl in He'.
  apply result_bind_Ok in He'. destruct He' as (name & Hname & He').
  injection He' as <-. simpl.
  apply filter_In in Hiv. destruct Hiv as [Hiv Htest]. simpl in Htest.
  apply list_elem_of_In, elem_of_lookup_imap in Hiv.
  destruct Hiv as (i' & v' & [= -> ->] & Hlook).
  exists i'. auto using py_index_Ok.
Qed.

(** The parts of C6 that hold on the primary path: the importances are in
    descending order, each top list has at most five entries, and no feature
    is in both. *)
Lemma shap_explanation_ranking {C : Capabilities} session input_data background r e :
  generate_shap_explanation session input_data background = Ok (Some r, e) ->
  StronglySorted importance_desc (featureImportance r) /\
  (length (topContributors_positive r) <= 5)%nat /\
  (length (topContributors_negative r) <= 5)%nat /\
  disjoint_features (topContributors_positive r) (topContributors_negative r).
Proof.
  unfold generate_shap_explanation. intros H.
  apply result_bind_Ok in H. destruct H as (predict_fn & _ & H).
  destruct (mbind _ (shap_KernelExplainer _ _)) as [[explainer values]|err];
    [|discriminate].
  apply result_bind_Ok in H. destruct H as (expected & _ & H).
  apply result_bind_Ok in H. destruct H as (flat & _ & H).
  apply result_bind_Ok in H. destruct H as (importance & _ & H).
  apply result_bind_Ok in H. destruct H as (out & _ & H).
  apply result_bind_Ok in H. destruct H as (pred & _ & H).
  apply result_bind_Ok in H. destruct H as (positive & Hpos & H).
  apply result_bind_Ok in H. destruct H as (negative & Hneg & H).
  injection H as <- <-. simpl.
  destruct (top_by_position_In _ _ _ _ Hpos) as [Lpos Ipos].
  destruct (top_by_position_In _ _ _ _ Hneg) as [Lneg Ineg].
  repeat split; try assumption.
  - apply (StronglySorted_map (fun a b : string * Q => snd b <= snd a));
      [intros a b Hab; exact Hab|].
    apply (sorted_desc_StronglySorted (snd : string * Q -> Q)).
  - intros p n Hp Hn Heq.
    destruct (Ipos p Hp) as (i & Hi & Hgt & Hni).
    destruct (Ineg n Hn) as (j & Hj & Hlt & Hnj).
    rewrite Heq in Hni.
    pose proof (NoDup_lookup _ _ _ _ (sorted_keys_NoDup input_data) Hni Hnj) as Hij.
    subst j. rewrite Hi in Hj. injection Hj as Hj. rewrite <- Hj in Hlt.
    apply PyFloat_gtb_gt in Hgt. apply PyFloat_ltb_lt in Hlt.
    exact (Qlt_irrefl _ (Qlt_trans _ _ _ Hgt Hlt)).
Qed.

(** Under the waste predictor's rule a value that is not positive
    contributes zero. *)
Lemma mock_contribution_waste_nonpositive (val : Q) :
  val <= 0 -> mock_contribution "waste_predictor" val = 0.
Proof.
  intros H. unfold mock_contribution. simpl.
  apply PyFloat_gtb_le in H. rewrite H. reflexivity.
Qed.

(** C6 fails on the primary path.  For the additive model and the record
    [{"a": 0.2, "b": 0.5, "c": 0.1}] the positive contributors come out in
    the order of the feature names, with contributions 0.2, 0.5, 0.1, which
    is neither descending nor ascending; the mock path, given contributions
    in the same proportions, lists them by descending contribution.  With
    six positive features the cut at five drops "f", the largest. *)
Theorem shap_top_contributors_follow_feature_order :
  (exists r,
     shap_result (C := additive_capabilities NotAnObject)
                 (Some additive_session) three_features None = Some r /\
     contributions_of (topContributors_positive r) = [2 # 10; 5 # 10; 1 # 10] /\
     ~ StronglySorted contribution_desc (topContributors_positive r) /\
     ~ StronglySorted contribution_asc (topContributors_positive r)) /\
  features_of
    (topContributors_positive (generate_mock_explanation "other" three_features))
  = ["b"; "a"; "c"]%string /\
  (exists r,
     shap_result (C := additive_capabilities NotAnObject)
                 (Some additive_session) six_features None = Some r /\
     featureNames r = ["a"; "b"; "c"; "d"; "e"; "f"]%string /\
     shapValues r = [1; 2; 3; 4; 5; 6] /\
     features_of (topContributors_positive r) = ["a"; "b"; "c"; "d"; "e"]%string).
Proof.
  split; [|split].
  - eexists. split; [vm_compute; reflexivity|].
    split; [reflexivity|]. split; intros H.
    + apply StronglySorted_head in H. destruct H as [H _].
      apply H. reflexivity.
    + apply StronglySorted_head in H. destruct H as [_ H].
      apply StronglySorted_head in H. destruct H as [H _].
      apply H. reflexivity.
  - vm_compute. reflexivity.
  - eexists. split; [vm_compute; reflexivity|]. repeat split; reflexivity.
Qed.

(** ** The two paths of [main] *)

Section MainFacts.

Context {C : Capabilities}.

Lemma main_of_Ok args r :
  main_try args = Ok r -> main args = {| stdout := PrintResult r; exit_code := 0 |}.
Proof. unfold main. intros ->. reflexivity. Qed.

Lemma main_of_Raise args e :
  main_try args = Raise e ->
  exit_code (main args) = 1%Z /\ exists msg, stdout (main args) = PrintError msg.
Proof. unfold main. intros ->. destruct e; simpl; eauto. Qed.

(** When the attribution step raises, [generate_shap_explanation] returns
    no result and the message. *)
Lemma generate_shap_explanation_attribution_raises session name input_data background :
  get_inputs_0_name session = Ok name ->
  attribution_raises
    (predict session name)
    (background_or_zeros background (length (sorted_keys input_data)))
    (input_array_of input_data) ->
  exists msg,
    generate_shap_explanation (Some session) input_data background
    = Ok (None, Some msg).
Proof.
  intros Hname [e He]. unfold generate_shap_explanation.
  unfold create_prediction_function. rewrite Hname. simpl.
  unfold mbind, result_bind in He |- *. simpl in He |- *.
  rewrite He. eauto.
Qed.

End MainFacts.

(** The fallback that the script does have.  When the guarded step of the
    SHAP path raises (building the KernelExplainer or computing the SHAP
    values, lines 72-77), [main] prints the mock explanation of the record,
    with the model type and path added, and exits with 0. *)
Theorem attribution_failure_falls_back_to_mock :
  forall (C : Capabilities) (args : Args) (d : gmap string Q)
         (session : InferenceSession) (name : string),
    json_loads (input_data args) = Ok (FeatureObject d) ->
    SHAP_AVAILABLE = true ->
    ONNX_AVAILABLE = true ->
    os_path_exists (model_path args) = true ->
    ort_InferenceSession (model_path args) = Ok session ->
    get_inputs_0_name session = Ok name ->
    attribution_raises
      (predict session name)
      (background_or_zeros (main_background args) (length (sorted_keys d)))
      (input_array_of d) ->
    main args =
      {| stdout := PrintResult
                     (with_metadata
                        (generate_mock_explanation (model_type args) d) args);
         exit_code := 0 |}.
Proof.
  intros C args d session name Hjson Hshap Honnx Hpath Hload Hname Hraise.
  apply main_of_Ok. unfold main_try. rewrite Hjson. simpl.
  unfold main_primary. rewrite Hshap, Honnx, Hpath. simpl.
  unfold load_onnx_model. rewrite Honnx, Hload. simpl.
  destruct (generate_shap_explanation_attribution_raises
              session name d (main_background args) Hname Hraise)
    as [msg ->].
  simpl. destruct (negb (String.eqb msg "")); reflexivity.
Qed.

Lemma attribution_failure_falls_back_to_mock_witness :
  main (C := failing_attribution_capabilities) example_args =
    {| stdout := PrintResult
                   (with_metadata
                      (generate_mock_explanation (model_type example_args)
                                                 example_input)
                      example_args);
       exit_code := 0 |}.
Proof.
  apply (attribution_failure_falls_back_to_mock
           failing_attribution_capabilities example_args example_input
           additive_session "input"%string
           eq_refl eq_refl eq_refl eq_refl eq_refl eq_refl).
  exists (Exception "singular matrix"). reflexivity.
Defined.

(** C2 fails on the code.  When the model file cannot be loaded, and when
    the explainer returns fewer attributions than there are features, the
    primary path raises outside the guarded step: [main] prints an error
    object and exits with 1, where the claim has the mock explanation. *)
Lemma primary_path_failure_is_surfaced :
  main_primary (C := corrupt_model_capabilities) example_args
               (FeatureObject example_input)
  = Raise (Exception "INVALID_PROTOBUF") /\
  main (C := corrupt_model_capabilities) example_args
  = {| stdout := PrintError "Explanation failed: INVALID_PROTOBUF";
       exit_code := 1 |} /\
  main_primary (C := short_attribution_capabilities) example_args
               (FeatureObject example_input)
  = Raise (Exception "list index out of range") /\
  main (C := short_attribution_capabilities) example_args
  = {| stdout := PrintError "Explanation failed: list index out of range";
       exit_code := 1 |}.
Proof. vm_compute. repeat split; reflexivity. Qed.

(** ** Failures of the entry point *)



(** Two other failures: a JSON value that is not an object, and a model
    file that cannot be loaded. *)
Example main_reports_other_failures :
  main (C := additive_capabilities NotAnObject) example_args =
    {| stdout := PrintError "Explanation failed: object has no attribute 'keys'";
       exit_code := 1 |} /\
  exit_code (main (C := corrupt_model_capabilities) example_args) = 1%Z.
Proof. vm_compute. split; reflexivity. Qed.

(** ** What the scoring function receives *)




(** * Further properties of the code *)

(** ** EarlyStopping: the stop flag, the counter and the best score *)

Lemma EarlyStopping_call_keeps_stop self score m :
  should_stop self = true ->
  should_stop (fst (EarlyStopping_call self score m)) = true.
Proof.
  intros H. unfold EarlyStopping_call.
  destruct (best_score self); [destruct (_is_improved self score)|]; simpl;
    try exact H.
  rewrite H. destruct (patience self <=? counter self + 1)%Z; reflexivity.
Qed.

Lemma EarlyStopping_feed_keeps_stop model scores :
  forall self,
    should_stop self = true ->
    should_stop (EarlyStopping_feed model self scores) = true.
Proof.
  induction scores as [|s rest IH]; intros self H; [exact H|].
  unfold EarlyStopping_feed. simpl. apply IH.
  apply EarlyStopping_call_keeps_stop. exact H.
Qed.

Lemma EarlyStopping_feed_app model self scores more :
  EarlyStopping_feed model self (scores ++ more) =
  EarlyStopping_feed model (EarlyStopping_feed model self scores) more.
Proof. unfold EarlyStopping_feed. apply fold_left_app. Qed.

(** The component never un-stops: once the stop flag is set after some
    calls, it is set after any further calls, whatever their scores. *)
Theorem EarlyStopping_never_unstops :
  forall (model : Module_) (self : EarlyStopping) (scores more : list Q),
    should_stop (EarlyStopping_feed model self scores) = true ->
    should_stop (EarlyStopping_feed model self (scores ++ more)) = true.
Proof.
  intros model self scores more H. rewrite EarlyStopping_feed_app.
  apply EarlyStopping_feed_keeps_stop. exact H.
Qed.

Lemma EarlyStopping_never_unstops_witness :
  should_stop
    (EarlyStopping_feed no_parameters
       (EarlyStopping_init 1 default_min_delta "min") [1; 1]) = true /\
  should_stop
    (EarlyStopping_feed no_parameters
       (EarlyStopping_init 1 default_min_delta "min") ([1; 1] ++ [0])) = true.
Proof.
  assert (H : should_stop
                (EarlyStopping_feed no_parameters
                   (EarlyStopping_init 1 default_min_delta "min") [1; 1]) = true)
    by reflexivity.
  split; [exact H|].
  exact (EarlyStopping_never_unstops no_parameters
           (EarlyStopping_init 1 default_min_delta "min") [1; 1] [0] H).
Defined.

(** A call with a score that is no improvement counts one more epoch and
    sets the flag when the count reaches the patience. *)
Lemma EarlyStopping_call_not_improved self score best model :
  mode self = "min"%string ->
  best_score self = Some best ->
  best - min_delta self <= score ->
  let self' := fst (EarlyStopping_call self score model) in
  best_score self' = Some best /\
  counter self' = (counter self + 1)%Z /\
  should_stop self' =
    (should_stop self || (patience self <=? counter self + 1)%Z) /\
  mode self' = mode self /\ min_delta self' = min_delta self /\
  patience self' = patience self.
Proof.
  intros Hmode Hbest Hle. unfold EarlyStopping_call, _is_improved.
  rewrite Hbest, Hmode. simpl.
  apply PyFloat_ltb_ge in Hle. rewrite Hle. simpl.
  repeat split; try assumption.
  destruct (patience self <=? counter self + 1)%Z; [|rewrite orb_false_r; reflexivity].
  rewrite orb_true_r. reflexivity.
Qed.

Lemma EarlyStopping_feed_not_improved model rest :
  forall self best,
    mode self = "min"%string ->
    best_score self = Some best ->
    Forall (fun x => best - min_delta self <= x) rest ->
    should_stop (EarlyStopping_feed model self rest) =
      (should_stop self ||
       ((0 <? Z.of_nat (length rest))%Z &&
        (patience self <=? counter self + Z.of_nat (length rest))%Z)).
Proof.
  induction rest as [|x rest IH]; intros self best Hmode Hbest Hall.
  - simpl. rewrite orb_false_r. reflexivity.
  - inversion Hall as [|? ? Hx Hrest]; subst.
    destruct (EarlyStopping_call_not_improved self x best model Hmode Hbest Hx)
      as (Hb & Hc & Hs & Hm & Hd & Hp).
    unfold EarlyStopping_feed. cbn [fold_left].
    fold (EarlyStopping_feed model (fst (EarlyStopping_call self x model)) rest).
    rewrite (IH _ best); [|congruence|exact Hb|rewrite Hd; exact Hrest].
    rewrite Hs, Hc, Hp.
    change (length (x :: rest)) with (S (length rest)).
    rewrite Nat2Z.inj_succ.
    destruct (should_stop self); [reflexivity|]. simpl.
    destruct (Z.leb_spec (patience self) (counter self + 1));
      destruct (Z.ltb_spec 0 (Z.of_nat (length rest)));
      destruct (Z.leb_spec (patience self)
                  (counter self + 1 + Z.of_nat (length rest)));
      destruct (Z.ltb_spec 0 (Z.succ (Z.of_nat (length rest))));
      destruct (Z.leb_spec (patience self)
                  (counter self + Z.succ (Z.of_nat (length rest))));
      simpl; try reflexivity; lia.
Qed.

(** After a first score, scores that are no improvement on it set the stop
    flag exactly when their number reaches the patience, not before: on a
    plateau the flag comes up at the patience-th repeated score. *)
Theorem EarlyStopping_stops_exactly_at_patience :
  forall (model : Module_) (patience : Z) (delta s : Q) (rest : list Q),
    (1 <= patience)%Z ->
    Forall (fun x => s - delta <= x) rest ->
    should_stop
      (EarlyStopping_feed model (EarlyStopping_init patience delta "min")
                          (s :: rest))
    = (patience <=? Z.of_nat (length rest))%Z.
Proof.
  intros model p delta s rest Hp Hall.
  unfold EarlyStopping_feed. cbn [fold_left].
  match goal with
  | |- should_stop (fold_left _ rest ?e) = _ =>
      change (should_stop (EarlyStopping_feed model e rest) = (p <=? Z.of_nat (length rest))%Z);
      rewrite (EarlyStopping_feed_not_improved model rest e s eq_refl eq_refl Hall)
  end.
  simpl.
  destruct (Z.ltb_spec 0 (Z.of_nat (length rest)));
    destruct (Z.leb_spec p (Z.of_nat (length rest))); simpl; try reflexivity; lia.
Qed.

Lemma EarlyStopping_stops_exactly_at_patience_witness :
  (1 <= 3)%Z /\
  Forall (fun x => 5 - default_min_delta <= x) [5; 5; 5] /\
  should_stop
    (EarlyStopping_feed no_parameters
       (EarlyStopping_init 3 default_min_delta "min") (5 :: [5; 5; 5]))
  = (3 <=? Z.of_nat (length [5; 5; 5]))%Z.
Proof.
  assert (H1 : (1 <= 3)%Z) by lia.
  assert (H2 : Forall (fun x => 5 - default_min_delta <= x) [5; 5; 5])
    by (repeat constructor; discriminate).
  split; [exact H1|]. split; [exact H2|].
  exact (EarlyStopping_stops_exactly_at_patience no_parameters 3
           default_min_delta 5 [5; 5; 5] H1 H2).
Defined.




(** ** ProductionTrainer: how long the loop runs, what it records, what it
       touches *)

Section LoopFacts.

Context {T : Torch}.



Lemma executed_epochs_bound tl vl cls range :
  forall st, (length (executed_epochs tl vl cls range st) <= length range)%nat.
Proof.
  induction range as [|e r IH]; intros st; simpl; [lia|].
  destruct (epoch_body tl vl cls e st) as [[st1 losses] [|]]; simpl.
  - lia.
  - specialize (IH st1). lia.
Qed.


Lemma write_all_frame (sd : state_dict) (vals : list tensor) :
  forall (h : loc -> tensor) (l : loc),
    ~ In l (map snd sd) -> write_all h sd vals l = h l.
Proof.
  unfold write_all. revert vals.
  induction sd as [|kv sd IH]; intros vals h l Hl; [reflexivity|].
  destruct vals as [|v vals]; [reflexivity|]. simpl.
  rewrite IH by (intros H; apply Hl; right; exact H).
  apply fn_lookup_insert_ne. intros Heq. apply Hl. left. exact Heq.
Qed.

Lemma load_state_dict_frame (m : Module_) (sd : state_dict) :
  forall (h : loc -> tensor) (l : loc),
    ~ In l (map snd (parameters m)) -> load_state_dict h m sd l = h l.
Proof.
  unfold load_state_dict. generalize (parameters m) as ps.
  induction ps as [|kv ps IH]; intros h l Hl; [reflexivity|]. simpl.
  rewrite IH by (intros H; apply Hl; right; exact H).
  destruct (List.find _ sd); [|reflexivity].
  apply fn_lookup_insert_ne. intros Heq. apply Hl. left. exact Heq.
Qed.

Lemma epoch_body_frame tl vl cls epoch st l :
  ~ In l (map snd (parameters (model (snd st)))) ->
  fst (fst (fst (epoch_body tl vl cls epoch st))) l = fst st l.
Proof.
  unfold epoch_body, _train_epoch, _update_training_state.
  destruct st as [h self]. intros Hl.
  destruct (train_pass _ _ _ _) as [[vals o] loss]. simpl.
  destruct (EarlyStopping_call _ _ _) as [es [|]]; simpl;
    apply write_all_frame; exact Hl.
Qed.

Lemma epoch_loop_frame tl vl cls range l :
  forall st,
    ~ In l (map snd (parameters (model (snd st)))) ->
    fst (epoch_loop tl vl cls range st) l = fst st l.
Proof.
  induction range as [|e r IH]; intros st Hl; simpl; [reflexivity|].
  pose proof (epoch_body_frame tl vl cls e st l Hl) as Hf.
  pose proof (epoch_body_model tl vl cls e st) as Hm.
  destruct (epoch_body tl vl cls e st) as [[st1 losses] [|]]; simpl in *.
  - exact Hf.
  - rewrite IH by (rewrite Hm; exact Hl). exact Hf.
Qed.

Lemma epoch_body_learning_rate tl vl cls epoch st :
  exists lr,
    learning_rate (history (snd (fst (fst (epoch_body tl vl cls epoch st))))) =
    learning_rate (history (snd st)) ++ [lr].
Proof.
  unfold epoch_body, _train_epoch, _update_training_state.
  destruct st as [h self].
  destruct (train_pass _ _ _ _) as [[vals o] loss]. simpl.
  destruct (EarlyStopping_call _ _ _) as [es [|]]; simpl; eauto.
Qed.

Lemma epoch_loop_learning_rate tl vl cls range :
  forall st,
    exists lrs,
      learning_rate (history (snd (epoch_loop tl vl cls range st))) =
      learning_rate (history (snd st)) ++ lrs /\
      length lrs = length (executed_epochs tl vl cls range st).
Proof.
  induction range as [|e r IH]; intros st; simpl.
  - exists []. rewrite app_nil_r. auto.
  - destruct (epoch_body_learning_rate tl vl cls e st) as [lr Hlr].
    destruct (epoch_body tl vl cls e st) as [[st1 losses] [|]]; simpl in *.
    + exists [lr]. auto.
    + destruct (IH st1) as (lrs & H1 & H2).
      exists (lr :: lrs). rewrite H1, Hlr, <- app_assoc. simpl. auto.
Qed.

End LoopFacts.


(** The history is append-only: a call of [train] keeps the entries that
    were there and appends, to each of its three lists, one entry per
    executed epoch. *)
Theorem train_appends_to_history :
  forall (T : Torch) (tl vl : DataLoader) (cls : bool)
         (st : (loc -> tensor) * ProductionTrainer),
    let log := executed_epochs tl vl cls (py_range (epochs (snd st))) st in
    let before := history (snd st) in
    let after := history (snd (train tl vl cls st)) in
    train_loss after = train_loss before ++ map fst log /\
    val_loss after = val_loss before ++ map snd log /\
    exists lrs,
      learning_rate after = learning_rate before ++ lrs /\
      length lrs = length log.
Proof.
  intros T tl vl cls st log before after. subst after before log.
  unfold train. rewrite _finalize_training_trainer.
  destruct (epoch_loop_history tl vl cls (py_range (epochs (snd st))) st)
    as [Ht Hv].
  split; [exact Ht|]. split; [exact Hv|].
  apply epoch_loop_learning_rate.
Qed.

(** Training writes to the tensors of the trainer's model only: every other
    location of the store holds after [train] what it held before. *)
Theorem train_touches_only_model_tensors :
  forall (T : Torch) (tl vl : DataLoader) (cls : bool)
         (st : (loc -> tensor) * ProductionTrainer) (l : loc),
    ~ In l (map snd (parameters (model (snd st)))) ->
    fst (train tl vl cls st) l = fst st l.
Proof.
  intros T tl vl cls st l Hl. unfold train.
  pose proof (epoch_loop_frame tl vl cls (py_range (epochs (snd st))) l st Hl)
    as Hf.
  pose proof (epoch_loop_model tl vl cls (py_range (epochs (snd st))) st) as Hm.
  destruct (epoch_loop tl vl cls (py_range (epochs (snd st))) st) as [h self].
  simpl in *. unfold _finalize_training.
  destruct (best_state (early_stopping self)) as [sd|]; [|exact Hf].
  destruct (dict_truthy sd); [|exact Hf]. simpl.
  rewrite load_state_dict_frame by (rewrite Hm; exact Hl). exact Hf.
Qed.

Lemma train_touches_only_model_tensors_witness :
  ~ In 1%nat (map snd (parameters (model (snd (synthetic_start 3 15))))) /\
  fst (@train synthetic_torch synthetic_loader synthetic_loader false
              (synthetic_start 3 15)) 1%nat
  = fst (synthetic_start 3 15) 1%nat.
Proof.
  assert (H : ~ In 1%nat (map snd (parameters (model (snd (synthetic_start 3 15))))))
    by (simpl; intros [H|[]]; discriminate H).
  split; [exact H|].
  exact (train_touches_only_model_tensors synthetic_torch synthetic_loader
           synthetic_loader false (synthetic_start 3 15) 1%nat H).
Defined.

(** ** ProductionTrainer: the split is a partition *)

Section PartitionFacts.

Context {T : Torch}.

Lemma take_rows_Some {A} (a : list A) (indices : list nat) :
  Forall (fun i => (i < length a)%nat) indices ->
  exists rows, take_rows a indices = Some rows.
Proof.
  intros H. unfold take_rows.
  destruct (mapM (fun i => a !! i) indices) as [rows|] eqn:E; [eauto|].
  apply mapM_None in E. apply Exists_exists in E. destruct E as (i & Hi & Hn).
  rewrite Forall_forall in H. specialize (H i Hi).
  apply lookup_ge_None in Hn. lia.
Qed.

Lemma take_rows_seq {A} (a : list A) :
  take_rows a (seq 0 (length a)) = Some a.
Proof.
  unfold take_rows. apply mapM_Some.
  apply Forall2_same_length_lookup. split; [apply length_seq|].
  intros i j x Hj Hx. apply lookup_seq in Hj. destruct Hj as [-> _].
  exact Hx.
Qed.

Lemma take_rows_Permutation {A} (a : list A) idx1 idx2 rows1 rows2 :
  Permutation idx1 idx2 ->
  take_rows a idx1 = Some rows1 ->
  take_rows a idx2 = Some rows2 ->
  Permutation rows1 rows2.
Proof.
  unfold take_rows. intros Hp H1 H2.
  assert (E : forall idx rows,
             mapM (fun i => a !! i) idx = Some rows ->
             map Some rows = map (fun i => a !! i) idx).
  { clear. intros idx rows H. apply mapM_Some in H.
    induction H as [|i x idx rows Hx _ IH]; simpl; [reflexivity|].
    rewrite Hx, IH. reflexivity. }
  apply E in H1. apply E in H2.
  assert (Hm : Permutation (map Some rows1) (map Some rows2)).
  { rewrite H1, H2. apply Permutation_map. exact Hp. }
  apply Permutation_map_inv in Hm. destruct Hm as (l3 & Heq & Hperm).
  assert (rows1 = l3) as ->; [|symmetry; exact Hperm].
  clear -Heq. revert l3 Heq.
  induction rows1 as [|x r IH]; intros [|y l3] Heq; simpl in Heq;
    try discriminate; [reflexivity|].
  injection Heq as -> Heq. f_equal. exact (IH _ Heq).
Qed.

Lemma take_rows_zip {A B} (a : list A) (b : list B) indices rows_a rows_b :
  take_rows a indices = Some rows_a ->
  take_rows b indices = Some rows_b ->
  take_rows (zip a b) indices = Some (zip rows_a rows_b).
Proof.
  unfold take_rows. intros Ha Hb.
  apply mapM_Some in Ha. apply mapM_Some in Hb. apply mapM_Some.
  revert rows_b Hb. induction Ha as [|i x idx rows Hx _ IH]; intros rows_b Hb.
  - inversion Hb. constructor.
  - inversion Hb as [|? y ? rows' Hy Hrest]; subst. simpl.
    constructor; [|exact (IH _ Hrest)].
    rewrite lookup_zip_with, Hx. simpl. rewrite Hy. reflexivity.
Qed.

Lemma zip_take_drop {A B} (c : nat) :
  forall (a : list A) (b : list B),
    zip (take c a) (take c b) ++ zip (drop c a) (drop c b) = zip a b.
Proof.
  induction c as [|c IH]; intros a b; [reflexivity|].
  destruct a as [|x a], b as [|y b]; try reflexivity.
  - simpl. destruct (drop c a); reflexivity.
  - simpl. rewrite IH. reflexivity.
Qed.

Lemma Permutation_seq_bound (indices : list nat) (n : nat) :
  Permutation indices (seq 0 n) -> Forall (fun i => (i < n)%nat) indices.
Proof.
  intros Hp. apply Forall_forall. intros i Hi.
  apply list_elem_of_In in Hi.
  apply (Permutation_in _ Hp), in_seq in Hi. lia.
Qed.

End PartitionFacts.

(** When the generator returns a permutation of the row indices and there
    is a label for every row, the loaders that [prepare_data] returns hold
    every (row, label) pair of the table in exactly one of the two
    datasets: the training pairs followed by the validation pairs are a
    permutation of the table, whatever the validation fraction; and the
    training set is never empty. *)
Theorem prepare_data_partitions_the_table :
  forall (T : Torch) (self : ProductionTrainer) (features : list row)
         (labels : list label) (val_split : spec_float)
         (loaders : DataLoader * DataLoader),
    Permutation (fst (rng_permutation (rng self) (length features)))
                (seq 0 (length features)) ->
    length labels = length features ->
    snd (prepare_data self features labels val_split) = Some loaders ->
    Permutation (batches_source (fst loaders) ++ batches_source (snd loaders))
                (zip features labels) /\
    batches_source (fst loaders) <> [].
Proof.
  intros T self features labels f loaders Hperm Hlen. unfold prepare_data.
  destruct (rng_permutation (rng self) (length features)) as [indices r].
  cbn [fst snd] in Hperm |- *.
  pose proof (Permutation_seq_bound _ _ Hperm) as Hb.
  destruct (take_rows_Some features indices Hb) as [features' Hf].
  destruct (take_rows_Some labels indices) as [labels' Hl];
    [rewrite Hlen; exact Hb|].
  rewrite Hf, Hl. cbn [mbind option_bind].
  destruct (split_idx_of (length features') f) as [cut|]; [|discriminate].
  cbn [mbind option_bind].
  pose proof (take_rows_length _ _ _ Hf) as Lf.
  pose proof (take_rows_length _ _ _ Hl) as Ll.
  assert (Hz : length (zip features labels) = length features).
  { rewrite length_zip_with. lia. }
  destruct (PySlice.upto features' cut) as [|x xs] eqn:Hx; [discriminate|].
  destruct (batch_size self <=? 0)%Z; [discriminate|].
  intros [= <-]. unfold batches_source.
  cbn [fst snd dataset tensors_x tensors_y]. rewrite <- Hx. split.
  - unfold PySlice.upto, PySlice.from.
    rewrite (PySlice_clamp_length labels' features') by congruence.
    rewrite zip_take_drop.
    eapply take_rows_Permutation;
      [exact Hperm | apply take_rows_zip; eassumption|].
    rewrite <- Hz. apply take_rows_seq.
  - intros Hnil. apply (f_equal length) in Hnil.
    rewrite length_zip_with in Hnil. unfold PySlice.upto in Hnil, Hx.
    rewrite (PySlice_clamp_length labels' features') in Hnil by congruence.
    rewrite !length_take in Hnil.
    apply (f_equal length) in Hx. rewrite length_take in Hx.
    cbn [length] in Hnil, Hx. lia.
Qed.

Lemma prepare_data_partitions_the_table_witness :
  let features : list Q := [10; 20; 30; 40; 50] in
  let labels : list Q := [1; 2; 3; 4; 5] in
  exists loaders,
    snd (@prepare_data table_torch table_trainer features labels
                       (IEEE.decimal IEEE.binary64 2 10)) = Some loaders /\
    Permutation (batches_source (fst loaders) ++ batches_source (snd loaders))
                (zip features labels) /\
    batches_source (fst loaders) <> [].
Proof.
  intros features labels.
  destruct (snd (@prepare_data table_torch table_trainer features labels
                               (IEEE.decimal IEEE.binary64 2 10)))
    as [loaders|] eqn:H; [|vm_compute in H; discriminate].
  exists loaders. split; [reflexivity|].
  apply (prepare_data_partitions_the_table table_torch table_trainer
           features labels (IEEE.decimal IEEE.binary64 2 10) loaders).
  - symmetry. apply Permutation_rev.
  - reflexivity.
  - exact H.
Defined.

(** The sizes of the two sets follow the cut that binary64 gives.  Under
    the same conditions, when [int(n * (1 - val_split))] is a number [cut]
    from 1 to [n] and the trainer's batch size is positive, the training
    set has [cut] rows and the validation set the remaining [n - cut]; when
    the cut is 0 (as it is for ten rows and a validation fraction of 0.9)
    no loaders are built. *)
Theorem prepare_data_split_sizes :
  forall (T : Torch) (self : ProductionTrainer) (features : list row)
         (labels : list label) (val_split : spec_float) (cut : Z),
    let n := length features in
    Permutation (fst (rng_permutation (rng self) n)) (seq 0 n) ->
    length labels = n ->
    split_idx_of n val_split = Some cut ->
    ((1 <= cut <= Z.of_nat n)%Z -> (0 < batch_size self)%Z ->
     exists loaders,
       snd (prepare_data self features labels val_split) = Some loaders /\
       length (tensors_x (dataset (fst loaders))) = Z.to_nat cut /\
       length (tensors_y (dataset (fst loaders))) = Z.to_nat cut /\
       length (tensors_x (dataset (snd loaders))) = (n - Z.to_nat cut)%nat /\
       length (tensors_y (dataset (snd loaders))) = (n - Z.to_nat cut)%nat) /\
    (cut = 0%Z -> snd (prepare_data self features labels val_split) = None).
Proof.
  intros T self features labels f cut n Hperm Hlen Hcut. subst n.
  unfold prepare_data.
  destruct (rng_permutation (rng self) (length features)) as [indices r].
  cbn [fst snd] in Hperm |- *.
  pose proof (Permutation_seq_bound _ _ Hperm) as Hb.
  destruct (take_rows_Some features indices Hb) as [features' Hf].
  destruct (take_rows_Some labels indices) as [labels' Hl];
    [rewrite Hlen; exact Hb|].
  rewrite Hf, Hl. cbn [mbind option_bind].
  pose proof (take_rows_length _ _ _ Hf) as Lf.
  pose proof (take_rows_length _ _ _ Hl) as Ll.
  assert (Li : length indices = length features)
    by (rewrite (Permutation_length Hperm); apply length_seq).
  rewrite Lf, Li, Hcut. cbn [mbind option_bind].
  unfold PySlice.upto, PySlice.from, PySlice.clamp.
  split.
  - intros Hrange Hbatch. destruct (Z.ltb_spec cut 0); [lia|].
    destruct (take (Z.to_nat cut) features') as [|x xs] eqn:Hx.
    { apply (f_equal length) in Hx. rewrite length_take in Hx.
      cbn [length] in Hx. lia. }
    destruct (Z.leb_spec (batch_size self) 0); [lia|].
    eexists. split; [reflexivity|].
    cbn [fst snd dataset tensors_x tensors_y]. rewrite <- Hx.
    rewrite !length_take, !length_drop. lia.
  - intros ->. reflexivity.
Qed.

Lemma prepare_data_split_sizes_witness :
  let features : list Q := [10; 20; 30; 40; 50] in
  let labels : list Q := [1; 2; 3; 4; 5] in
  exists loaders,
    snd (@prepare_data table_torch table_trainer features labels
                       (IEEE.decimal IEEE.binary64 2 10)) = Some loaders /\
    length (tensors_x (dataset (fst loaders))) = 4%nat /\
    length (tensors_y (dataset (fst loaders))) = 4%nat /\
    length (tensors_x (dataset (snd loaders))) = 1%nat /\
    length (tensors_y (dataset (snd loaders))) = 1%nat.
Proof.
  intros features labels.
  apply (proj1 (prepare_data_split_sizes table_torch table_trainer features
                  labels (IEEE.decimal IEEE.binary64 2 10) 4
                  (Permutation_sym (Permutation_rev _)) eq_refl eq_refl)).
  - subst features. cbn [length]. lia.
  - reflexivity.
Defined.

(** With fewer labels than rows the split fails: picking the labels by the
    permuted indices runs past the end of the label array (numpy's
    IndexError), and no loaders are built. *)
Theorem prepare_data_fails_on_missing_labels :
  forall (T : Torch) (self : ProductionTrainer) (features : list row)
         (labels : list label) (val_split : spec_float),
    Permutation (fst (rng_permutation (rng self) (length features)))
                (seq 0 (length features)) ->
    (length labels < length features)%nat ->
    snd (prepare_data self features labels val_split) = None.
Proof.
  intros T self features labels f Hperm Hlen. unfold prepare_data.
  destruct (rng_permutation (rng self) (length features)) as [indices r].
  simpl in Hperm. simpl.
  assert (Hl : take_rows labels indices = None).
  { unfold take_rows. apply mapM_None. apply Exists_exists.
    exists (length labels). split.
    - apply list_elem_of_In. apply (Permutation_in _ (Permutation_sym Hperm)).
      apply in_seq. lia.
    - apply lookup_ge_None. lia. }
  rewrite Hl. destruct (take_rows features indices); reflexivity.
Qed.

Lemma prepare_data_fails_on_missing_labels_witness :
  let features : list Q := [10; 20; 30] in
  let labels : list Q := [1; 2] in
  snd (@prepare_data table_torch table_trainer features labels
                     (IEEE.decimal IEEE.binary64 2 10)) = None.
Proof.
  intros features labels.
  apply (prepare_data_fails_on_missing_labels table_torch table_trainer
           features labels (IEEE.decimal IEEE.binary64 2 10)).
  - symmetry. apply Permutation_rev.
  - simpl. lia.
Defined.

(** ** The export: the side-car path and the two files *)

Section ReplaceFacts.

Variables old new : string.

Lemma append_cons (c : Ascii.ascii) (s t : string) :
  (String c s ++ t)%string = String c (s ++ t).
Proof. reflexivity. Qed.

Lemma prefix_head (a c : Ascii.ascii) (o s : string) :
  String.prefix (String a o) (String c s) = true -> a = c.
Proof. simpl. destruct (Ascii.ascii_dec a c); [auto|discriminate]. Qed.

Lemma prefix_refl (s : string) : String.prefix s s = true.
Proof.
  induction s as [|a s IH]; simpl; [reflexivity|].
  destruct (Ascii.ascii_dec a a); [exact IH|congruence].
Qed.

Lemma replace_from_skip_all (s : string) :
  forall k, (String.length s <= k)%nat -> replace_from old new k s = EmptyString.
Proof.
  induction s as [|c s IH]; intros k Hk; [reflexivity|].
  simpl in Hk. destruct k as [|k]; [lia|]. simpl. apply IH. lia.
Qed.

Lemma index_cons (c : Ascii.ascii) (s : string) :
  String.index 0 old (String c s) =
  if String.prefix old (String c s) then Some O
  else match String.index 0 old s with Some n => Some (S n) | None => None end.
Proof. reflexivity. Qed.

Lemma replace_from_cons (c : Ascii.ascii) (s : string) :
  replace_from old new 0 (String c s) =
  if String.prefix old (String c s)
  then (new ++ replace_from old new (String.length old - 1) s)%string
  else String c (replace_from old new 0 s).
Proof. reflexivity. Qed.

(** Without an occurrence of [old] the string is returned as it is. *)
Lemma py_replace_absent (s : string) :
  String.index 0 old s = None -> py_replace old new s = s.
Proof.
  unfold py_replace. induction s as [|c s IH]; intros H; [reflexivity|].
  rewrite index_cons in H. rewrite replace_from_cons.
  destruct (String.prefix old (String c s)); [discriminate|].
  destruct (String.index 0 old s); [discriminate|].
  rewrite IH; reflexivity.
Qed.

(** With an occurrence, and when [new] starts with another character than
    [old], the result differs from the string. *)
Lemma py_replace_changes (a b : Ascii.ascii) (o n : string) (s : string) :
  old = String a o -> new = String b n -> a <> b ->
  String.index 0 old s <> None -> py_replace old new s <> s.
Proof.
  intros Ho Hn Hab. unfold py_replace.
  induction s as [|c s IH]; intros H.
  - exfalso. apply H. rewrite Ho. reflexivity.
  - rewrite index_cons in H. rewrite replace_from_cons.
    destruct (String.prefix old (String c s)) eqn:E.
    + rewrite Ho in E. apply prefix_head in E. subst c.
      rewrite Hn, append_cons. intros [= Heq _]. apply Hab. symmetry. exact Heq.
    + intros [= Heq]. apply IH; [|exact Heq].
      destruct (String.index 0 old s); [discriminate|exact H].
Qed.

Lemma append_empty_r (s : string) : (s ++ "")%string = s.
Proof.
  induction s as [|x s IH]; [reflexivity|].
  rewrite append_cons. f_equal. exact IH.
Qed.

Lemma replace_whole (s : string) :
  s <> EmptyString -> String.prefix old s = true ->
  String.length s = String.length old ->
  replace_from old new 0 s = new.
Proof.
  intros Hne Hp Hl. destruct s as [|a o]; [congruence|].
  rewrite replace_from_cons, Hp.
  rewrite replace_from_skip_all by (simpl in Hl; lia).
  apply append_empty_r.
Qed.

(** When the first occurrence of [old] is the end of the string, the result
    is the rest of the string followed by [new]. *)
Lemma py_replace_suffix (stem : string) :
  old <> EmptyString ->
  String.index 0 old (stem ++ old) = Some (String.length stem) ->
  py_replace old new (stem ++ old) = (stem ++ new)%string.
Proof.
  intros Hne. unfold py_replace. induction stem as [|c stem IH]; intros H.
  - apply replace_whole; [exact Hne | apply prefix_refl | reflexivity].
  - rewrite append_cons in *.
    rewrite index_cons in H. rewrite replace_from_cons.
    destruct (String.prefix old (String c (stem ++ old))); [discriminate|].
    destruct (String.index 0 old (stem ++ old)) as [k|] eqn:E; [|discriminate].
    injection H as H. simpl in H. subst k.
    rewrite IH by reflexivity. rewrite append_cons. reflexivity.
Qed.

End ReplaceFacts.

(** For an output path that ends in ".onnx" and has no earlier ".onnx", the
    metadata path is the path with that extension replaced by
    "_metadata.json". *)
Theorem metadata_path_replaces_the_extension :
  forall stem : string,
    String.index 0 ".onnx" (stem ++ ".onnx") = Some (String.length stem) ->
    metadata_path_of (stem ++ ".onnx") = (stem ++ "_metadata.json")%string.
Proof.
  intros stem H. unfold metadata_path_of.
  apply py_replace_suffix; [discriminate | exact H].
Qed.

Lemma metadata_path_replaces_the_extension_witness :
  metadata_path_of ("models/onnx/waste_predictor" ++ ".onnx")
  = ("models/onnx/waste_predictor" ++ "_metadata.json")%string.
Proof.
  exact (metadata_path_replaces_the_extension "models/onnx/waste_predictor"
           eq_refl).
Defined.

(** When the output path contains ".onnx", the export leaves two different
    files: the artifact, serialized from the model's current parameters, at
    the output path, and at the metadata path the metadata with the given
    model name, normalization parameters and input size and with the
    summary of the trainer's history.  No other file is touched. *)
Theorem export_writes_artifact_and_metadata :
  forall (T : Torch) (E : Exporter) (fs : gmap string file)
         (st : (loc -> tensor) * ProductionTrainer)
         (output_path : string) (input_size : Z) (model_name : string)
         (norm_params : NormParams),
    py_in ".onnx" output_path = true ->
    let fs' := export_onnx fs st output_path input_size model_name norm_params in
    metadata_path_of output_path <> output_path /\
    fs' !! output_path
    = Some (OnnxFile (torch_onnx_export (returned_parameters st) input_size)) /\
    fs' !! metadata_path_of output_path
    = Some (JsonFile
              {| Metadata.modelType := model_name;
                 Metadata.version := "2.0.0";
                 Metadata.normParams := norm_params;
                 Metadata.inputSize := input_size;
                 Metadata.trainHistory := _save_metadata_trainHistory (snd st);
                 Metadata.exportedAt := datetime_now_isoformat;
                 Metadata.device := device_str |}) /\
    forall q, q <> output_path -> q <> metadata_path_of output_path ->
              fs' !! q = fs !! q.
Proof.
  intros T E fs st output_path input_size model_name norm_params Hin fs'.
  assert (Hne : metadata_path_of output_path <> output_path).
  { unfold metadata_path_of.
    eapply py_replace_changes; [reflexivity | reflexivity | discriminate |].
    unfold py_in in Hin. destruct (String.index 0 ".onnx" output_path);
      [discriminate|discriminate]. }
  subst fs'. unfold export_onnx, _save_metadata.
  split; [exact Hne|]. split; [|split].
  - rewrite lookup_insert_ne by exact Hne. apply lookup_insert_eq.
  - apply lookup_insert_eq.
  - intros q Hq1 Hq2. rewrite !lookup_insert_ne by congruence. reflexivity.
Qed.

Section ExportExample.

#[local] Existing Instance synthetic_torch.
#[local] Existing Instance synthetic_exporter.

Lemma export_writes_artifact_and_metadata_witness :
  let st := synthetic_start 3 15 in
  let fs' :=
    export_onnx ∅ st "waste_predictor.onnx" 19 "waste_predictor"
                one_column_params in
  metadata_path_of "waste_predictor.onnx" <> "waste_predictor.onnx"%string /\
  fs' !! "waste_predictor.onnx"%string
  = Some (OnnxFile (torch_onnx_export (returned_parameters st) 19)) /\
  fs' !! metadata_path_of "waste_predictor.onnx"
  = Some (JsonFile
            {| Metadata.modelType := "waste_predictor";
               Metadata.version := "2.0.0";
               Metadata.normParams := one_column_params;
               Metadata.inputSize := 19;
               Metadata.trainHistory := _save_metadata_trainHistory (snd st);
               Metadata.exportedAt := datetime_now_isoformat;
               Metadata.device := device_str |}) /\
  forall q, q <> "waste_predictor.onnx"%string ->
            q <> metadata_path_of "waste_predictor.onnx" ->
            fs' !! q = (∅ : gmap string file) !! q.
Proof.
  exact (export_writes_artifact_and_metadata synthetic_torch synthetic_exporter
           ∅ (synthetic_start 3 15) "waste_predictor.onnx" 19
           "waste_predictor" one_column_params eq_refl).
Defined.

End ExportExample.

(** When the output path does not contain ".onnx", the metadata path is the
    output path itself, and the export ends with the metadata JSON in the
    file where it had just written the artifact: no artifact is left. *)
Theorem export_overwrites_artifact_without_onnx_suffix :
  forall (T : Torch) (E : Exporter) (fs : gmap string file)
         (st : (loc -> tensor) * ProductionTrainer)
         (output_path : string) (input_size : Z) (model_name : string)
         (norm_params : NormParams),
    py_in ".onnx" output_path = false ->
    metadata_path_of output_path = output_path /\
    exists m,
      export_onnx fs st output_path input_size model_name norm_params
        !! output_path = Some (JsonFile m).
Proof.
  intros T E fs st output_path input_size model_name norm_params Hin.
  assert (Heq : metadata_path_of output_path = output_path).
  { unfold metadata_path_of. apply py_replace_absent.
    unfold py_in in Hin. destruct (String.index 0 ".onnx" output_path);
      [discriminate|reflexivity]. }
  split; [exact Heq|]. unfold export_onnx, _save_metadata. rewrite Heq.
  eexists. apply lookup_insert_eq.
Qed.

Section ExportOverwriteExample.

#[local] Existing Instance synthetic_torch.
#[local] Existing Instance synthetic_exporter.

Lemma export_overwrites_artifact_without_onnx_suffix_witness :
  metadata_path_of "waste_predictor.bin" = "waste_predictor.bin"%string /\
  exists m,
    export_onnx ∅ (synthetic_start 3 15) "waste_predictor.bin" 19
                "waste_predictor" one_column_params
      !! "waste_predictor.bin"%string = Some (JsonFile m).
Proof.
  exact (export_overwrites_artifact_without_onnx_suffix synthetic_torch
           synthetic_exporter ∅ (synthetic_start 3 15) "waste_predictor.bin" 19
           "waste_predictor" one_column_params eq_refl).
Defined.

End ExportOverwriteExample.

(** ** Normalization: the shape of the result *)

Section NormalizedTable.

Variable np_sqrt : Q -> Q.

Lemma checked_div_Some (x s y : Q) : checked_div x s = Some y -> y = x / s.
Proof.
  unfold checked_div. destruct (Qeq_bool s 0); [discriminate|congruence].
Qed.

Lemma normalize_row_length means stds row row' :
  normalize_row means stds row = Some row' ->
  length row' = Nat.min (Nat.min (length row) (length means)) (length stds).
Proof.
  unfold normalize_row. intros H. apply length_mapM in H.
  rewrite <- H, !length_zip_with. reflexivity.
Qed.

Lemma normalize_features_params_length features :
  length (means (snd (normalize_features np_sqrt features))) = n_columns features /\
  length (stds (snd (normalize_features np_sqrt features))) = n_columns features.
Proof.
  unfold normalize_features. simpl. rewrite !length_map, !length_seq. auto.
Qed.

(** The normalized table, row by row. *)
Lemma normalize_features_rows features :
  exists t,
    fst (normalize_features np_sqrt features) = Some t /\
    Forall2 (fun r r' =>
               normalize_row (means (snd (normalize_features np_sqrt features)))
                             (stds (snd (normalize_features np_sqrt features)))
                             r = Some r')
            features t.
Proof.
  unfold normalize_features. simpl.
  match goal with
  | |- context [mapM ?f features] => destruct (mapM f features) as [t|] eqn:E
  end.
  - exists t. split; [reflexivity|]. apply mapM_Some. exact E.
  - exfalso. apply mapM_None in E. apply Exists_exists in E.
    destruct E as (r & _ & Hr).
    destruct (normalize_row_defined
                (map (fun j => np_mean (column j features))
                     (seq 0 (n_columns features)))
                (map (fun j => np_std np_sqrt (column j features))
                     (seq 0 (n_columns features))) r) as [r' Hr'].
    congruence.
Qed.

Lemma normalized_rows_shape ms ss rows t (w : nat) :
  Forall2 (fun r r' => normalize_row ms ss r = Some r') rows t ->
  Forall (fun r => length r = w) rows ->
  length ms = w -> length ss = w ->
  Forall (fun r => length r = w) t.
Proof.
  intros Hrows Hw Hm Hs.
  induction Hrows as [|r r' rows rows' Hr _ IH]; [constructor|].
  inversion Hw as [|? ? Hlen Hw']; subst.
  constructor; [|exact (IH Hw')].
  rewrite (normalize_row_length _ _ _ _ Hr). lia.
Qed.

End NormalizedTable.

(** On a rectangular table the normalization is defined and
    keeps the shape: one mean and one standard deviation per column, as
    many rows as the table, each as wide as the table. *)
Theorem normalize_features_keeps_the_shape :
  forall (np_sqrt : Q -> Q) (features : list (list Q)),
    Forall (fun r => length r = n_columns features) features ->
    let params := snd (normalize_features np_sqrt features) in
    length (means params) = n_columns features /\
    length (stds params) = n_columns features /\
    exists t,
      fst (normalize_features np_sqrt features) = Some t /\
      length t = length features /\
      Forall (fun r => length r = n_columns features) t.
Proof.
  intros np_sqrt features Hrect params.
  destruct (normalize_features_params_length np_sqrt features) as [Lm Ls].
  fold params in Lm, Ls. split; [exact Lm|]. split; [exact Ls|].
  destruct (normalize_features_rows np_sqrt features) as (t & Ht & Hrows).
  fold params in Hrows. exists t. split; [exact Ht|].
  split; [symmetry; exact (Forall2_length _ _ _ Hrows)|].
  exact (normalized_rows_shape _ _ _ _ _ Hrows Hrect Lm Ls).
Qed.

Lemma normalize_features_keeps_the_shape_witness :
  let features : list (list Q) := [[5; 1]; [5; 3]]%Q in
  let params := snd (normalize_features floor_sqrt features) in
  length (means params) = n_columns features /\
  length (stds params) = n_columns features /\
  exists t,
    fst (normalize_features floor_sqrt features) = Some t /\
    length t = length features /\
    Forall (fun r => length r = n_columns features) t.
Proof.
  intros features.
  apply (normalize_features_keeps_the_shape floor_sqrt features).
  repeat constructor.
Defined.

(** ** Normalization of float arrays: the clamp *)

Lemma Numpy_clamp_std_cases (s : spec_float) :
  (Numpy.clamp_std s = s /\
   IEEE.gtb s (IEEE.decimal IEEE.binary64 1 1000000) = true) \/
  (Numpy.clamp_std s = IEEE.of_Z IEEE.binary64 1 /\
   IEEE.gtb s (IEEE.decimal IEEE.binary64 1 1000000) = false).
Proof.
  unfold Numpy.clamp_std.
  destruct (IEEE.gtb s (IEEE.decimal IEEE.binary64 1 1000000)); auto.
Qed.

Lemma Numpy_clamp_std_nonzero (s : spec_float) (sg : bool) :
  Numpy.clamp_std s <> S754_zero sg.
Proof.
  destruct (Numpy_clamp_std_cases s) as [[-> H]|[-> _]].
  - intros ->. destruct sg; vm_compute in H; discriminate.
  - vm_compute. discriminate.
Qed.

(** On a float array of any dtype the recorded standard deviations are
    clamped as line 30 says: each is above 1e-6 or is exactly 1.0, so none
    is a zero and line 32 never divides by zero; a column whose computed
    standard deviation is not above 1e-6 (zero, a tiny value, or NaN) is
    recorded with 1.0.  There is one mean and one standard deviation per
    column and one normalized row per row. *)
Theorem float_stds_are_clamped :
  forall (dtype : IEEE.format) (features : list (list spec_float)),
    let threshold := IEEE.decimal IEEE.binary64 1 1000000 in
    let one := IEEE.of_Z IEEE.binary64 1 in
    let (normalized, params) := Numpy.normalize_features dtype features in
    length (Numpy.means params) = Numpy.n_columns features /\
    length (Numpy.stds params) = Numpy.n_columns features /\
    length normalized = length features /\
    Forall (fun s => IEEE.gtb s threshold = true \/ s = one)
           (Numpy.stds params) /\
    Forall (fun s => forall sg, s <> S754_zero sg) (Numpy.stds params) /\
    (forall j,
       (j < Numpy.n_columns features)%nat ->
       IEEE.gtb (IEEE.widen (Numpy.std dtype (Numpy.column j features)))
                threshold = false ->
       Numpy.stds params !! j = Some one).
Proof.
  intros dtype features threshold one. subst threshold one.
  unfold Numpy.normalize_features. cbn [Numpy.means Numpy.stds].
  rewrite !length_map, length_seq.
  split; [reflexivity|]. split; [reflexivity|]. split; [reflexivity|].
  split; [|split].
  - apply Forall_forall. intros s Hs.
    apply list_elem_of_In, in_map_iff in Hs. destruct Hs as (s0 & <- & _).
    destruct (Numpy_clamp_std_cases s0) as [[-> H]|[-> _]]; auto.
  - apply Forall_forall. intros s Hs sg.
    apply list_elem_of_In, in_map_iff in Hs. destruct Hs as (s0 & <- & _).
    apply Numpy_clamp_std_nonzero.
  - intros j Hj Hlow.
    change (map Numpy.clamp_std
              (map (fun j => IEEE.widen (Numpy.std dtype (Numpy.column j features)))
                   (seq 0 (Numpy.n_columns features))))
      with (Numpy.clamp_std <$>
              ((fun j => IEEE.widen (Numpy.std dtype (Numpy.column j features)))
                 <$> seq 0 (Numpy.n_columns features))).
    rewrite !list_lookup_fmap, lookup_seq_lt by exact Hj. cbn [fmap option_fmap option_map].
    change (0 + j)%nat with j.
    f_equal. unfold Numpy.clamp_std. rewrite Hlow. reflexivity.
Qed.

Lemma float_stds_are_clamped_witness :
  let features :=
    [[IEEE.of_Z IEEE.binary32 1]; [IEEE.of_Z IEEE.binary32 1]] in
  let params := snd (Numpy.normalize_features IEEE.binary32 features) in
  Numpy.stds params !! 0%nat = Some (IEEE.of_Z IEEE.binary64 1).
Proof.
  intros features params.
  pose proof (float_stds_are_clamped IEEE.binary32 features) as H.
  cbv zeta in H. subst params.
  destruct (Numpy.normalize_features IEEE.binary32 features)
    as [normalized params].
  destruct H as (_ & _ & _ & _ & _ & H).
  apply (H 0%nat); [simpl; lia | vm_compute; reflexivity].
Defined.

(** ** The mock explanation: what its lists hold *)

Lemma sorted_keys_In (d : gmap string Q) (name : string) :
  In name (sorted_keys d) <-> is_Some (d !! name).
Proof.
  unfold sorted_keys. rewrite py_sorted_In, in_map_iff. split.
  - intros ([k v] & <- & H). apply list_elem_of_In, elem_of_map_to_list in H.
    simpl. eauto.
  - intros [v H]. exists (name, v). split; [reflexivity|].
    apply list_elem_of_In, elem_of_map_to_list. exact H.
Qed.

Lemma items_get_map (g : string -> Q) (names : list string) (n : string) :
  In n names -> items_get (map (fun k => (k, g k)) names) n = g n.
Proof.
  unfold items_get. induction names as [|k names IH]; intros H; [destruct H|].
  simpl. destruct (String.eqb k n) eqn:E.
  - apply String.eqb_eq in E. subst k. reflexivity.
  - apply IH. destruct H as [->|H]; [|exact H].
    rewrite String.eqb_refl in E. discriminate.
Qed.

(** The attributions of the mock result are aligned with its feature
    names: the names are the keys of the input record, and the i-th
    attribution is the contribution computed from the value of the i-th
    name. *)
Theorem mock_attributions_follow_feature_names :
  forall (model_type : string) (d : gmap string Q),
    let r := generate_mock_explanation model_type d in
    (forall name, In name (featureNames r) <-> is_Some (d !! name)) /\
    length (shapValues r) = length (featureNames r) /\
    forall (i : nat) (name : string),
      featureNames r !! i = Some name ->
      shapValues r !! i = Some (mock_contribution model_type (dict_get d name)).
Proof.
  intros mt d r. subst r. unfold generate_mock_explanation. simpl.
  split; [apply sorted_keys_In|]. split; [apply length_map|].
  intros i name Hi. rewrite list_lookup_fmap, Hi. simpl. f_equal.
  apply (items_get_map (fun k => mock_contribution mt (dict_get d k))).
  apply list_elem_of_In. eapply list_elem_of_lookup_2. exact Hi.
Qed.

Lemma mock_attributions_follow_feature_names_witness :
  let r := generate_mock_explanation "waste_predictor" example_input in
  featureNames r !! 0%nat = Some "a"%string /\
  shapValues r !! 0%nat
  = Some (mock_contribution "waste_predictor" (dict_get example_input "a")).
Proof.
  assert (H : featureNames (generate_mock_explanation "waste_predictor"
                              example_input) !! 0%nat = Some "a"%string)
    by (vm_compute; reflexivity).
  split; [exact H|].
  exact (proj2 (proj2 (mock_attributions_follow_feature_names
                         "waste_predictor" example_input)) 0%nat "a"%string H).
Defined.

(** The importance list of the mock result has one entry per feature: its
    features are a rearrangement of the feature names, which are pairwise
    different, and every entry carries the feature's input value and the
    absolute value of the contribution computed from it. *)
Theorem mock_importance_lists_every_feature_once :
  forall (model_type : string) (d : gmap string Q),
    let r := generate_mock_explanation model_type d in
    Permutation (map Importance.feature (featureImportance r)) (featureNames r) /\
    NoDup (featureNames r) /\
    Forall (fun e =>
              Importance.value e = dict_get d (Importance.feature e) /\
              Importance.importance e
              = Qabs (mock_contribution model_type (Importance.value e)))
           (featureImportance r).
Proof.
  intros mt d r. subst r. unfold generate_mock_explanation. simpl.
  split; [|split].
  - rewrite map_map. simpl.
    rewrite <- (map_map fst (fun x => x)), map_id.
    unfold sorted_desc. rewrite py_sorted_Permutation.
    rewrite map_map. simpl. rewrite map_id. reflexivity.
  - apply sorted_keys_NoDup.
  - apply Forall_forall. intros e He.
    apply list_elem_of_In, in_map_iff in He. destruct He as (nc & <- & Hnc).
    apply py_sorted_In, in_map_iff in Hnc. destruct Hnc as (name & <- & _).
    simpl. auto.
Qed.

Lemma StronglySorted_app_In {A} (R : A -> A -> Prop) (l1 l2 : list A) (x1 x2 : A) :
  StronglySorted R (l1 ++ l2) -> In x1 l1 -> In x2 l2 -> R x1 x2.
Proof.
  induction l1 as [|a l1 IH]; intros HS H1 H2; [destruct H1|].
  simpl in HS. apply StronglySorted_inv in HS. destruct HS as [HS Hall].
  destruct H1 as [->|H1]; [|exact (IH HS H1 H2)].
  rewrite List.Forall_forall in Hall. apply Hall, in_or_app. right. exact H2.
Qed.

(** The top lists of the mock result hold the largest contributions: a
    feature with a positive contribution is missing from the positive list
    only when that list is full with five entries that are all at least as
    large, and likewise for the negative list and the most negative
    contributions. *)
Theorem mock_top_contributors_are_the_largest :
  forall (model_type : string) (d : gmap string Q) (name : string),
    let r := generate_mock_explanation model_type d in
    let c := mock_contribution model_type (dict_get d name) in
    let entry := {| Contribution.feature := name; Contribution.contribution := c |} in
    In name (featureNames r) ->
    (0 < c ->
     In entry (topContributors_positive r) \/
     (length (topContributors_positive r) = 5%nat /\
      Forall (fun e => c <= Contribution.contribution e)
             (topContributors_positive r))) /\
    (c < 0 ->
     In entry (topContributors_negative r) \/
     (length (topContributors_negative r) = 5%nat /\
      Forall (fun e => Contribution.contribution e <= c)
             (topContributors_negative r))).
Proof.
  intros mt d name r c entry Hname. subst r.
  unfold generate_mock_explanation in *.
  cbn [featureNames topContributors_positive topContributors_negative] in *.
  set (contributions :=
         map (fun name => (name, mock_contribution mt (dict_get d name)))
             (sorted_keys d)).
  set (sorted_contribs := sorted_desc (fun x => Qabs (snd x)) contributions).
  set (mk := fun nc : string * Q =>
               {| Contribution.feature := fst nc;
                  Contribution.contribution := snd nc |}).
  assert (Hsorted : StronglySorted
                      (fun a b : string * Q => Qabs (snd b) <= Qabs (snd a))
                      sorted_contribs)
    by apply (sorted_desc_StronglySorted (fun x : string * Q => Qabs (snd x))).
  assert (Hin : In (name, c) sorted_contribs).
  { apply py_sorted_In. unfold contributions.
    apply in_map_iff. exists name. auto. }
  assert (Hcase : forall (test : string * Q -> bool) (R : Contribution.t -> Contribution.t -> Prop),
            StronglySorted R (map mk (List.filter test sorted_contribs)) ->
            test (name, c) = true ->
            In entry (take 5 (map mk (List.filter test sorted_contribs))) \/
            (length (take 5 (map mk (List.filter test sorted_contribs))) = 5%nat /\
             Forall (fun e => R e entry)
                    (take 5 (map mk (List.filter test sorted_contribs))))).
  { intros test R HS Ht.
    set (L := map mk (List.filter test sorted_contribs)) in *.
    assert (HL : In entry L).
    { unfold L. apply in_map_iff. exists (name, c). split; [reflexivity|].
      apply filter_In. auto. }
    rewrite <- (take_drop 5 L) in HL, HS. apply in_app_or in HL.
    destruct HL as [HL|HL]; [left; exact HL|right]. split.
    - rewrite length_take.
      assert (length (drop 5 L) <> 0)%nat by (destruct (drop 5 L); [destruct HL|discriminate]).
      rewrite length_drop in H. lia.
    - apply Forall_forall. intros e He.
      apply list_elem_of_In in He.
      exact (StronglySorted_app_In _ _ _ _ _ HS He HL). }
  split; intros Hc.
  - apply (Hcase (fun nc => PyFloat.gtb (snd nc) 0) contribution_desc).
    + apply (StronglySorted_map (fun a b : string * Q => snd b <= snd a));
        [intros a b H; exact H|].
      apply (StronglySorted_weaken
               (fun a b : string * Q => Qabs (snd b) <= Qabs (snd a)) _
               (fun a => PyFloat.gtb (snd a) 0 = true)).
      * intros a b Ha Hb H.
        apply PyFloat_gtb_gt, Qlt_le_weak in Ha.
        apply PyFloat_gtb_gt, Qlt_le_weak in Hb.
        rewrite (Qabs_pos _ Ha), (Qabs_pos _ Hb) in H. exact H.
      * apply Forall_filter_test.
      * apply StronglySorted_filter. exact Hsorted.
    + simpl. apply PyFloat_gtb_gt. exact Hc.
  - apply (Hcase (fun nc => PyFloat.ltb (snd nc) 0) contribution_asc).
    + apply (StronglySorted_map (fun a b : string * Q => snd a <= snd b));
        [intros a b H; exact H|].
      apply (StronglySorted_weaken
               (fun a b : string * Q => Qabs (snd b) <= Qabs (snd a)) _
               (fun a => PyFloat.ltb (snd a) 0 = true)).
      * intros a b Ha Hb H.
        apply PyFloat_ltb_lt, Qlt_le_weak in Ha.
        apply PyFloat_ltb_lt, Qlt_le_weak in Hb.
        rewrite (Qabs_neg _ Ha), (Qabs_neg _ Hb) in H.
        apply Qopp_le_compat in H. rewrite !Qopp_involutive in H. exact H.
      * apply Forall_filter_test.
      * apply StronglySorted_filter. exact Hsorted.
    + simpl. apply PyFloat_ltb_lt. exact Hc.
Qed.

Lemma mock_top_contributors_are_the_largest_witness :
  let r := generate_mock_explanation "other" six_features in
  let c := mock_contribution "other" (dict_get six_features "a") in
  let entry := {| Contribution.feature := "a"; Contribution.contribution := c |} in
  In "a"%string (featureNames r) /\ 0 < c /\
  (In entry (topContributors_positive r) \/
   (length (topContributors_positive r) = 5%nat /\
    Forall (fun e => c <= Contribution.contribution e)
           (topContributors_positive r))).
Proof.
  intros r c entry.
  assert (H1 : In "a"%string (featureNames r)) by (vm_compute; auto).
  assert (H2 : 0 < c) by reflexivity.
  split; [exact H1|]. split; [exact H2|].
  exact (proj1 (mock_top_contributors_are_the_largest "other" six_features
                  "a" H1) H2).
Defined.

(** ** The mock explanation: additivity and signs *)

Lemma mock_shapValues_eq (model_type : string) (d : gmap string Q) :
  shapValues (generate_mock_explanation model_type d)
  = map (fun name => mock_contribution model_type (dict_get d name))
        (sorted_keys d).
Proof.
  unfold generate_mock_explanation. cbn [shapValues].
  apply map_ext_in. intros name Hname.
  apply (items_get_map (fun k => mock_contribution model_type (dict_get d k))).
  exact Hname.
Qed.

Lemma PyFloat_sum_nonneg (xs : list Q) :
  Forall (fun x => 0 <= x) xs -> 0 <= PyFloat.sum xs.
Proof.
  induction 1 as [|x xs Hx Hxs IH].
  - apply Qle_refl.
  - unfold PyFloat.sum. cbn [fold_left]. rewrite PyFloat_sum_from.
    rewrite <- (Qplus_0_l 0) at 1. apply Qplus_le_compat; [|exact IH].
    rewrite Qplus_0_l. exact Hx.
Qed.


Lemma mock_contribution_waste_nonneg (val : Q) :
  0 <= mock_contribution "waste_predictor" val.
Proof.
  unfold mock_contribution. simpl.
  destruct (PyFloat.gtb val 0) eqn:E; [|apply Qle_refl].
  apply PyFloat_gtb_gt in E. apply Qlt_le_weak.
  rewrite <- (Qmult_0_l (1 # 100)). apply Qmult_lt_compat_r; [reflexivity|exact E].
Qed.

Lemma filter_none {A} (test : A -> bool) (l : list A) :
  (forall a, In a l -> test a = false) -> List.filter test l = [].
Proof.
  induction l as [|a l IH]; intros H; [reflexivity|].
  simpl. rewrite (H a (or_introl eq_refl)). apply IH.
  intros b Hb. apply H. right. exact Hb.
Qed.

Lemma mock_prediction_eq (model_type : string) (d : gmap string Q) :
  prediction (generate_mock_explanation model_type d)
  = mock_baseline model_type
    + PyFloat.sum (map (fun name => mock_contribution model_type (dict_get d name))
                       (sorted_keys d)).
Proof.
  unfold generate_mock_explanation. cbn [prediction].
  rewrite map_map. reflexivity.
Qed.

(** The mock result is additive, as a SHAP explanation is: its prediction
    is its expected value plus the sum of its attributions, for every model
    type and every input record. *)
Theorem mock_prediction_is_baseline_plus_attributions :
  forall (model_type : string) (d : gmap string Q),
    let r := generate_mock_explanation model_type d in
    prediction r = expectedValue r + PyFloat.sum (shapValues r) /\
    expectedValue r = mock_baseline model_type.
Proof.
  intros model_type d r. subst r.
  rewrite mock_prediction_eq, mock_shapValues_eq. split; reflexivity.
Qed.

(** For the waste predictor the mock never reports a reduction: every
    attribution is non-negative, the list of negative contributors is empty,
    and the prediction is never below the baseline of 15. *)
Theorem mock_waste_predictor_never_reduces :
  forall (d : gmap string Q),
    let r := generate_mock_explanation "waste_predictor" d in
    Forall (fun v => 0 <= v) (shapValues r) /\
    topContributors_negative r = [] /\
    expectedValue r = 15 /\
    15 <= prediction r.
Proof.
  intros d r.
  assert (Hvals : Forall (fun v => 0 <= v) (shapValues r)).
  { subst r. rewrite mock_shapValues_eq. apply Forall_forall. intros v Hv.
    apply list_elem_of_In, in_map_iff in Hv. destruct Hv as (name & <- & _).
    apply mock_contribution_waste_nonneg. }
  split; [exact Hvals|]. split; [|split].
  - subst r. unfold generate_mock_explanation. cbn [topContributors_negative].
    rewrite filter_none; [reflexivity|].
    intros [name c] Hin. apply py_sorted_In, in_map_iff in Hin.
    destruct Hin as (name' & [= <- <-] & _). cbn [snd].
    unfold PyFloat.ltb. apply negb_false_iff. apply Qle_bool_iff.
    apply mock_contribution_waste_nonneg.
  - reflexivity.
  - subst r. rewrite mock_prediction_eq. rewrite mock_shapValues_eq in Hvals.
    change (mock_baseline "waste_predictor") with 15.
    rewrite <- (Qplus_0_r 15) at 1. apply Qplus_le_compat; [apply Qle_refl|].
    apply PyFloat_sum_nonneg. exact Hvals.
Qed.



(** ** The entry point: which path produced the result *)

Lemma mapM_result_all_Ok {A B} (f : A -> result B) (l : list A) (k : list B) :
  mapM (M := result) f l = Ok k ->
  forall x, In x l -> exists y, f x = Ok y.
Proof.
  revert k. induction l as [|a l IH]; intros k H x Hx; [destruct Hx|].
  cbn [mapM] in H.
  apply result_bind_Ok in H. destruct H as (b & Hb & H).
  apply result_bind_Ok in H. destruct H as (k' & Hk' & _).
  destruct Hx as [<-|Hx]; [eauto | exact (IH k' Hk' x Hx)].
Qed.

Lemma mapM_result_fst {A B C} (f : A -> result B) (g : A -> C) (h : B -> C)
    (l : list A) (k : list B) :
  (forall x y, f x = Ok y -> h y = g x) ->
  mapM (M := result) f l = Ok k -> map h k = map g l.
Proof.
  intros Hf. revert k. induction l as [|a l IH]; intros k H.
  - injection H as <-. reflexivity.
  - cbn [mapM] in H.
    apply result_bind_Ok in H. destruct H as (b & Hb & H).
    apply result_bind_Ok in H. destruct H as (k' & Hk' & H).
    injection H as <-. simpl. rewrite (Hf a b Hb), (IH k' Hk'). reflexivity.
Qed.

Lemma mapM_result_Raise {A B} (f : A -> result B) (l : list A) (e : exn) :
  (forall x, In x l -> (exists y, f x = Ok y) \/ f x = Raise e) ->
  (exists x, In x l /\ f x = Raise e) ->
  mapM (M := result) f l = Raise e.
Proof.
  induction l as [|a l IH]; intros Hall (x & Hx & Hfx); [destruct Hx|].
  cbn [mapM]. destruct (Hall a (or_introl eq_refl)) as [[y Hy]|Hr].
  - rewrite Hy. cbn [mbind result_bind].
    rewrite IH; [reflexivity| |].
    + intros x' Hx'. apply Hall. right. exact Hx'.
    + destruct Hx as [->|Hx]; [congruence|]. exists x. auto.
  - rewrite Hr. reflexivity.
Qed.

Lemma snd_imap_pairs {A} (l : list A) :
  map snd (imap (fun i a => (i, a)) l) = l.
Proof.
  apply list_eq. intros i.
  change (map snd (imap (fun i a => (i, a)) l)) with
    (snd <$> imap (fun i a => (i, a)) l).
  rewrite list_lookup_fmap, list_lookup_imap.
  destruct (l !! i); reflexivity.
Qed.

Lemma In_imap_pairs {A} (l : list A) (i : nat) (a : A) :
  In (i, a) (imap (fun i a => (i, a)) l) <-> l !! i = Some a.
Proof.
  rewrite <- list_elem_of_In, elem_of_lookup_imap. split.
  - intros (i' & a' & [= -> ->] & H). exact H.
  - intros H. exists i, a. auto.
Qed.

(** Positions selected for a top list have a feature name. *)
Lemma top_by_position_named test feature_names flat l :
  top_by_position test feature_names flat = Ok l ->
  forall i v, flat !! i = Some v -> test v = true -> (i < length feature_names)%nat.
Proof.
  unfold top_by_position. intros H i v Hi Ht.
  apply result_bind_Ok in H. destruct H as (selected & Hsel & _).
  destruct (mapM_result_all_Ok _ _ _ Hsel (i, v)) as [y Hy].
  { apply filter_In. split; [apply In_imap_pairs; exact Hi | exact Ht]. }
  cbn [fst snd] in Hy.
  apply result_bind_Ok in Hy. destruct Hy as (name & Hname & _).
  apply py_index_Ok in Hname. eapply lookup_lt_Some. exact Hname.
Qed.

Section ShapResultFacts.

Context {C : Capabilities}.

(** What a result of the SHAP path is made of. *)
Lemma generate_shap_explanation_Some session d background r e :
  generate_shap_explanation session d background = Ok (Some r, e) ->
  e = None /\ isMock r = None /\ featureNames r = sorted_keys d /\
  (exists pairs,
     mapM (M := result)
          (fun iname : nat * string =>
             v ← py_index (shapValues r) (fst iname); Ok (snd iname, Qabs v))
          (imap (fun i name => (i, name)) (sorted_keys d)) = Ok pairs /\
     featureImportance r
     = map (fun ni : string * Q =>
              {| Importance.feature := fst ni;
                 Importance.importance := snd ni;
                 Importance.value := dict_get d (fst ni) |})
           (sorted_desc snd pairs)) /\
  top_by_position (fun v => PyFloat.gtb v 0) (sorted_keys d) (shapValues r)
  = Ok (topContributors_positive r) /\
  top_by_position (fun v => PyFloat.ltb v 0) (sorted_keys d) (shapValues r)
  = Ok (topContributors_negative r).
Proof.
  unfold generate_shap_explanation. intros H.
  apply result_bind_Ok in H. destruct H as (predict_fn & _ & H).
  destruct (mbind _ (shap_KernelExplainer _ _)) as [[explainer values]|err];
    [|discriminate].
  apply result_bind_Ok in H. destruct H as (expected & _ & H).
  apply result_bind_Ok in H. destruct H as (flat & _ & H).
  apply result_bind_Ok in H. destruct H as (importance & Himp & H).
  apply result_bind_Ok in H. destruct H as (out & _ & H).
  apply result_bind_Ok in H. destruct H as (pred & _ & H).
  apply result_bind_Ok in H. destruct H as (positive & Hpos & H).
  apply result_bind_Ok in H. destruct H as (negative & Hneg & H).
  injection H as <- <-. cbn.
  repeat split; try assumption. exists importance. split; [exact Himp|reflexivity].
Qed.

Lemma main_primary_Some args doc r :
  main_primary args doc = Ok (Some r) ->
  SHAP_AVAILABLE = true /\ ONNX_AVAILABLE = true /\
  os_path_exists (model_path args) = true /\
  exists session d,
    doc = FeatureObject d /\
    generate_shap_explanation session d (main_background args) = Ok (Some r, None).
Proof.
  unfold main_primary. intros H.
  destruct SHAP_AVAILABLE; [|discriminate].
  destruct ONNX_AVAILABLE; [|discriminate].
  destruct (os_path_exists (model_path args)); [|discriminate].
  cbn [andb] in H.
  apply result_bind_Ok in H. destruct H as (session & _ & H).
  apply result_bind_Ok in H. destruct H as (d & Hd & H).
  apply result_bind_Ok in H. destruct H as ([r0 e] & Hre & H).
  cbn [fst snd] in H.
  destruct (str_truthy e); [discriminate|]. injection H as ->.
  destruct (generate_shap_explanation_Some _ _ _ _ _ Hre) as (-> & _).
  repeat split. exists session, d. split; [|exact Hre].
  destruct doc; [injection Hd as ->; reflexivity | discriminate | discriminate].
Qed.

End ShapResultFacts.

(** Without shap or onnxruntime, or without the model file, [main] goes to
    the mock.  For an input object whose values convert to floats it prints
    the mock explanation of the record, with the model type and path added,
    and exits with 0; for an object with a value that [float] rejects it
    prints the error object with the message of [float] and exits with 1. *)
Theorem main_without_shap_prints_the_mock :
  forall (C : Capabilities) (args : Args),
    SHAP_AVAILABLE && ONNX_AVAILABLE && os_path_exists (model_path args) = false ->
    (forall d,
       json_loads (input_data args) = Ok (FeatureObject d) ->
       main args =
         {| stdout := PrintResult
                        (with_metadata
                           (generate_mock_explanation (model_type args) d) args);
            exit_code := 0 |}) /\
    (forall array_error float_error,
       json_loads (input_data args)
       = Ok (NonNumericObject array_error float_error) ->
       main args =
         {| stdout := PrintError ("Explanation failed: " ++ float_error);
            exit_code := 1 |}).
Proof.
  intros C args Hoff. split.
  - intros d Hjson. apply main_of_Ok.
    unfold main_try. rewrite Hjson. cbn [mbind result_bind].
    unfold main_primary. rewrite Hoff. reflexivity.
  - intros array_error float_error Hjson.
    unfold main, main_try. rewrite Hjson. cbn [mbind result_bind].
    unfold main_primary. rewrite Hoff. reflexivity.
Qed.

Lemma main_without_shap_prints_the_mock_witness :
  main (C := unavailable_capabilities) example_args =
    {| stdout := PrintResult
                   (with_metadata
                      (generate_mock_explanation (model_type example_args)
                                                 example_input)
                      example_args);
       exit_code := 0 |}.
Proof.
  exact (proj1 (main_without_shap_prints_the_mock unavailable_capabilities
                  example_args eq_refl) example_input eq_refl).
Defined.

(** Input that parses but is not a JSON object never yields an
    explanation: on every path [main] prints an error object and exits
    with 1. *)
Theorem main_rejects_input_that_is_not_an_object :
  forall (C : Capabilities) (args : Args),
    json_loads (input_data args) = Ok NotAnObject ->
    exit_code (main args) = 1%Z /\
    exists msg, stdout (main args) = PrintError msg.
Proof.
  intros C args Hjson.
  assert (H : exists e, main_try args = Raise e).
  { unfold main_try. rewrite Hjson. cbn [mbind result_bind].
    destruct (main_primary args NotAnObject) as [[r|]|e] eqn:Hp.
    - apply main_primary_Some in Hp.
      destruct Hp as (_ & _ & _ & session & d & Hd & _). discriminate.
    - cbn. eauto.
    - eauto. }
  destruct H as [e He]. exact (main_of_Raise args e He).
Qed.

Lemma main_rejects_input_that_is_not_an_object_witness :
  exit_code (main (C := additive_capabilities NotAnObject) example_args) = 1%Z /\
  exists msg,
    stdout (main (C := additive_capabilities NotAnObject) example_args)
    = PrintError msg.
Proof.
  exact (main_rejects_input_that_is_not_an_object
           (additive_capabilities NotAnObject) example_args eq_refl).
Defined.

(** A printed result tells where it came from.  It always carries the model
    type and path of the command line and the sorted keys of the input
    record as feature names.  With the key "isMock" it is the mock
    explanation of the record; without it, it is what the SHAP path
    returned, and then shap, onnxruntime and the model file were there. *)
Theorem main_result_tells_its_origin :
  forall (C : Capabilities) (args : Args) (r : Explanation),
    stdout (main args) = PrintResult r ->
    exit_code (main args) = 0%Z /\
    modelType r = Some (model_type args) /\
    modelPath r = Some (model_path args) /\
    exists d,
      json_loads (input_data args) = Ok (FeatureObject d) /\
      featureNames r = sorted_keys d /\
      ((isMock r = Some true /\
        r = with_metadata (generate_mock_explanation (model_type args) d) args) \/
       (isMock r = None /\
        SHAP_AVAILABLE = true /\ ONNX_AVAILABLE = true /\
        os_path_exists (model_path args) = true /\
        exists session r0,
          generate_shap_explanation session d (main_background args)
          = Ok (Some r0, None) /\
          r = with_metadata r0 args)).
Proof.
  intros C args r Hout.
  destruct (main_try args) as [r'|e] eqn:Htry.
  2:{ destruct (main_of_Raise args e Htry) as [_ [msg Hmsg]].
      rewrite Hmsg in Hout. discriminate. }
  rewrite (main_of_Ok args r' Htry) in Hout |- *. cbn in Hout |- *.
  injection Hout as ->. split; [reflexivity|].
  unfold main_try in Htry.
  apply result_bind_Ok in Htry. destruct Htry as (doc & Hdoc & Htry).
  apply result_bind_Ok in Htry. destruct Htry as (p & Hp & Htry).
  apply result_bind_Ok in Htry. destruct Htry as (r1 & Hr1 & Htry).
  injection Htry as <-. cbn [modelType modelPath with_metadata featureNames isMock].
  split; [reflexivity|]. split; [reflexivity|].
  destruct p as [r0|].
  - injection Hr1 as <-.
    destruct (main_primary_Some args doc r0 Hp)
      as (Hs & Ho & He & session & d & -> & Hgen).
    destruct (generate_shap_explanation_Some _ _ _ _ _ Hgen)
      as (_ & Hmock & Hnames & _).
    exists d. split; [exact Hdoc|]. split; [exact Hnames|]. right.
    split; [exact Hmock|]. repeat split; try assumption.
    exists session, r0. split; [exact Hgen | reflexivity].
  - apply result_bind_Ok in Hr1. destruct Hr1 as (d & Hd & Hr1).
    injection Hr1 as <-.
    destruct doc as [d'| |]; [injection Hd as ->|discriminate|discriminate].
    exists d. split; [exact Hdoc|]. split; [reflexivity|]. left.
    split; reflexivity.
Qed.

Lemma main_result_tells_its_origin_witness :
  exists r,
    stdout (main (C := unavailable_capabilities) example_args) = PrintResult r /\
    modelType r = Some "waste_predictor"%string /\
    isMock r = Some true.
Proof.
  destruct (stdout (main (C := unavailable_capabilities) example_args))
    as [r|msg] eqn:H; [|vm_compute in H; discriminate].
  destruct (main_result_tells_its_origin unavailable_capabilities example_args
              r H) as (_ & Ht & _ & d & _ & _ & [[Hm _]|[Hm (Hs & _)]]).
  - exists r. auto.
  - discriminate Hs.
Defined.

(** ** The SHAP path: what a result covers, and too few attributions *)

(** A result of the SHAP path comes without an error message and covers
    every feature: the importance list holds each feature name once, with
    the feature's input value and the absolute value of the attribution at
    the feature's position.  There are at least as many attributions as
    features, and any attribution beyond the last feature is zero. *)
Theorem shap_result_covers_every_feature :
  forall (C : Capabilities) (session : option InferenceSession)
         (d : gmap string Q) (background : option (list (list Q)))
         (r : Explanation) (e : option string),
    generate_shap_explanation session d background = Ok (Some r, e) ->
    e = None /\
    (length (featureNames r) <= length (shapValues r))%nat /\
    Permutation (map Importance.feature (featureImportance r)) (featureNames r) /\
    Forall (fun en =>
              exists i v,
                featureNames r !! i = Some (Importance.feature en) /\
                shapValues r !! i = Some v /\
                Importance.importance en = Qabs v /\
                Importance.value en = dict_get d (Importance.feature en))
           (featureImportance r) /\
    (forall i v,
       (length (featureNames r) <= i)%nat -> shapValues r !! i = Some v -> v == 0).
Proof.
  intros C session d background r e H.
  destruct (generate_shap_explanation_Some _ _ _ _ _ H)
    as (He & _ & Hnames & (pairs & Hpairs & Himp) & Hpos & Hneg).
  rewrite Hnames, Himp. split; [exact He|]. split; [|split; [|split]].
  - destruct (le_lt_dec (length (sorted_keys d)) (length (shapValues r)))
      as [Hle|Hlt]; [exact Hle|exfalso].
    destruct (lookup_lt_is_Some_2 (sorted_keys d) (length (shapValues r)) Hlt)
      as [name Hname].
    destruct (mapM_result_all_Ok _ _ _ Hpairs (length (shapValues r), name))
      as [y Hy]; [apply In_imap_pairs; exact Hname|].
    cbn [fst snd] in Hy.
    apply result_bind_Ok in Hy. destruct Hy as (v & Hv & _).
    apply py_index_Ok, lookup_lt_Some in Hv. lia.
  - rewrite map_map. cbn [Importance.feature].
    unfold sorted_desc.
    change (map (fun x : string * Q => fst x)
                (py_sorted (fun y x => PyFloat.gtb (snd y) (snd x)) pairs))
      with (fst <$> py_sorted (fun y x => PyFloat.gtb (snd y) (snd x)) pairs).
    rewrite py_sorted_Permutation.
    change (fst <$> pairs) with (map fst pairs).
    assert (Hfst : map fst pairs
                   = map snd (imap (fun i name => (i, name)) (sorted_keys d))).
    { eapply mapM_result_fst; [|exact Hpairs].
      intros [i name] y Hy. cbn [fst snd] in Hy |- *.
      apply result_bind_Ok in Hy. destruct Hy as (v & _ & Hy).
      injection Hy as <-. reflexivity. }
    rewrite Hfst, snd_imap_pairs. reflexivity.
  - apply Forall_forall. intros en Hen.
    apply list_elem_of_In, in_map_iff in Hen. destruct Hen as (ni & <- & Hni).
    apply py_sorted_In in Hni.
    destruct (mapM_result_In _ _ _ Hpairs ni Hni) as ([i name] & Hin & Hf).
    cbn [fst snd] in Hf.
    apply result_bind_Ok in Hf. destruct Hf as (v & Hv & Hf).
    injection Hf as <-. cbn.
    exists i, v. apply In_imap_pairs in Hin. apply py_index_Ok in Hv.
    repeat split; assumption.
  - intros i v Hi Hv.
    assert (Hpos' : PyFloat.gtb v 0 = false).
    { destruct (PyFloat.gtb v 0) eqn:E; [exfalso|reflexivity].
      pose proof (top_by_position_named _ _ _ _ Hpos i v Hv E). lia. }
    assert (Hneg' : PyFloat.ltb v 0 = false).
    { destruct (PyFloat.ltb v 0) eqn:E; [exfalso|reflexivity].
      pose proof (top_by_position_named _ _ _ _ Hneg i v Hv E). lia. }
    apply PyFloat_gtb_le in Hpos'. apply PyFloat_ltb_ge in Hneg'.
    apply Qle_antisym; assumption.
Qed.

Lemma shap_result_covers_every_feature_witness :
  exists r,
    shap_result (C := additive_capabilities NotAnObject)
                (Some additive_session) three_features None = Some r /\
    (length (featureNames r) <= length (shapValues r))%nat /\
    Permutation (map Importance.feature (featureImportance r)) (featureNames r).
Proof.
  destruct (generate_shap_explanation (C := additive_capabilities NotAnObject)
              (Some additive_session) three_features None)
    as [[[r|] e]|err] eqn:H; try (vm_compute in H; discriminate).
  destruct (shap_result_covers_every_feature
              (additive_capabilities NotAnObject) (Some additive_session)
              three_features None r e H) as (_ & Hlen & Hperm & _).
  exists r. unfold shap_result. rewrite H. auto.
Defined.

(** When the explainer returns fewer attributions than the record has
    features, the script does not fall back to the mock: the result
    assembly indexes past the end, and [main] prints an error object and
    exits with 1. *)
Theorem shap_too_few_attributions_is_an_error :
  forall (C : Capabilities) (args : Args) (d : gmap string Q)
         (session : InferenceSession) (name : string)
         (explainer : KernelExplainer) (flat : list Q) (ev : Q),
    json_loads (input_data args) = Ok (FeatureObject d) ->
    SHAP_AVAILABLE = true ->
    ONNX_AVAILABLE = true ->
    os_path_exists (model_path args) = true ->
    ort_InferenceSession (model_path args) = Ok session ->
    get_inputs_0_name session = Ok name ->
    shap_KernelExplainer
      (predict session name)
      (background_or_zeros (main_background args) (length (sorted_keys d)))
    = Ok explainer ->
    shap_values explainer (input_array_of d) 100 = Ok (ShapArray flat) ->
    expected_value_float explainer = Ok ev ->
    (length flat < length (sorted_keys d))%nat ->
    main args =
      {| stdout := PrintError "Explanation failed: list index out of range";
         exit_code := 1 |}.
Proof.
  intros C args d session name explainer flat ev
         Hjson Hshap Honnx Hpath Hload Hname Hexp Hvals Hev Hlen.
  assert (Hgen : generate_shap_explanation (Some session) d (main_background args)
                 = Raise (Exception "list index out of range")).
  { unfold generate_shap_explanation, create_prediction_function.
    rewrite Hname. cbn [mbind result_bind].
    rewrite Hexp. cbn [mbind result_bind]. rewrite Hvals.
    cbn [mbind result_bind]. rewrite Hev. cbn [mbind result_bind].
    rewrite (mapM_result_Raise _ _ (Exception "list index out of range"));
      [reflexivity| |].
    - intros [i nm] _. cbn [fst snd]. unfold py_index.
      destruct (flat !! i); cbn; eauto.
    - destruct (lookup_lt_is_Some_2 (sorted_keys d) (length flat) Hlen)
        as [nm Hnm].
      exists (length flat, nm). split; [apply In_imap_pairs; exact Hnm|].
      cbn [fst snd]. unfold py_index.
      rewrite (lookup_ge_None_2 flat (length flat)) by lia. reflexivity. }
  unfold main, main_try. rewrite Hjson. cbn [mbind result_bind].
  unfold main_primary. rewrite Hshap, Honnx, Hpath. cbn [andb].
  unfold load_onnx_model. rewrite Honnx, Hload. cbn [negb mbind result_bind shap_input].
  rewrite Hgen. reflexivity.
Qed.

Lemma shap_too_few_attributions_is_an_error_witness :
  main (C := short_attribution_capabilities) example_args =
    {| stdout := PrintError "Explanation failed: list index out of range";
       exit_code := 1 |}.
Proof.
  apply (shap_too_few_attributions_is_an_error
           short_attribution_capabilities example_args example_input
           additive_session "input"%string
           {| shap_values := fun _ _ => Ok (ShapArray [1]);
              expected_value_float := Ok 0 |} [1] 0);
    try reflexivity.
  vm_compute. lia.
Defined.

(** ** The training scripts: what they leave on disk *)

Section ScriptFacts.

Context {T : Torch}.

(** The sizes of the two datasets for a cut between 1 and the number of
    rows. *)
Lemma prepare_data_cut (self : ProductionTrainer) (features : list row)
    (labels : list label) (val_split : spec_float) (cut : Z) :
  Permutation (fst (rng_permutation (rng self) (length features)))
              (seq 0 (length features)) ->
  length labels = length features ->
  (0 < batch_size self)%Z ->
  split_idx_of (length features) val_split = Some cut ->
  (1 <= cut <= Z.of_nat (length features))%Z ->
  exists loaders,
    prepare_data self features labels val_split
    = (with_rng self (snd (rng_permutation (rng self) (length features))),
       Some loaders) /\
    loader_batch_size (fst loaders) = batch_size self /\
    length (tensors_x (dataset (fst loaders))) = Z.to_nat cut /\
    length (tensors_y (dataset (fst loaders))) = Z.to_nat cut /\
    length (tensors_x (dataset (snd loaders)))
    = (length features - Z.to_nat cut)%nat /\
    length (tensors_y (dataset (snd loaders)))
    = (length features - Z.to_nat cut)%nat.
Proof.
  intros Hperm Hlen Hbatch Hcut Hrange. unfold prepare_data.
  destruct (rng_permutation (rng self) (length features)) as [indices r].
  cbn [fst snd] in Hperm |- *.
  pose proof (Permutation_seq_bound _ _ Hperm) as Hb.
  destruct (take_rows_Some features indices Hb) as [features' Hf].
  destruct (take_rows_Some labels indices) as [labels' Hl];
    [rewrite Hlen; exact Hb|].
  rewrite Hf, Hl. cbn [mbind option_bind].
  pose proof (take_rows_length _ _ _ Hf) as Lf.
  pose proof (take_rows_length _ _ _ Hl) as Ll.
  assert (Li : length indices = length features)
    by (rewrite (Permutation_length Hperm); apply length_seq).
  rewrite Lf, Li, Hcut. cbn [mbind option_bind].
  unfold PySlice.upto, PySlice.from, PySlice.clamp.
  destruct (Z.ltb_spec cut 0); [lia|].
  destruct (take (Z.to_nat cut) features') as [|x xs] eqn:Hx.
  { apply (f_equal length) in Hx. rewrite length_take in Hx.
    cbn [length] in Hx. lia. }
  destruct (Z.leb_spec (batch_size self) 0); [lia|].
  eexists. split; [reflexivity|].
  cbn [fst snd dataset tensors_x tensors_y loader_batch_size]. rewrite <- Hx.
  rewrite !length_take, !length_drop. repeat split; lia.
Qed.

(** A fresh trainer with a non-empty range records at least one epoch and
    at most the whole range. *)
Lemma train_fresh_history (tl vl : DataLoader) (cls : bool) (h : loc -> tensor)
    (self : ProductionTrainer) :
  train_loss (history self) = [] ->
  val_loss (history self) = [] ->
  (0 < epochs self)%Z ->
  let final := snd (train tl vl cls (h, self)) in
  (1 <= length (train_loss (history final)) <= Z.to_nat (epochs self))%nat /\
  length (val_loss (history final)) = length (train_loss (history final)).
Proof.
  intros Ht Hv Hep final. subst final. unfold train.
  rewrite _finalize_training_trainer. cbn [snd].
  destruct (epoch_loop_history tl vl cls (py_range (epochs self)) (h, self))
    as [Ht' Hv'].
  cbn [snd] in Ht', Hv'. rewrite Ht', Hv', Ht, Hv. cbn [app].
  rewrite !length_map. split; [|reflexivity].
  pose proof (executed_epochs_bound tl vl cls (py_range (epochs self)) (h, self))
    as Hb.
  assert (Hlen : length (py_range (epochs self)) = Z.to_nat (epochs self))
    by (unfold py_range; apply length_seq).
  rewrite Hlen in Hb. split; [|exact Hb].
  destruct (py_range (epochs self)) as [|e r] eqn:Hr.
  - simpl in Hlen. lia.
  - simpl. destruct (epoch_body tl vl cls e (h, self)) as [[st1 losses] [|]];
      simpl; lia.
Qed.

End ScriptFacts.

(** The training scripts, from the table on, for a table of rows as wide as
    the script's network, with a label per row, whose cut
    [int(n * (1 - 0.2))] is at least 1 and below [n].  When
    the training rows do not leave a last batch of one row, and the output
    path contains ".onnx", the script completes: the artifact of the
    trained model is at the output path, and the metadata next to it
    carries the script's model name and input size, the normalization
    parameters that numpy computes from the float32 table as given (not
    from the normalized one), and a history of at least 1 and at most 150
    epochs with both final losses present.  When the last training batch has exactly one
    row, the script fails and exports nothing. *)
Theorem training_script_exports_model_and_normalization :
  forall (T : Torch) (E : Exporter)
         (FloatTensor : list spec_float -> row) (s : TrainScript.t)
         (models_dir : string) (model : Module_) (opt0 : optim)
         (h : loc -> tensor) (fs : gmap string file)
         (features : list (list spec_float)) (labels : list label) (cut : Z),
    let n := length features in
    let output_path := path_join models_dir (TrainScript.file_name s) in
    let run := main_from_table FloatTensor s models_dir model opt0 h fs
                               features labels in
    Permutation (fst (rng_permutation (default_rng 42) n)) (seq 0 n) ->
    Forall (fun r => Z.of_nat (length r) = TrainScript.input_size s) features ->
    length labels = n ->
    split_idx_of n (IEEE.decimal IEEE.binary64 2 10) = Some cut ->
    (1 <= cut < Z.of_nat n)%Z ->
    ((cut mod 32 <> 1)%Z ->
     py_in ".onnx" output_path = true ->
     exists loaders st fs',
       run = Some (loaders, st, fs') /\
       length (batches_source (fst loaders)) = Z.to_nat cut /\
       length (batches_source (snd loaders)) = (n - Z.to_nat cut)%nat /\
       fs' !! output_path
       = Some (OnnxFile (torch_onnx_export (returned_parameters st)
                                           (TrainScript.input_size s))) /\
       exists m,
         fs' !! metadata_path_of output_path = Some (JsonFile m) /\
         Metadata.modelType m = TrainScript.model_name s /\
         Metadata.inputSize m = TrainScript.input_size s /\
         Metadata.normParams m
         = snd (Numpy.normalize_features IEEE.binary32 features) /\
         (1 <= TrainHistory.epochs (Metadata.trainHistory m) <= 150)%Z /\
         is_Some (TrainHistory.finalTrainLoss (Metadata.trainHistory m)) /\
         is_Some (TrainHistory.finalValLoss (Metadata.trainHistory m))) /\
    ((cut mod 32 = 1)%Z -> run = None).
Proof.
  intros T E FloatTensor s models_dir model opt0 h fs features labels
         cut n output_path run Hperm Hwidth Hlen Hcut Hrange.
  subst run. unfold main_from_table.
  assert (Hfits : fits_network s features = true).
  { unfold fits_network. apply forallb_forall. intros r Hr.
    apply Z.eqb_eq. revert r Hr. apply List.Forall_forall. exact Hwidth. }
  rewrite Hfits.
  assert (Hrows : length (fst (Numpy.normalize_features IEEE.binary32 features))
                  = n) by (apply length_map).
  destruct (Numpy.normalize_features IEEE.binary32 features) as [t norm_params].
  cbn [fst snd] in Hrows |- *.
  assert (Lt : length (map FloatTensor t) = n).
  { rewrite length_map. exact Hrows. }
  set (trainer := ProductionTrainer_init model opt0 32 150 20 42).
  destruct (prepare_data_cut trainer (map FloatTensor t) labels
              (IEEE.decimal IEEE.binary64 2 10) cut)
    as (loaders & Hprep & Hbs & Lx1 & Ly1 & Lx2 & Ly2).
  { rewrite Lt. exact Hperm. }
  { rewrite Lt. exact Hlen. }
  { reflexivity. }
  { rewrite Lt. exact Hcut. }
  { rewrite Lt. lia. }
  rewrite Hprep. cbn [mbind option_bind].
  set (trainer' := with_rng trainer
                     (snd (rng_permutation (rng trainer)
                                           (length (map FloatTensor t))))).
  rewrite Lt in Lx2, Ly2.
  assert (Htrainable : trainable loaders = negb (cut mod 32 =? 1)%Z).
  { unfold trainable. rewrite Lx1, Lx2, Hbs. cbn [batch_size trainer
      ProductionTrainer_init].
    rewrite Z2Nat.id by lia.
    destruct (Nat.eqb_spec (n - Z.to_nat cut) 0); [lia|].
    apply andb_true_r. }
  rewrite andb_true_r, Htrainable. split.
  - intros Hmod Hin.
    destruct (Z.eqb_spec (cut mod 32) 1) as [Heq|_]; [contradiction|].
    cbn [negb].
    set (st := train (fst loaders) (snd loaders)
                     (TrainScript.is_classification s) (h, trainer')).
    exists loaders, st, (export_onnx fs st output_path (TrainScript.input_size s)
                                     (TrainScript.model_name s) norm_params).
    split; [reflexivity|].
    unfold batches_source. rewrite !length_zip_with, Lx1, Ly1, Lx2, Ly2.
    split; [lia|]. split; [lia|].
    assert (Hne : metadata_path_of output_path <> output_path).
    { unfold metadata_path_of.
      eapply py_replace_changes; [reflexivity | reflexivity | discriminate |].
      unfold py_in in Hin. destruct (String.index 0 ".onnx" output_path);
        [discriminate|discriminate]. }
    unfold export_onnx, _save_metadata. split.
    + rewrite lookup_insert_ne by exact Hne. apply lookup_insert_eq.
    + eexists. split; [apply lookup_insert_eq|]. cbn.
      split; [reflexivity|]. split; [reflexivity|]. split; [reflexivity|].
      destruct (train_fresh_history (fst loaders) (snd loaders)
                  (TrainScript.is_classification s) h trainer')
        as [Hep Hval]; [reflexivity | reflexivity | reflexivity |].
      fold st in Hep, Hval.
      change (Z.to_nat (epochs trainer')) with 150%nat in Hep.
      split; [lia|].
      split.
      * destruct (train_loss (history (snd st))) as [|a l] eqn:El;
          [simpl in Hep; lia|].
        rewrite last_cons. destruct (last l); eauto.
      * destruct (val_loss (history (snd st))) as [|a l] eqn:El;
          [simpl in Hval; lia|].
        rewrite last_cons. destruct (last l); eauto.
  - intros Hmod. rewrite Hmod. reflexivity.
Qed.

Section ScriptExample.

#[local] Existing Instance synthetic_torch.
#[local] Existing Instance synthetic_exporter.

Lemma training_script_exports_model_and_normalization_witness :
  let output_path := path_join "models/onnx"
                               (TrainScript.file_name train_waste_predictor) in
  exists loaders st fs',
    main_from_table (fun _ => tt) train_waste_predictor
                    "models/onnx" synthetic_model tt (fun _ => 0%Z) ∅
                    hundred_rows hundred_labels
    = Some (loaders, st, fs') /\
    length (batches_source (fst loaders)) = 80%nat /\
    length (batches_source (snd loaders)) = 20%nat /\
    fs' !! output_path
    = Some (OnnxFile (torch_onnx_export
                        (returned_parameters st)
                        (TrainScript.input_size train_waste_predictor))) /\
    exists m,
      fs' !! metadata_path_of output_path = Some (JsonFile m) /\
      Metadata.modelType m = TrainScript.model_name train_waste_predictor /\
      Metadata.inputSize m = TrainScript.input_size train_waste_predictor /\
      Metadata.normParams m
      = snd (Numpy.normalize_features IEEE.binary32 hundred_rows) /\
      (1 <= TrainHistory.epochs (Metadata.trainHistory m) <= 150)%Z /\
      is_Some (TrainHistory.finalTrainLoss (Metadata.trainHistory m)) /\
      is_Some (TrainHistory.finalValLoss (Metadata.trainHistory m)).
Proof.
  assert (Hwidth : Forall (fun r => Z.of_nat (length r)
                                    = TrainScript.input_size train_waste_predictor)
                          hundred_rows).
  { apply List.Forall_forall. intros r Hr.
    apply in_map_iff in Hr as (i & <- & _). reflexivity. }
  apply (proj1 (training_script_exports_model_and_normalization
                  synthetic_torch synthetic_exporter (fun _ => tt)
                  train_waste_predictor "models/onnx" synthetic_model tt
                  (fun _ => 0%Z) ∅ hundred_rows hundred_labels 80
                  (Permutation_sym (Permutation_rev _)) Hwidth eq_refl eq_refl
                  ltac:(cbn; lia))).
  - discriminate.
  - reflexivity.
Defined.

End ScriptExample.

(** ** The label rules of the training scripts *)

(** The labels of a record of real anomaly data.  The vector has five
    entries; the risk is 0.8 when [hadAnomaly] is truthy and 0.1 otherwise;
    at most one of the three type entries is 1 and the others are 0, none
    is set without an anomaly; and the entry of the fourth anomaly type,
    the quality problem, is 0 for every record. *)
Theorem anomaly_labels_never_flag_a_quality_problem :
  forall (r : gmap string json),
    exists risk high_waste slow_production machine_issue,
      anomaly_label_vec r
      = [risk; high_waste; slow_production; machine_issue; 0] /\
      (json_truthy (record_get r "hadAnomaly" (JNum 0)) = true ->
       risk = 8 # 10) /\
      (json_truthy (record_get r "hadAnomaly" (JNum 0)) = false ->
       risk = 1 # 10 /\
       (high_waste, slow_production, machine_issue) = (0, 0, 0)) /\
      In (high_waste, slow_production, machine_issue)
         [(0, 0, 0); (1, 0, 0); (0, 1, 0); (0, 0, 1)].
Proof.
  intros r. unfold anomaly_label_vec.
  destruct (json_truthy (record_get r "hadAnomaly" (JNum 0))).
  - destruct (json_eq_str (record_get r "anomalyType" JNull) "high_waste");
      [|destruct (json_eq_str (record_get r "anomalyType" JNull)
                              "slow_production");
        [|destruct (json_eq_str (record_get r "anomalyType" JNull)
                                "machine_issue")]];
      do 4 eexists; (split; [reflexivity|]);
      (split; [reflexivity|]); (split; [discriminate|]);
      simpl; auto.
  - do 4 eexists. split; [reflexivity|]. split; [discriminate|].
    split; [auto|]. simpl. auto.
Qed.

Lemma anomaly_labels_never_flag_a_quality_problem_witness :
  exists risk high_waste slow_production machine_issue,
    anomaly_label_vec quality_problem_record
    = [risk; high_waste; slow_production; machine_issue; 0] /\
    risk = 8 # 10.
Proof.
  destruct (anomaly_labels_never_flag_a_quality_problem quality_problem_record)
    as (risk & hw & sp & mi & Hv & Ht & _).
  exists risk, hw, sp, mi. split; [exact Hv | apply Ht; reflexivity].
Defined.

Section SyntheticLabelFacts.

Lemma py_min_cap (y : Q) :
  1 # 2 < y -> 1 # 2 < py_min (9 # 10) y /\ py_min (9 # 10) y <= 9 # 10.
Proof.
  intros H. unfold py_min. destruct (PyFloat.ltb y (9 # 10)) eqn:E.
  - apply PyFloat_ltb_lt in E. split; [exact H | apply Qlt_le_weak; exact E].
  - split; [reflexivity | apply Qle_refl].
Qed.

Lemma high_waste_share (x : Q) : 15 # 10 < x -> 1 # 2 < x / 3.
Proof.
  intros H. unfold Qdiv.
  assert (E : 1 # 2 == (15 # 10) * / 3) by reflexivity.
  rewrite E. apply Qmult_lt_compat_r; [reflexivity | exact H].
Qed.

Lemma slow_production_share (x : Q) : 1 < x -> 1 # 2 < x / 2.
Proof.
  intros H. unfold Qdiv.
  assert (E : 1 # 2 == 1 * / 2) by reflexivity.
  rewrite E. apply Qmult_lt_compat_r; [reflexivity | exact H].
Qed.

Lemma machine_issue_share (x : Q) : x < -1 -> 1 # 2 < Qabs x / 2.
Proof.
  intros H. apply slow_production_share.
  assert (Hx : x <= 0).
  { apply Qlt_le_weak. apply (Qlt_trans _ (-1)); [exact H | reflexivity]. }
  rewrite (Qabs_neg x Hx).
  apply Qopp_lt_compat in H. exact H.
Qed.

(** The closed form of the synthetic label vector. *)
Lemma anomaly_synthetic_labels_eq (row : list Q) :
  exists risk e1 e2 e3 e4,
    anomaly_synthetic_labels row = [py_min 1 risk; e1; e2; e3; e4] /\
    (e1 = 0 \/ (1 # 2 < e1 /\ e1 <= 9 # 10)) /\
    (e2 = 0 \/ (1 # 2 < e2 /\ e2 <= 9 # 10)) /\
    (e3 = 0 \/ (1 # 2 < e3 /\ e3 <= 9 # 10)) /\
    (e4 = 0 \/ e4 = 3 # 10) /\
    0 <= py_min 1 risk /\ py_min 1 risk <= 1 /\
    (py_min 1 risk == 0 -> e1 = 0 /\ e2 = 0 /\ e3 = 0 /\ e4 = 0).
Proof.
  unfold anomaly_synthetic_labels.
  destruct (PyFloat.gtb (at_column row 3) (15 # 10)) eqn:H1;
  destruct (PyFloat.gtb (at_column row 4) 1) eqn:H2;
  destruct (PyFloat.ltb (at_column row 5) (-1)) eqn:H3;
  destruct (Qle_bool 3 (at_column row 6)) eqn:H4;
  destruct (Qeq_bool (at_column row 11) 1 || PyFloat.gtb (at_column row 10) 20
            || PyFloat.ltb (at_column row 10) 7);
  cbn [fst snd];
  do 5 eexists; (split; [reflexivity|]);
  (split; [first [left; reflexivity
                 | right; apply py_min_cap, high_waste_share, PyFloat_gtb_gt;
                   exact H1]|]);
  (split; [first [left; reflexivity
                 | right; apply py_min_cap, slow_production_share, PyFloat_gtb_gt;
                   exact H2]|]);
  (split; [first [left; reflexivity
                 | right; apply py_min_cap, machine_issue_share, PyFloat_ltb_lt;
                   exact H3]|]);
  (split; [first [left; reflexivity | right; reflexivity]|]);
  (split; [vm_compute; discriminate|]);
  (split; [vm_compute; discriminate|]);
  intros Hz; vm_compute in Hz; first [discriminate Hz | auto].
Qed.

Lemma argmin_from_bound (xs : list Q) :
  forall best_i best i,
    (best_i < i)%nat ->
    (argmin_from best_i best i xs < i + length xs)%nat.
Proof.
  induction xs as [|x xs IH]; intros best_i best i Hi; simpl; [lia|].
  destruct (PyFloat.ltb x best).
  - specialize (IH i x (S i)). lia.
  - specialize (IH best_i best (S i)). lia.
Qed.

(** The element at the position [argmin_from] returns is a lower bound of
    the running best and of the elements still to come. *)
Lemma argmin_from_least (xs : list Q) :
  forall (all : list Q) best_i best i,
    all !! best_i = Some best ->
    (forall k x, xs !! k = Some x -> all !! (i + k)%nat = Some x) ->
    exists m,
      all !! argmin_from best_i best i xs = Some m /\
      m <= best /\ Forall (fun x => m <= x) xs.
Proof.
  induction xs as [|x xs IH]; intros all best_i best i Hbest Hall; simpl.
  - exists best. split; [exact Hbest|]. split; [apply Qle_refl | constructor].
  - assert (Hx : all !! i = Some x).
    { specialize (Hall 0%nat x eq_refl). rewrite Nat.add_0_r in Hall. exact Hall. }
    assert (Hrest : forall k y, xs !! k = Some y -> all !! (S i + k)%nat = Some y).
    { intros k y Hk. specialize (Hall (S k) y Hk).
      rewrite Nat.add_succ_r in Hall. exact Hall. }
    destruct (PyFloat.ltb x best) eqn:E.
    + apply PyFloat_ltb_lt in E.
      destruct (IH all i x (S i) Hx Hrest) as (m & Hm & Hle & Hfor).
      exists m. split; [exact Hm|]. split.
      * apply Qlt_le_weak. exact (Qle_lt_trans _ _ _ Hle E).
      * constructor; assumption.
    + apply PyFloat_ltb_ge in E.
      destruct (IH all best_i best (S i) Hbest Hrest) as (m & Hm & Hle & Hfor).
      exists m. split; [exact Hm|]. split; [exact Hle|].
      constructor; [exact (Qle_trans _ _ _ Hle E) | exact Hfor].
Qed.

Lemma np_argmin_least (xs : list Q) :
  xs <> [] ->
  (np_argmin xs < length xs)%nat /\
  exists m, xs !! np_argmin xs = Some m /\ Forall (fun x => m <= x) xs.
Proof.
  destruct xs as [|x xs]; [congruence|]. intros _. unfold np_argmin. split.
  - pose proof (argmin_from_bound xs 0 x 1). simpl. lia.
  - destruct (argmin_from_least xs (x :: xs) 0 x 1 eq_refl) as (m & Hm & Hle & Hfor).
    { intros k y Hk. exact Hk. }
    exists m. split; [exact Hm|]. constructor; assumption.
Qed.

End SyntheticLabelFacts.

(** The labels of a synthetic anomaly row are fit for a sigmoid output:
    all five lie between 0 and 1.  A type entry that is set lies above 0.5
    and at most at 0.9, except the quality entry, which is 0 or 0.3; and a
    row with risk 0 has no type entry set. *)
Theorem anomaly_synthetic_labels_are_probabilities :
  forall (row : list Q),
    let v := anomaly_synthetic_labels row in
    length v = 5%nat /\
    Forall (fun x => 0 <= x /\ x <= 1) v /\
    (forall j x, (1 <= j <= 3)%nat -> v !! j = Some x ->
                 x = 0 \/ (1 # 2 < x /\ x <= 9 # 10)) /\
    (v !! 4%nat = Some 0 \/ v !! 4%nat = Some (3 # 10)) /\
    (forall risk, v !! 0%nat = Some risk -> risk == 0 ->
                  v = [risk; 0; 0; 0; 0]).
Proof.
  intros row v. subst v.
  destruct (anomaly_synthetic_labels_eq row)
    as (risk & e1 & e2 & e3 & e4 & -> & H1 & H2 & H3 & H4 & Hr0 & Hr1 & Hz).
  assert (Hflag : forall e, e = 0 \/ (1 # 2 < e /\ e <= 9 # 10) ->
                            0 <= e /\ e <= 1).
  { intros e [->|[Ha Hb]]; [split; discriminate|]. split.
    - apply Qlt_le_weak. apply (Qlt_trans _ (1 # 2)); [reflexivity | exact Ha].
    - apply (Qle_trans _ (9 # 10)); [exact Hb | discriminate]. }
  split; [reflexivity|]. split; [|split; [|split]].
  - repeat constructor; try assumption; try (apply Hflag; assumption).
    + destruct H4 as [->| ->]; discriminate.
    + destruct H4 as [->| ->]; discriminate.
  - intros j x Hj Hx.
    destruct j as [|[|[|[|j]]]]; try lia; injection Hx as <-; assumption.
  - destruct H4 as [->| ->]; auto.
  - intros r [= <-] Hzero. destruct (Hz Hzero) as (-> & -> & -> & ->).
    reflexivity.
Qed.

Lemma anomaly_synthetic_labels_are_probabilities_witness :
  exists x,
    anomaly_synthetic_labels high_waste_row !! 1%nat = Some x /\
    (x = 0 \/ (1 # 2 < x /\ x <= 9 # 10)).
Proof.
  destruct (anomaly_synthetic_labels high_waste_row !! 1%nat) as [x|] eqn:Hx;
    [|vm_compute in Hx; discriminate].
  exists x. split; [reflexivity|].
  apply (proj1 (proj2 (proj2 (anomaly_synthetic_labels_are_probabilities
                                high_waste_row))) 1%nat x); [lia | exact Hx].
Defined.

(** Every class the algorithm selector is trained on is one of its three
    outputs.  On real data a class other than 0 is given only to a record
    that names the algorithm of that class: a missing, unknown or
    non-string name is silently class 0, BOTTOM_LEFT.  On a synthetic row
    on which none of the three rules fires, the class is that of the least
    historical waste. *)
Theorem algorithm_labels_are_valid_classes :
  (forall (r : gmap string json) (l : Z),
     algorithm_label r = Ok l ->
     (0 <= l < 3)%Z /\
     (l <> 0%Z ->
      exists s, r !! "bestAlgorithm"%string = Some (JStr s) /\
                ALGORITHMS !! Z.to_nat l = Some s)) /\
  (forall (row : list Q),
     let l := algorithm_synthetic_label row in
     (0 <= l < 3)%Z /\
     (at_column row 0 <= 7 # 10 ->
      at_column row 6 <= 5 # 10 ->
      at_column row 1 <= 6 # 10 ->
      Forall (fun w => at_column row (9 + Z.to_nat l) <= w)
             [at_column row 9; at_column row 10; at_column row 11])).
Proof.
  split.
  - intros r l. unfold algorithm_label, record_get.
    destruct (r !! "bestAlgorithm"%string) as [v|] eqn:Hr;
      cbn [default from_option id].
    + destruct v as [|b|q|s|items|members]; cbv beta iota; try discriminate;
        try (intros [= <-]; split; [lia|congruence]).
      unfold algo_map, ALGORITHMS.
      cbn [imap List.find fst snd Basics.compose].
      destruct (String.eqb "BOTTOM_LEFT" s) eqn:E0;
        cbn [imap List.find fst snd Basics.compose].
      { intros [= <-]. split; [simpl; lia|].
        intros H; exfalso; apply H; reflexivity. }
      destruct (String.eqb "GUILLOTINE" s) eqn:E1;
        cbn [imap List.find fst snd Basics.compose].
      { intros [= <-]. split; [simpl; lia|]. intros _. exists s.
        apply String.eqb_eq in E1. subst s. split; reflexivity. }
      destruct (String.eqb "MAXRECTS" s) eqn:E2;
        cbn [imap List.find fst snd Basics.compose].
      { intros [= <-]. split; [simpl; lia|]. intros _. exists s.
        apply String.eqb_eq in E2. subst s. split; reflexivity. }
      intros [= <-]. split; [lia|congruence].
    + simpl. intros [= <-]. split; [lia|].
      intros H. exfalso. apply H. reflexivity.
  - intros row l. subst l. unfold algorithm_synthetic_label.
    destruct (np_argmin_least [at_column row 9; at_column row 10; at_column row 11])
      as (Hlt & m & Hm & Hleast); [discriminate|].
    set (a := np_argmin [at_column row 9; at_column row 10; at_column row 11]) in *.
    cbn [length] in Hlt. split.
    + destruct (PyFloat.gtb (at_column row 0) (7 # 10)); [lia|].
      destruct (PyFloat.gtb (at_column row 6) (5 # 10)); [lia|].
      destruct (PyFloat.gtb (at_column row 1) (6 # 10)); lia.
    + intros R0 R6 R1.
      apply PyFloat_gtb_le in R0, R6, R1. rewrite R0, R6, R1.
      rewrite Nat2Z.id.
      assert (Em : at_column row (9 + a) = m).
      { destruct a as [|[|[|a]]]; try lia; injection Hm as <-; reflexivity. }
      rewrite Em. exact Hleast.
Qed.

Lemma algorithm_labels_are_valid_classes_witness :
  (algorithm_label guillotine_record = Ok 1%Z /\
   exists s, guillotine_record !! "bestAlgorithm"%string = Some (JStr s) /\
             ALGORITHMS !! Z.to_nat 1 = Some s) /\
  Forall (fun w => at_column no_rule_row
                     (9 + Z.to_nat (algorithm_synthetic_label no_rule_row)) <= w)
         [at_column no_rule_row 9; at_column no_rule_row 10;
          at_column no_rule_row 11].
Proof.
  assert (H : algorithm_label guillotine_record = Ok 1%Z) by reflexivity.
  split; [split; [exact H|]|].
  - apply (proj2 (proj1 algorithm_labels_are_valid_classes guillotine_record
                        1%Z H)).
    discriminate.
  - apply (proj2 (proj2 algorithm_labels_are_valid_classes no_rule_row));
      discriminate.
Defined.
